(** * pointctl: the dataset acquisition script [inverse_projections/get_datasets.py]

    A shallow embedding of the script and the properties of its
    download / verify / transform life cycle.

    - [SHA256]: the digest computed by [hashlib.sha256(..).hexdigest()].
    - The file system, the network and the effects of a call; the
      [Dataset] class with its methods, as state-passing commands that
      return their outcome, the file system they leave and the trace of
      what they did.
    - [Pandas]: the fragment of pandas, numpy and scikit-learn used by the
      ten [process_*] routines, and the table each routine computes.
    - The catalogue and the main loop.
    - The properties: of the table library first, then of the life cycle. *)

From Stdlib Require Import ZArith QArith Qminmax Lqa List String Ascii Lia.
From Stdlib.Strings Require Import Byte.
From Stdlib Require Floats.
From stdpp Require Import base option list strings gmap pretty.

Abbreviation bytes := (list byte).

(** ** SHA-256 (FIPS 180-4), as used through [hashlib.sha256] *)

Module SHA256.
Local Open Scope Z_scope.

(** 32-bit words are integers reduced modulo [2^32]. *)
Definition wrap32 (x : Z) : Z := x mod 2 ^ 32.
Definition add32 (x y : Z) : Z := wrap32 (x + y).
Definition not32 (x : Z) : Z := Z.lxor x 0xffffffff.
Definition rotr (n x : Z) : Z :=
  Z.lor (Z.shiftr x n) (wrap32 (Z.shiftl x (32 - n))).
Definition shr (n x : Z) : Z := Z.shiftr x n.

Definition Ch (x y z : Z) : Z := Z.lxor (Z.land x y) (Z.land (not32 x) z).
Definition Maj (x y z : Z) : Z :=
  Z.lxor (Z.lxor (Z.land x y) (Z.land x z)) (Z.land y z).
Definition bsig0 (x : Z) : Z := Z.lxor (Z.lxor (rotr 2 x) (rotr 13 x)) (rotr 22 x).
Definition bsig1 (x : Z) : Z := Z.lxor (Z.lxor (rotr 6 x) (rotr 11 x)) (rotr 25 x).
Definition ssig0 (x : Z) : Z := Z.lxor (Z.lxor (rotr 7 x) (rotr 18 x)) (shr 3 x).
Definition ssig1 (x : Z) : Z := Z.lxor (Z.lxor (rotr 17 x) (rotr 19 x)) (shr 10 x).

(** The constants are fractional parts of roots of the first primes: the
    first 32 bits of the cube roots for the round constants, of the square
    roots for the initial chaining value. *)
Definition primes : list Z :=
  [ 2; 3; 5; 7; 11; 13; 17; 19; 23; 29; 31; 37; 41; 43; 47; 53; 59; 61; 67; 71;
    73; 79; 83; 89; 97; 101; 103; 107; 109; 113; 127; 131; 137; 139; 149; 151;
    157; 163; 167; 173; 179; 181; 191; 193; 197; 199; 211; 223; 227; 229; 233;
    239; 241; 251; 257; 263; 269; 271; 277; 281; 283; 293; 307; 311 ].

(** The integer cube root, one bit at a time from bit [k - 1] down. *)
Fixpoint cbrt_from (k : nat) (n r : Z) : Z :=
  match k with
  | O => r
  | S k' =>
      let r' := r + 2 ^ Z.of_nat k' in
      cbrt_from k' n (if r' * r' * r' <=? n then r' else r)
  end.

Definition frac_cbrt32 (p : Z) : Z := wrap32 (cbrt_from 40 (p * 2 ^ 96) 0).
Definition frac_sqrt32 (p : Z) : Z := wrap32 (Z.sqrt (p * 2 ^ 64)).

Definition K : list Z := map frac_cbrt32 primes.

(** The eight working variables, and the chaining value. *)
Record regs := Regs { ra : Z; rb : Z; rc : Z; rd : Z; re : Z; rf : Z; rg : Z; rh : Z }.

Definition H0 : regs :=
  Regs (frac_sqrt32 2) (frac_sqrt32 3) (frac_sqrt32 5) (frac_sqrt32 7)
       (frac_sqrt32 11) (frac_sqrt32 13) (frac_sqrt32 17) (frac_sqrt32 19).

(** Padding: a [0x80] byte, zeros up to 56 modulo 64, then the bit length
    on eight bytes, most significant first. *)
Definition be_bytes (n : nat) (x : Z) : list Z :=
  map (fun i => Z.land (Z.shiftr x (8 * Z.of_nat i)) 0xff) (rev (seq 0 n)).

Definition pad (msg : list Z) : list Z :=
  let l := Z.of_nat (length msg) in
  let k := Z.to_nat ((55 - l) mod 64) in
  msg ++ 0x80 :: repeat 0 k ++ be_bytes 8 (8 * l).

Definition be_word (b3 b2 b1 b0 : Z) : Z :=
  Z.lor (Z.shiftl b3 24) (Z.lor (Z.shiftl b2 16) (Z.lor (Z.shiftl b1 8) b0)).

Fixpoint words (bs : list Z) : list Z :=
  match bs with
  | b3 :: b2 :: b1 :: b0 :: rest => be_word b3 b2 b1 b0 :: words rest
  | _ => []
  end.

(** The message schedule, grown from the sixteen words of a block. *)
Fixpoint extend (n : nat) (w : list Z) : list Z :=
  match n with
  | O => w
  | S n' =>
      let t := length w in
      let at_ k := nth (t - k) w 0 in
      extend n' (w ++ [add32 (add32 (ssig1 (at_ 2%nat)) (at_ 7%nat))
                             (add32 (ssig0 (at_ 15%nat)) (at_ 16%nat))])
  end.

Definition round (s : regs) (kw : Z * Z) : regs :=
  let t1 := add32 (add32 (add32 (rh s) (bsig1 (re s)))
                         (add32 (Ch (re s) (rf s) (rg s)) (fst kw))) (snd kw) in
  let t2 := add32 (bsig0 (ra s)) (Maj (ra s) (rb s) (rc s)) in
  Regs (add32 t1 t2) (ra s) (rb s) (rc s) (add32 (rd s) t1) (re s) (rf s) (rg s).

Definition compress (h : regs) (block : list Z) : regs :=
  let s := fold_left round (combine K (extend 48 block)) h in
  Regs (add32 (ra h) (ra s)) (add32 (rb h) (rb s)) (add32 (rc h) (rc s))
       (add32 (rd h) (rd s)) (add32 (re h) (re s)) (add32 (rf h) (rf s))
       (add32 (rg h) (rg s)) (add32 (rh h) (rh s)).

Fixpoint blocks (n : nat) (ws : list Z) : list (list Z) :=
  match n with
  | O => []
  | S n' => firstn 16 ws :: blocks n' (skipn 16 ws)
  end.

Definition digest (msg : bytes) : regs :=
  let ws := words (pad (map (fun b => Z.of_N (Byte.to_N b)) msg)) in
  fold_left compress (blocks (length ws / 16) ws) H0.

(** Lower-case hexadecimal, as [hexdigest] prints it. *)
Definition hex_digit (d : Z) : ascii :=
  nth (Z.to_nat d) (list_ascii_of_string "0123456789abcdef") "0"%char.

Definition hex8 (x : Z) (tail : string) : string :=
  let nib i := hex_digit (Z.land (Z.shiftr x (4 * i)) 0xf) in
  String (nib 7) (String (nib 6) (String (nib 5) (String (nib 4)
    (String (nib 3) (String (nib 2) (String (nib 1) (String (nib 0) tail))))))).

Definition hexdigest (msg : bytes) : string :=
  let h := digest msg in
  hex8 (ra h) (hex8 (rb h) (hex8 (rc h) (hex8 (rd h)
    (hex8 (re h) (hex8 (rf h) (hex8 (rg h) (hex8 (rh h) ""))))))).

End SHA256.

(** [hashlib.sha256(data).hexdigest()] *)
Definition sha256_hexdigest (data : bytes) : string := SHA256.hexdigest data.
Arguments sha256_hexdigest : simpl never.


(** ** The file system, effects and the result of a call *)

(** A resolved [pathlib.Path] is the list of its components from the root. *)
Abbreviation Path := (list string).

Inductive node :=
| File (content : bytes)
| Dir.

Abbreviation FS := (gmap (list string) node).

(** What a call does to the outside world, in order. [EDigest] records the
    digest computed over the bytes read from a file. *)
Inductive event :=
| EPrint (text : string)
| EMkdir (p : Path)
| EGet (url : string)
| EWrite (p : Path)
| ERead (p : Path)
| EDigest (p : Path) (hex : string).

(** The exceptions the script can end with. None is caught anywhere, so a
    raised exception ends the process; [exit(1)] raises [SystemExit 1]. *)
Inductive exn :=
| NameError (variable : string)
| TypeError
| ValueError
| FileNotFoundError (p : Path)
| FileExistsError (p : Path)
| NotADirectoryError (p : Path)
| IsADirectoryError (p : Path)
| ConnectionError (url : string)
| ChunkedEncodingError
| TransformError
| SystemExit (code : Z).

Inductive outcome (A : Type) :=
| Ok (a : A)
| Raise (e : exn).
Arguments Ok {A} a.
Arguments Raise {A} e.

(** Exit status of the interpreter for a script that ends this way. *)
Definition exit_status {A} (r : outcome A) : Z :=
  match r with
  | Ok _ => 0
  | Raise (SystemExit c) => c
  | Raise _ => 1
  end.

(** A command runs on a file system and yields its outcome, the file system
    it leaves and the events it emitted. *)
Definition M (A : Type) : Type := FS -> outcome A * FS * list event.

#[export] Instance M_ret : MRet M := fun A a fs => (Ok a, fs, []).
#[export] Instance M_bind : MBind M := fun A B f m fs =>
  match m fs with
  | (Ok a, fs1, t1) => let '(r, fs2, t2) := f a fs1 in (r, fs2, t1 ++ t2)
  | (Raise e, fs1, t1) => (Raise e, fs1, t1)
  end.

Definition raise {A} (e : exn) : M A := fun fs => (Raise e, fs, []).
Definition emit (e : event) : M unit := fun fs => (Ok tt, fs, [e]).
Definition print (text : string) : M unit := emit (EPrint text).

Definition result_of {A} (x : outcome A * FS * list event) : outcome A := x.1.1.
Definition fs_of {A} (x : outcome A * FS * list event) : FS := x.1.2.
Definition trace_of {A} (x : outcome A * FS * list event) : list event := x.2.

(** What sits at a path; the root is always a directory. *)
Definition stat (fs : FS) (p : Path) : option node :=
  match p with
  | [] => Some Dir
  | _ => fs !! p
  end.

Definition present (fs : FS) (p : Path) : bool :=
  match stat fs p with Some _ => true | None => false end.

Definition is_dir (fs : FS) (p : Path) : bool :=
  match stat fs p with Some Dir => true | _ => false end.

(** The bytes of the regular file at a path, if there is one. *)
Definition file_at (fs : FS) (p : Path) : option bytes :=
  match stat fs p with Some (File c) => Some c | _ => None end.

Definition parent (p : Path) : Path := removelast p.

(** [Path.exists()] *)
Definition exists_ (p : Path) : M bool := fun fs => (Ok (present fs p), fs, []).

(** [Path.mkdir(parents=True, exist_ok=True)]: every missing component is
    created, from the root down. A regular file in the way makes the call
    fail: [FileExistsError] if it is the path itself, [NotADirectoryError]
    if it is one of its ancestors. *)
Definition mkdir1 (q rest : Path) : M unit := fun fs =>
  match stat fs q with
  | None => (Ok tt, <[q := Dir]> fs, [EMkdir q])
  | Some Dir => (Ok tt, fs, [])
  | Some (File _) =>
      (Raise (match rest with
              | [] => FileExistsError q
              | _ => NotADirectoryError (q ++ rest)
              end), fs, [])
  end.

Fixpoint mkdir_from (done todo : Path) : M unit :=
  match todo with
  | [] => mret tt
  | c :: rest => mkdir1 (done ++ [c]) rest;; mkdir_from (done ++ [c]) rest
  end.

Definition mkdir_parents (p : Path) : M unit := mkdir_from [] p.

(** [Path.mkdir()]: the directory must be new and its parent present. *)
Definition mkdir (p : Path) : M unit := fun fs =>
  if present fs p then (Raise (FileExistsError p), fs, [])
  else if is_dir fs (parent p) then (Ok tt, <[p := Dir]> fs, [EMkdir p])
  else (Raise (FileNotFoundError p), fs, []).

(** [open(p, "wb")]: creates or truncates the file. *)
Definition open_wb (p : Path) : M unit := fun fs =>
  if is_dir fs p then (Raise (IsADirectoryError p), fs, [])
  else match stat fs (parent p) with
       | Some Dir => (Ok tt, <[p := File []]> fs, [EWrite p])
       | Some (File _) => (Raise (NotADirectoryError p), fs, [])
       | None => (Raise (FileNotFoundError p), fs, [])
       end.

(** [f.write(chunk)] on the file opened at [p]. *)
Definition write (p : Path) (chunk : bytes) : M unit := fun fs =>
  match file_at fs p with
  | Some c => (Ok tt, <[p := File (c ++ chunk)]> fs, [])
  | None => (Raise ValueError, fs, [])
  end.

(** [open(p, "rb")] followed by [f.read()]. *)
Definition read_file (p : Path) : M bytes := fun fs =>
  match stat fs p with
  | Some (File c) => (Ok c, fs, [ERead p])
  | Some Dir => (Raise (IsADirectoryError p), fs, [])
  | None => (Raise (FileNotFoundError p), fs, [])
  end.

(** ** The network *)

(** What [requests.get(url, stream=True)] meets: no answer, or a response
    with its [Content-Length] header (when the server sends one) and the
    chunks [iter_content] yields; [broken] says that the body ends early
    after the last of these chunks, which [iter_content] reports by raising
    [ChunkedEncodingError] (bytes received but not yet yielded as a chunk
    are lost with it). *)
Record response := Response {
  content_length : option string;
  chunks : list bytes;
  broken : bool }.

Inductive http :=
| Unreachable
| Responds (r : response).

Definition requests_get (net : string -> http) (url : string) : M response :=
  emit (EGet url);;
  match net url with
  | Unreachable => raise (ConnectionError url)
  | Responds r => mret r
  end.

(** [int(s)] on a header value, a [str] decoded as latin-1: blanks around
    it are dropped; what is left is an optional sign and decimal digits,
    where one underscore may stand between two digits. No other character
    of latin-1 is a digit or a blank for [int]. The cap on the number of
    digits that Python 3.11 introduced is not modelled. *)
Definition digit_of (c : ascii) : option Z :=
  let n := Z.of_nat (nat_of_ascii c) in
  if ((48 <=? n) && (n <=? 57))%Z then Some (n - 48)%Z else None.

Definition py_space (c : ascii) : bool :=
  let n := nat_of_ascii c in
  ((9 <=? n) && (n <=? 13))%nat || ((28 <=? n) && (n <=? 32))%nat ||
  (n =? 133)%nat || (n =? 160)%nat.

Fixpoint lstrip (s : string) : string :=
  match s with
  | String c s' => if py_space c then lstrip s' else s
  | EmptyString => s
  end.

Definition reverse_string (s : string) : string :=
  string_of_list_ascii (rev (list_ascii_of_string s)).

Definition strip (s : string) : string :=
  reverse_string (lstrip (reverse_string (lstrip s))).

(** The digits after a first digit. *)
Fixpoint digits_from (acc : Z) (s : string) : option Z :=
  match s with
  | EmptyString => Some acc
  | String "_" (String c s') =>
      match digit_of c with
      | Some d => digits_from (10 * acc + d)%Z s'
      | None => None
      end
  | String c s' =>
      match digit_of c with
      | Some d => digits_from (10 * acc + d)%Z s'
      | None => None
      end
  end.

Definition py_digits (s : string) : option Z :=
  match s with
  | EmptyString => None
  | String c s' =>
      match digit_of c with
      | Some d => digits_from d s'
      | None => None
      end
  end.

Definition py_int (s : string) : option Z :=
  match strip s with
  | String "-" s' => Z.opp <$> py_digits s'
  | String "+" s' => py_digits s'
  | s' => py_digits s'
  end.

(** [int(r.headers.get("Content-Length"))] *)
Definition int_content_length (r : response) : M Z :=
  match content_length r with
  | None => raise TypeError
  | Some s => match py_int s with
              | None => raise ValueError
              | Some n => mret n
              end
  end.

(** ** The [Dataset] class *)

Record Dataset := {
  name : string;
  url : string;
  hash : string;
  raw_file_path : Path;
  clean_file_path : Path;
  processing_function : Path -> Path -> M unit }.

(** The surroundings of a method call: the network, and the value of the
    module-level variable [dataset], which the main loop binds and two
    methods read. *)
Record Env := {
  net : string -> http;
  dataset : option Dataset }.

Definition global_dataset (env : Env) : M Dataset :=
  match dataset env with
  | None => raise (NameError "dataset")
  | Some d => mret d
  end.

Definition nl : string := String (ascii_of_nat 10) "".

Definition missing_message (d : Dataset) : string :=
  "Source file for " +:+ name d +:+ " is missing, downloading it".

Definition hash_message (d : Dataset) : string :=
  "The file hosted as " +:+ url d +:+ " has an unexpected hash." +:+ nl +:+
  "Please manually check if the processing is still correct".

Definition check_hash (env : Env) (self : Dataset) : M unit :=
  content ← read_file (raw_file_path self);
  let file_hash := sha256_hexdigest content in
  emit (EDigest (raw_file_path self) file_hash);;
  if bool_decide (file_hash = hash self) then mret tt
  else
    d ← global_dataset env;
    print (hash_message d);;
    raise (SystemExit 1).

(** The loop over [r.iter_content(chunk_size=1024)]: empty chunks are
    skipped. The progress bar only writes to the terminal and is left out. *)
Fixpoint write_chunks (p : Path) (cs : list bytes) : M unit :=
  match cs with
  | [] => mret tt
  | c :: cs' =>
      (match c with [] => mret tt | _ => write p c end);;
      write_chunks p cs'
  end.

Definition download_file (env : Env) (self : Dataset) : M unit :=
  mkdir_parents (parent (raw_file_path self));;
  r ← requests_get (net env) (url self);
  _ ← int_content_length r;
  open_wb (raw_file_path self);;
  write_chunks (raw_file_path self) (chunks r);;
  (if broken r then raise ChunkedEncodingError else mret tt);;
  check_hash env self.

Definition verify_downloaded (env : Env) (self : Dataset) : M unit :=
  d ← global_dataset env;
  exists_ (raw_file_path d) ≫= λ present : bool,
  if present then mret tt
  else
    d' ← global_dataset env;
    print (missing_message d');;
    download_file env self.

Definition process (env : Env) (self : Dataset) : M unit :=
  verify_downloaded env self;;
  processing_function self (raw_file_path self) (clean_file_path self).

(** ** Transformation routines as file-to-file commands *)

(** The ten [process_*] functions share one shape: read [input_file],
    compute the clean table, print its size, write [output_file]. [compute]
    is the routine's table computation on the bytes read; it yields the
    line printed and the bytes written, or nothing when the routine raises. *)
Definition file_routine (compute : bytes -> option (string * bytes))
    (input_file output_file : Path) : M unit :=
  raw ← read_file input_file;
  match compute raw with
  | None => raise TransformError
  | Some (line, clean) =>
      print line;;
      open_wb output_file;;
      write output_file clean
  end.

(** ** The table library: pandas, numpy and scikit-learn as the routines use them *)

Module Pandas.

(** *** Columns and frames

    A column label is a position (files read with [header=None]) or a
    name. A column is numeric or of dtype [object]; a missing value (NaN)
    is [None]. Numbers are exact rationals: the rounding of 64-bit floats
    is not modelled. Columns of booleans and of mixed objects do not occur
    in the files of the catalogue and are not modelled. *)
Inductive label :=
| LInt (n : nat)
| LStr (s : string).

#[export] Instance label_eq_dec : EqDecision label.
Proof. solve_decision. Defined.

(** [str(label)] *)
Definition label_str (l : label) : string :=
  match l with
  | LInt n => pretty n
  | LStr s => s
  end.

(** Objects in a column read from a file are [str]; those of a nominal
    ARFF attribute are [bytes]. *)
Inductive obj_kind := KStr | KBytes.

Inductive series :=
| NumCol (xs : list (option Q))
| ObjCol (k : obj_kind) (xs : list (option string)).

Abbreviation frame := (list (label * series)).

Definition series_length (s : series) : nat :=
  match s with
  | NumCol xs => length xs
  | ObjCol _ xs => length xs
  end.

(** [len(df)] and [len(df.columns)] *)
Definition nrows (df : frame) : nat :=
  match df with
  | [] => 0
  | (_, s) :: _ => series_length s
  end.

Definition ncols (df : frame) : nat := length df.
Definition columns (df : frame) : list label := map fst df.

(** *** Reading a file

    A file comes as its records, each the list of its fields as text: the
    tokenizer (delimiter, quoting, encoding) is outside the model. *)
Abbreviation grid := (list (list string)).

(** Fields read as numbers: an optional sign, digits, an optional
    fraction. The other spellings pandas takes for numbers (exponents,
    blanks around the number, [inf]) are outside the model, which keeps
    them as text. *)
Fixpoint scan_digits (s : string) (acc : Z) (n : nat) : Z * nat * string :=
  match s with
  | String c s' =>
      match digit_of c with
      | Some d => scan_digits s' (10 * acc + d)%Z (S n)
      | None => (acc, n, s)
      end
  | EmptyString => (acc, n, s)
  end.

Definition unsigned_numeric (s : string) : option Q :=
  let '(ip, ni, rest) := scan_digits s 0%Z 0 in
  match rest with
  | EmptyString => if ni is O then None else Some (inject_Z ip)
  | String "." frac =>
      let '(fp, nf, rest') := scan_digits frac 0%Z 0 in
      match rest' with
      | EmptyString =>
          if (ni + nf)%nat is O then None
          else Some (Qred (Qmake (ip * 10 ^ Z.of_nat nf + fp) (Z.to_pos (10 ^ Z.of_nat nf))))
      | _ => None
      end
  | _ => None
  end.

Definition to_numeric (s : string) : option Q :=
  match s with
  | String "-" s' => Qopp <$> unsigned_numeric s'
  | String "+" s' => unsigned_numeric s'
  | _ => unsigned_numeric s
  end.

(** The strings [read_csv] takes for a missing value by default, as in
    pandas 1.x (pandas 2 adds [None]). *)
Definition default_na : list string :=
  [ ""; "#N/A"; "#N/A N/A"; "#NA"; "-1.#IND"; "-1.#QNAN"; "-NaN"; "-nan";
    "1.#IND"; "1.#QNAN"; "<NA>"; "N/A"; "NA"; "NULL"; "NaN"; "n/a"; "nan"; "null" ].

Definition mask_na (na_values : list string) (field : string) : option string :=
  if bool_decide (field ∈ default_na ++ na_values) then None else Some field.

(** The dtype of a column: numeric when every field present is a number. *)
Definition infer_series (fields : list (option string)) : series :=
  match mapM (fun f => match f with
                       | None => Some None
                       | Some s => Some <$> to_numeric s
                       end) fields with
  | Some xs => NumCol xs
  | None => ObjCol KStr fields
  end.

Definition column_fields (j : nat) (records : grid) : list string :=
  map (fun r => nth j r ""%string) records.

Definition rectangular (width : nat) (records : grid) : bool :=
  forallb (fun r => Nat.eqb (length r) width) records.

Definition frame_of_records (na_values : list string) (labels : list label)
    (records : grid) : option frame :=
  if rectangular (length labels) records then
    Some (imap (fun j l => (l, infer_series (mask_na na_values <$> column_fields j records)))
               labels)
  else None.

(** The [header] argument: the default takes the first record for the
    names, [header=None] numbers the columns and keeps every record,
    [header=n] skips [n] records and takes the next one for the names.
    Files whose records differ in length are outside the model. *)
Inductive header_arg :=
| HeaderInfer
| HeaderNone
| HeaderRow (n : nat).

(** The names of a header record: a field left empty is named after its
    position, and a name already taken gets the count of its earlier
    uses as suffix ([a], [a.1], [a.2]), again if that is taken too, as in
    pandas 1.x. *)
Definition unnamed (j : nat) (s : string) : string :=
  if bool_decide (s = ""%string) then "Unnamed: " +:+ pretty j else s.

Definition count_of (counts : list (string * nat)) (col : string) : nat :=
  default 0 (snd <$> list_find (fun e => e.1 = col) counts ≫= fun r => Some r.2).

Fixpoint dedup_name (fuel : nat) (counts : list (string * nat)) (col : string)
    : string * list (string * nat) :=
  match count_of counts col, fuel with
  | O, _ => (col, (col, 1) :: counts)
  | S c, S fuel' =>
      dedup_name fuel' ((col, S (S c)) :: counts) (col +:+ "." +:+ pretty (S c))
  | S c, O => (col, counts)
  end.

Fixpoint dedup_names (counts : list (string * nat)) (names : list string) : list string :=
  match names with
  | [] => []
  | col :: rest =>
      let '(col', counts') := dedup_name (S (length counts)) counts col in
      col' :: dedup_names counts' rest
  end.

Definition header_labels (names : list string) : list label :=
  LStr <$> dedup_names [] (imap unnamed names).

Definition read_table (header : header_arg) (na_values : list string) (g : grid)
    : option frame :=
  match header with
  | HeaderNone =>
      match g with
      | [] => None
      | r :: _ => frame_of_records na_values (LInt <$> seq 0 (length r)) g
      end
  | HeaderInfer =>
      match g with
      | [] => None
      | names :: records => frame_of_records na_values (header_labels names) records
      end
  | HeaderRow n =>
      match drop n g with
      | [] => None
      | names :: records => frame_of_records na_values (header_labels names) records
      end
  end.

(** [pd.read_csv(f)], [pd.read_csv(f, header=None)],
    [pd.read_csv(f, header=None, na_values=v)], [pd.read_excel(f, header=1)] *)
Definition read_csv (g : grid) : option frame := read_table HeaderInfer [] g.
Definition read_csv_header_none (g : grid) : option frame := read_table HeaderNone [] g.
Definition read_csv_header_none_na (na : string) (g : grid) : option frame :=
  read_table HeaderNone [na] g.
Definition read_excel_header_1 (g : grid) : option frame := read_table (HeaderRow 1) [] g.

(** An ARFF file: the declared attributes (name, and whether nominal) and
    the data records. [arff.loadarff] then [DataFrame.from_records]: a
    nominal attribute gives a column of [bytes], a numeric one a numeric
    column where [?] is NaN. *)
Record arff := Arff {
  attributes : list (string * bool);
  data : grid }.

Definition arff_series (nominal : bool) (fields : list string) : option series :=
  if nominal then Some (ObjCol KBytes (Some <$> fields))
  else NumCol <$> mapM (fun s => if bool_decide (s = "?"%string) then Some None
                                 else Some <$> to_numeric s) fields.

Definition loadarff (a : arff) : option frame :=
  if rectangular (length (attributes a)) (data a)
     && bool_decide (NoDup (fst <$> attributes a)) then
    mapM (fun '(j, (name, nominal)) =>
            s ← arff_series nominal (column_fields j (data a)); Some (LStr name, s))
         (imap pair (attributes a))
  else None.

(** *** Frame operations *)

Definition has_column (l : label) (df : frame) : bool :=
  bool_decide (l ∈ columns df).

(** [df[l]] *)
Fixpoint getitem (df : frame) (l : label) : option series :=
  match df with
  | [] => None
  | (l', s) :: df' => if decide (l' = l) then Some s else getitem df' l
  end.

(** [df[[l1, ..., ln]]] *)
Definition getitems (df : frame) (ls : list label) : option frame :=
  mapM (fun l => s ← getitem df l; Some (l, s)) ls.

(** [df.columns = names] *)
Definition set_columns (df : frame) (names : list string) : option frame :=
  if Nat.eqb (length names) (length df)
  then Some (zip (LStr <$> names) (snd <$> df))
  else None.

(** [df.drop(ls, axis=1)]: every label must be there. *)
Definition drop_columns (ls : list label) (df : frame) : option frame :=
  if forallb (fun l => has_column l df) ls
  then Some (filter (fun c => c.1 ∉ ls) df)
  else None.

(** [df[l] = s]: replaces the column in place, or appends it. *)
Definition setitem (df : frame) (l : label) (s : series) : option frame :=
  if negb (Nat.eqb (length df) 0) && negb (Nat.eqb (series_length s) (nrows df)) then None
  else if has_column l df
       then Some (map (fun c => if decide (c.1 = l) then (l, s) else c) df)
       else Some (df ++ [(l, s)]).

(** [df[l].str.decode("utf-8")] assigned back to [df[l]]: [bytes] become
    [str]; an element that is not [bytes] becomes NaN; a numeric column has
    no [.str]. *)
Definition str_decode (df : frame) (l : label) : option frame :=
  s ← getitem df l;
  match s with
  | NumCol _ => None
  | ObjCol KBytes xs => setitem df l (ObjCol KStr xs)
  | ObjCol KStr xs => setitem df l (ObjCol KStr (const None <$> xs))
  end.

(** Comparisons of a column with a constant, then [.astype("uint8")]. *)
Definition flag (b : bool) : option Q := Some (if b then 1 else 0)%Q.

Definition eq_number (s : series) (v : Q) : series :=
  match s with
  | NumCol xs => NumCol ((fun x => flag (from_option (fun q => Qeq_bool q v) false x)) <$> xs)
  | ObjCol _ xs => NumCol (const (flag false) <$> xs)
  end.

Definition eq_string (s : series) (v : string) : series :=
  match s with
  | NumCol xs => NumCol (const (flag false) <$> xs)
  | ObjCol KStr xs => NumCol ((fun x => flag (bool_decide (x = Some v))) <$> xs)
  | ObjCol KBytes xs => NumCol (const (flag false) <$> xs)
  end.

(** [s > 0]: comparing text with a number raises. *)
Definition gt_zero (s : series) : option series :=
  match s with
  | NumCol xs =>
      Some (NumCol ((fun x => flag (from_option (fun q => negb (Qle_bool q 0)) false x)) <$> xs))
  | ObjCol _ _ => None
  end.

(** *** [pd.get_dummies] *)

Fixpoint insert_sorted (s : string) (l : list string) : list string :=
  match l with
  | [] => [s]
  | x :: l' =>
      match String.compare s x with
      | Lt => s :: l
      | Eq => l
      | Gt => x :: insert_sorted s l'
      end
  end.

(** The values present in a column, sorted, each once. *)
Definition levels (xs : list (option string)) : list string :=
  foldr insert_sorted [] (omap id xs).

(** [str(value)] of a level. *)
Definition level_str (k : obj_kind) (v : string) : string :=
  match k with
  | KStr => v
  | KBytes => "b'" +:+ v +:+ "'"
  end.

Definition dummies (l : label) (k : obj_kind) (xs : list (option string)) : frame :=
  (fun v => (LStr (label_str l +:+ "_" +:+ level_str k v),
             NumCol ((fun x => flag (bool_decide (x = Some v))) <$> xs))) <$> levels xs.

Definition is_numeric (c : label * series) : bool :=
  match c.2 with NumCol _ => true | ObjCol _ _ => false end.

(** The numeric columns first, then the indicator columns of each object
    column in turn. *)
Definition get_dummies (df : frame) : frame :=
  filter (fun c => is_numeric c = true) df ++
  flat_map (fun c => match c.2 with
                     | NumCol _ => []
                     | ObjCol k xs => dummies c.1 k xs
                     end) df.

(** *** [sklearn.preprocessing] *)

Abbreviation array := (list (list (option Q))).

(** The frame as a numeric array, column by column: text cannot be
    converted, and there must be a row and a column. *)
Definition to_array (df : frame) : option array :=
  if Nat.eqb (ncols df) 0 || Nat.eqb (nrows df) 0 then None
  else mapM (fun c => match c.2 with NumCol xs => Some xs | ObjCol _ _ => None end) df.

(** [MinMaxScaler] on one column. NaN is ignored by the fit and kept by
    the transform; a constant column has its range replaced by 1. *)
Definition nanmin (xs : list (option Q)) : option Q :=
  match omap id xs with
  | [] => None
  | v :: vs => Some (foldr Qmin v vs)
  end.

Definition nanmax (xs : list (option Q)) : option Q :=
  match omap id xs with
  | [] => None
  | v :: vs => Some (foldr Qmax v vs)
  end.

Definition handle_zeros_in_scale (range : Q) : Q :=
  if Qeq_bool range 0 then 1%Q else range.

Definition scale_column (xs : list (option Q)) : list (option Q) :=
  match nanmin xs, nanmax xs with
  | Some data_min, Some data_max =>
      let data_range := (data_max - data_min)%Q in
      let scale_ := (1 / handle_zeros_in_scale data_range)%Q in
      let min_ := (0 - data_min * scale_)%Q in
      (fun x : option Q => (fun q => Qred (q * scale_ + min_)%Q) <$> x) <$> xs
  | _, _ => xs
  end.

(** [MinMaxScaler().fit_transform(X)] *)
Definition fit_transform (X : frame) : option array :=
  (fun a : array => scale_column <$> a) <$> to_array X.

(** The same on a numpy array. *)
Definition array_fit_transform (X : array) : option array :=
  if Nat.eqb (length X) 0 || Nat.eqb (length (hd [] X)) 0 then None
  else Some (scale_column <$> X).

(** [pd.DataFrame(data=X, columns=column_names)] *)
Definition DataFrame (X : array) (column_names : list label) : option frame :=
  if Nat.eqb (length X) (length column_names)
  then Some (zip column_names (NumCol <$> X))
  else None.

(** [LabelEncoder().fit_transform(y)]: each value becomes its rank among
    the sorted distinct values. Columns with a missing value are outside
    the model. *)
Fixpoint insert_sorted_Q (q : Q) (l : list Q) : list Q :=
  match l with
  | [] => [q]
  | x :: l' =>
      match Qcompare q x with
      | Lt => q :: l
      | Eq => l
      | Gt => x :: insert_sorted_Q q l'
      end
  end.

Fixpoint rank_Q (q : Q) (classes : list Q) : nat :=
  match classes with
  | [] => 0
  | x :: l' => if Qeq_bool q x then 0 else S (rank_Q q l')
  end.

Fixpoint rank_str (s : string) (classes : list string) : nat :=
  match classes with
  | [] => 0
  | x :: l' => if bool_decide (s = x) then 0 else S (rank_str s l')
  end.

Definition label_encode (y : series) : option series :=
  match y with
  | NumCol xs =>
      vs ← mapM id xs;
      let classes := foldr insert_sorted_Q [] vs in
      Some (NumCol ((fun v => Some (inject_Z (Z.of_nat (rank_Q v classes)))) <$> vs))
  | ObjCol _ xs =>
      vs ← mapM id xs;
      let classes := foldr insert_sorted [] vs in
      Some (NumCol ((fun v => Some (inject_Z (Z.of_nat (rank_str v classes)))) <$> vs))
  end.

(** *** The ten routines, up to the table they write *)

(** ["Processed dataset to {0} rows, {1} columns".format(len(X), len(X.columns))] *)
Definition processed_line (X : frame) : string :=
  "Processed dataset to " +:+ pretty (nrows X) +:+ " rows, " +:+
  pretty (ncols X) +:+ " columns".

Definition abalone_table (g : grid) : option frame :=
  df ← read_csv_header_none g;
  df ← set_columns df ["sex"; "length"; "diameter"; "height"; "whole_weight";
                       "shucked_weigth"; "viscera_weight"; "shell_weight"; "y"];
  X ← drop_columns [LStr "y"] df;
  let X := get_dummies X in
  let column_names := columns X in
  X ← fit_transform X;
  X ← DataFrame X column_names;
  y ← getitem df (LStr "y");
  setitem X (LStr "y") y.

(** [c.replace(" ", "_").replace("/", "_").lower()], on ASCII. *)
Definition lower_char (c : ascii) : ascii :=
  let n := nat_of_ascii c in
  if (65 <=? n)%nat && (n <=? 90)%nat then ascii_of_nat (n + 32) else c.

Fixpoint tidy_name (s : string) : string :=
  match s with
  | EmptyString => EmptyString
  | String c s' =>
      String (if bool_decide (c = " "%char) || bool_decide (c = "/"%char)
              then "_"%char else lower_char c) (tidy_name s')
  end.

Definition absenteeism_table (g : grid) : option frame :=
  df ← read_csv g;
  hours ← getitem df (LStr "Absenteeism time in hours");
  y ← gt_zero hours;
  X ← drop_columns [LStr "ID"; LStr "Absenteeism time in hours"] df;
  let X := get_dummies X in
  let column_names := (fun c => LStr (tidy_name (label_str c))) <$> columns X in
  X ← fit_transform X;
  X ← DataFrame X column_names;
  setitem X (LStr "y") y.

Definition bank_table (g : grid) : option frame :=
  df ← read_csv g;
  label_column ← getitem df (LStr "y");
  let y := eq_string label_column "yes" in
  X ← drop_columns [LStr "y"] df;
  let X := get_dummies X in
  let column_names := columns X in
  X ← fit_transform X;
  X ← DataFrame X column_names;
  setitem X (LStr "y") y.

Definition banknote_table (g : grid) : option frame :=
  df ← read_csv g;
  df ← set_columns df ["variance"; "skewness"; "curtosis"; "entropy"; "class"];
  label_column ← getitem df (LStr "class");
  let y := eq_number label_column 1 in
  X ← drop_columns [LStr "class"] df;
  let X := get_dummies X in
  let column_names := columns X in
  X ← fit_transform X;
  X ← DataFrame X column_names;
  setitem X (LStr "y") y.

Definition defaultcc_table (g : grid) : option frame :=
  df ← read_excel_header_1 g;
  label_column ← getitem df (LStr "default payment next month");
  let y := eq_number label_column 1 in
  X ← drop_columns [LStr "ID"; LStr "default payment next month"] df;
  let X := get_dummies X in
  let column_names := columns X in
  X ← fit_transform X;
  X ← DataFrame X column_names;
  setitem X (LStr "y") y.

Definition diabetes_table (g : grid) : option frame :=
  df ← read_csv g;
  label_column ← getitem df (LStr "class");
  let y := eq_string label_column "Positive" in
  X ← drop_columns [LStr "class"] df;
  let X := get_dummies X in
  let column_names := columns X in
  X ← fit_transform X;
  X ← DataFrame X column_names;
  setitem X (LStr "y") y.

Definition epileptic_table (g : grid) : option frame :=
  df ← read_csv g;
  X ← drop_columns [LStr "Unnamed: 0"] df;
  X ← drop_columns [LStr "y"] X;
  let column_names := columns X in
  X ← fit_transform X;
  X ← DataFrame X column_names;
  y ← getitem df (LStr "y");
  setitem X (LStr "y") y.

Definition happiness_table (g : grid) : option frame :=
  df ← read_csv g;
  label_column ← getitem df (LStr "D");
  let y := eq_number label_column 1 in
  X ← drop_columns [LStr "D"] df;
  let X := get_dummies X in
  let column_names := LStr <$> ["city_services"; "housing_cost"; "school_quality";
                                "police_trust"; "street_maint"; "community_events"] in
  X ← fit_transform X;
  X ← DataFrame X column_names;
  setitem X (LStr "y") y.

Definition seismic_table (a : arff) : option frame :=
  df ← loadarff a;
  df ← str_decode df (LStr "seismic");
  df ← str_decode df (LStr "seismoacoustic");
  df ← str_decode df (LStr "shift");
  df ← str_decode df (LStr "ghazard");
  df ← str_decode df (LStr "class");
  label_column ← getitem df (LStr "class");
  let y := eq_string label_column "1" in
  X ← drop_columns [LStr "class"] df;
  let X := get_dummies X in
  let column_names := columns X in
  X ← fit_transform X;
  X ← DataFrame X column_names;
  setitem X (LStr "y") y.

(** [np.array(tmp[[1, ..., 9]])]: text among the columns gives an array of
    objects, on which [np.isnan] raises. *)
Definition numeric_array (df : frame) : option array :=
  mapM (fun c => match c.2 with NumCol xs => Some xs | ObjCol _ _ => None end) df.

(** [X[np.isnan(X)] = 0.0] *)
Definition nan_to_zero (X : array) : array :=
  (fun col : list (option Q) => (fun x : option Q => Some (default 0%Q x)) <$> col) <$> X.

(** [np.array(tmp[[10]]).squeeze()]: with a single row the result has no
    dimension left, which [LabelEncoder] rejects. *)
Definition squeeze (s : series) : option series :=
  if Nat.eqb (series_length s) 1 then None else Some s.

Definition wbc_table (g : grid) : option frame :=
  tmp ← read_csv_header_none_na "?" g;
  X ← getitems tmp (LInt <$> [1; 2; 3; 4; 5; 6; 7; 8; 9]);
  X ← numeric_array X;
  y ← getitem tmp (LInt 10);
  y ← squeeze y;
  y ← label_encode y;
  let X := nan_to_zero X in
  X ← array_fit_transform X;
  let column_names := LStr <$> ["clump_thickness"; "uniformity_cell_size";
                                "uniformity_cell_shape"; "marginal_adhesion";
                                "single_epithelial_cell_size"; "bare_nuclei";
                                "bland_chromatin"; "normal_nucleoli"; "mitoses"] in
  X ← DataFrame X column_names;
  setitem X (LStr "y") y.

End Pandas.

(** ** The routines as the catalogue binds them *)

Import Pandas.

(** The routines by name, and the table each computes from the tokenized
    raw file: records for the delimited and spreadsheet files, a relation
    for the ARFF file. *)
Inductive routine :=
| Abalone | Absenteeism | Bank | Banknote | Defaultcc
| Diabetes | Epileptic | Happiness | Seismic | Wbc.

#[export] Instance routine_eq_dec : EqDecision routine.
Proof. solve_decision. Defined.

Inductive raw_table :=
| Records (g : grid)
| Relation (a : arff).

Definition clean_table (r : routine) (x : raw_table) : option frame :=
  match r, x with
  | Abalone, Records g => abalone_table g
  | Absenteeism, Records g => absenteeism_table g
  | Bank, Records g => bank_table g
  | Banknote, Records g => banknote_table g
  | Defaultcc, Records g => defaultcc_table g
  | Diabetes, Records g => diabetes_table g
  | Epileptic, Records g => epileptic_table g
  | Happiness, Records g => happiness_table g
  | Seismic, Relation a => seismic_table a
  | Wbc, Records g => wbc_table g
  | _, _ => None
  end.

(** The number of records the routine's reader keeps as rows: all of them
    with [header=None] and for ARFF, all but the first with the default
    header, all but the first two with [header=1]. *)
Definition records_read (r : routine) (x : raw_table) : nat :=
  match r, x with
  | (Abalone | Wbc), Records g => length g
  | Defaultcc, Records g => length g - 2
  | Seismic, Relation a => length (data a)
  | _, Records g => length g - 1
  | _, _ => 0
  end.

(** The names the raw file gives its columns. *)
Definition raw_names (r : routine) (x : raw_table) : list string :=
  match r, x with
  | Defaultcc, Records g => nth 1 g []
  | Seismic, Relation a => fst <$> attributes a
  | _, Records g => hd [] g
  | _, _ => []
  end.

(** No feature column ends up with the name [y]. Only the four routines
    that keep the raw names and drop a label of another name need it. *)
Definition no_feature_named_y (r : routine) (x : raw_table) : Prop :=
  match r with
  | Absenteeism => forall s, s ∈ raw_names r x -> tidy_name s <> "y"%string
  | Defaultcc | Diabetes | Seismic => "y"%string ∉ raw_names r x
  | _ => True
  end.

(** Reading and writing files: the tokenizers of pandas, [zipfile],
    [xlrd] and [scipy.io.arff], and the writer [to_csv], are parameters. *)
Record Codec := {
  csv_records : string -> string -> bytes -> option grid;
  zip_member : list string -> bytes -> option bytes;
  excel_records : bytes -> option grid;
  arff_relation : bytes -> option arff;
  to_csv : string -> frame -> bytes }.

Definition written_table (io : Codec) (X : frame) : string * bytes :=
  (processed_line X, to_csv io ";" X).

Definition process_abalone (io : Codec) : Path -> Path -> M unit :=
  file_routine (fun raw =>
    g ← csv_records io "," "utf-8" raw;
    written_table io <$> abalone_table g).

Definition process_absenteeism (io : Codec) : Path -> Path -> M unit :=
  file_routine (fun raw =>
    member ← zip_member io ["Absenteeism_at_work.csv"] raw;
    g ← csv_records io ";" "utf-8" member;
    written_table io <$> absenteeism_table g).

Definition process_bank (io : Codec) : Path -> Path -> M unit :=
  file_routine (fun raw =>
    member ← zip_member io ["bank-additional"; "bank-additional-full.csv"] raw;
    g ← csv_records io ";" "utf-8" member;
    written_table io <$> bank_table g).

Definition process_banknote (io : Codec) : Path -> Path -> M unit :=
  file_routine (fun raw =>
    g ← csv_records io "," "utf-8" raw;
    written_table io <$> banknote_table g).

Definition process_defaultcc (io : Codec) : Path -> Path -> M unit :=
  file_routine (fun raw =>
    g ← excel_records io raw;
    written_table io <$> defaultcc_table g).

Definition process_diabetes (io : Codec) : Path -> Path -> M unit :=
  file_routine (fun raw =>
    g ← csv_records io "," "utf-8" raw;
    written_table io <$> diabetes_table g).

Definition process_epileptic (io : Codec) : Path -> Path -> M unit :=
  file_routine (fun raw =>
    g ← csv_records io "," "utf-8" raw;
    written_table io <$> epileptic_table g).

Definition process_happiness (io : Codec) : Path -> Path -> M unit :=
  file_routine (fun raw =>
    g ← csv_records io "," "utf-16" raw;
    written_table io <$> happiness_table g).

Definition process_seismic (io : Codec) : Path -> Path -> M unit :=
  file_routine (fun raw =>
    a ← arff_relation io raw;
    written_table io <$> seismic_table a).

Definition process_wbc (io : Codec) : Path -> Path -> M unit :=
  file_routine (fun raw =>
    g ← csv_records io "," "utf-8" raw;
    written_table io <$> wbc_table g).

(** ** The catalogue and the main loop *)

(** [Path("../data")] resolved against the working directory. *)
Definition base_dir (cwd : Path) : Path := parent cwd ++ ["data"].

Definition datasets (io : Codec) (cwd : Path) : list Dataset :=
  let base := base_dir cwd in
  [ {| name := "abalone";
       url := "https://archive.ics.uci.edu/ml/machine-learning-databases/abalone/abalone.data";
       hash := "de37cdcdcaaa50c309d514f248f7c2302a5f1f88c168905eba23fe2fbc78449f";
       raw_file_path := base ++ ["abalone"; "raw"; "abalone.data"];
       clean_file_path := base ++ ["abalone"; "abalone.csv"];
       processing_function := process_abalone io |};
    {| name := "absenteeism";
       url := "https://archive.ics.uci.edu/ml/machine-learning-databases/00445/Absenteeism_at_work_AAA.zip";
       hash := "89ecdfed5f107bb97015c335b1d812d7ecbe86e601a23b56516967d8657e53c4";
       raw_file_path := base ++ ["absenteeism"; "raw"; "Absenteeism_at_work_AAA.zip"];
       clean_file_path := base ++ ["absenteeism"; "absenteeism.csv"];
       processing_function := process_absenteeism io |};
    {| name := "bank";
       url := "http://archive.ics.uci.edu/ml/machine-learning-databases/00222/bank-additional.zip";
       hash := "a607b5edab6c6c75ce09c39142a77702c38123bd5aa7ae89a63503bbe17d65cd";
       raw_file_path := base ++ ["bank"; "raw"; "bank-additional.zip"];
       clean_file_path := base ++ ["bank"; "bank.csv"];
       processing_function := process_bank io |};
    {| name := "banknote";
       url := "https://archive.ics.uci.edu/ml/machine-learning-databases/00267/data_banknote_authentication.txt";
       hash := "d0539aaed2139ba7a587b3e34fb345ce503ff7d5d33dbf9912d8e195ce425cb9";
       raw_file_path := base ++ ["banknote"; "raw"; "data_banknote_authentication.txt"];
       clean_file_path := base ++ ["banknote"; "banknote.csv"];
       processing_function := process_banknote io |};
    {| name := "diabetes";
       url := "https://archive.ics.uci.edu/ml/machine-learning-databases/00529/diabetes_data_upload.csv";
       hash := "7889d9d0beb7dd1ccc58da99f72763f16afb259b5dbbaa086f8195366ff66137";
       raw_file_path := base ++ ["diabetes"; "raw"; "diabetes_data_upload.csv"];
       clean_file_path := base ++ ["diabetes"; "diabetes.csv"];
       processing_function := process_diabetes io |};
    {| name := "epileptic";
       url := "http://archive.ics.uci.edu/ml/machine-learning-databases/00388/data.csv";
       hash := "4b3f6024ea24a864c0de51b2ba477bf8b9e4974e8cc01a00dcf45bfc59d48deb";
       raw_file_path := base ++ ["epileptic"; "raw"; "data-epileptic.csv"];
       clean_file_path := base ++ ["epileptic"; "epileptic.csv"];
       processing_function := process_epileptic io |};
    {| name := "happiness";
       url := "https://archive.ics.uci.edu/ml/machine-learning-databases/00479/SomervilleHappinessSurvey2015.csv";
       hash := "1feffca7dd0b9455b4bb16a72c3c5b33ddd78d8a13ea2c7578894481acb5c538";
       raw_file_path := base ++ ["happiness"; "raw"; "SomervilleHappinessSurvey2015.csv"];
       clean_file_path := base ++ ["happiness"; "happiness.csv"];
       processing_function := process_happiness io |};
    {| name := "seismic";
       url := "http://archive.ics.uci.edu/ml/machine-learning-databases/00266/seismic-bumps.arff";
       hash := "aabe512fab65b36d1dfb462650b75cfd8d99d8cc2723e8ecb4e6f5e1caccd5a7";
       raw_file_path := base ++ ["seismic"; "raw"; "seismic-bumps.arff"];
       clean_file_path := base ++ ["seismic"; "seismic.csv"];
       processing_function := process_seismic io |} ].

Definition esc : string := String (ascii_of_nat 27) "".

Definition gathering_message (d : Dataset) : string :=
  nl +:+ esc +:+ "[1;36mGathering " +:+ name d +:+ esc +:+ "[0m".

Definition links_message : string :=
  nl +:+
  "https://archive.ics.uci.edu/ml/datasets/Abalone" +:+ nl +:+
  "https://archive.ics.uci.edu/ml/datasets/Absenteeism+at+work" +:+ nl +:+
  "https://archive.ics.uci.edu/ml/datasets/Bank+Marketing" +:+ nl +:+
  "https://archive.ics.uci.edu/ml/datasets/banknote+authentication" +:+ nl +:+
  "https://archive.ics.uci.edu/ml/datasets/default+of+credit+card+clients" +:+ nl +:+
  "https://archive.ics.uci.edu/ml/datasets/Early+stage+diabetes+risk+prediction+dataset." +:+ nl +:+
  "https://archive.ics.uci.edu/ml/datasets/Epileptic+Seizure+Recognition" +:+ nl +:+
  "https://archive.ics.uci.edu/ml/datasets/Somerville+Happiness+Survey" +:+ nl +:+
  "https://archive.ics.uci.edu/ml/datasets/seismic-bumps" +:+ nl +:+
  "https://archive.ics.uci.edu/ml/datasets/Breast+Cancer+Wisconsin+%28Diagnostic%29" +:+ nl +:+
  "        ".

(** [for dataset in datasets: ...]: each turn binds the global [dataset]
    to the record it processes. *)
Fixpoint for_each_dataset (network : string -> http) (ds : list Dataset) : M unit :=
  match ds with
  | [] => mret tt
  | d :: ds' =>
      print (gathering_message d);;
      process {| net := network; dataset := Some d |} d;;
      for_each_dataset network ds'
  end.

Definition main (io : Codec) (network : string -> http) (cwd : Path) : M unit :=
  (exists_ (base_dir cwd) ≫= fun present : bool =>
     if present then mret tt else mkdir (base_dir cwd));;
  print "Retrieving all datasets to ../data";;
  for_each_dataset network (datasets io cwd);;
  print (nl +:+ "Links for all datasets:");;
  print links_message.

(** ** Observations on a run, and the vocabulary of the claims *)

Definition requests (tr : list event) : list string :=
  omap (fun e => match e with EGet u => Some u | _ => None end) tr.

Definition digests (tr : list event) : list (Path * string) :=
  omap (fun e => match e with EDigest p h => Some (p, h) | _ => None end) tr.

Definition written (tr : list event) : list Path :=
  omap (fun e => match e with EWrite p => Some p | _ => None end) tr.

Definition printed (tr : list event) : list string :=
  omap (fun e => match e with EPrint s => Some s | _ => None end) tr.

(** The errors of [mkdir] with [parents=True, exist_ok=True]. *)
Definition mkdir_error (e : exn) : Prop :=
  exists q, e = FileExistsError q \/ e = NotADirectoryError q.

(** Every way a download can end. [fs0] is the file system once the
    parent directories exist, [t0] the directories created. *)
Inductive download_run (env : Env) (d : Dataset) (fs : FS) :
  outcome unit * FS * list event -> Prop :=
| dl_mkdir_fails e fs0 t0 :
    mkdir_parents (parent (raw_file_path d)) fs = (Raise e, fs0, t0) ->
    mkdir_error e ->
    download_run env d fs (Raise e, fs0, t0)
| dl_unreachable fs0 t0 :
    mkdir_parents (parent (raw_file_path d)) fs = (Ok tt, fs0, t0) ->
    net env (url d) = Unreachable ->
    download_run env d fs (Raise (ConnectionError (url d)), fs0, t0 ++ [EGet (url d)])
| dl_no_length fs0 t0 r :
    mkdir_parents (parent (raw_file_path d)) fs = (Ok tt, fs0, t0) ->
    net env (url d) = Responds r ->
    content_length r = None ->
    download_run env d fs (Raise TypeError, fs0, t0 ++ [EGet (url d)])
| dl_bad_length fs0 t0 r s :
    mkdir_parents (parent (raw_file_path d)) fs = (Ok tt, fs0, t0) ->
    net env (url d) = Responds r ->
    content_length r = Some s -> py_int s = None ->
    download_run env d fs (Raise ValueError, fs0, t0 ++ [EGet (url d)])
| dl_open_fails fs0 t0 r s n e :
    mkdir_parents (parent (raw_file_path d)) fs = (Ok tt, fs0, t0) ->
    net env (url d) = Responds r ->
    content_length r = Some s -> py_int s = Some n ->
    open_wb (raw_file_path d) fs0 = (Raise e, fs0, []) ->
    download_run env d fs (Raise e, fs0, t0 ++ [EGet (url d)])
| dl_broken fs0 t0 r s n :
    mkdir_parents (parent (raw_file_path d)) fs = (Ok tt, fs0, t0) ->
    net env (url d) = Responds r ->
    content_length r = Some s -> py_int s = Some n ->
    raw_file_path d <> [] ->
    broken r = true ->
    download_run env d fs
      (Raise ChunkedEncodingError,
       <[raw_file_path d := File (concat (chunks r))]> fs0,
       t0 ++ [EGet (url d); EWrite (raw_file_path d)])
| dl_checked fs0 t0 r s n res tc :
    mkdir_parents (parent (raw_file_path d)) fs = (Ok tt, fs0, t0) ->
    net env (url d) = Responds r ->
    content_length r = Some s -> py_int s = Some n ->
    raw_file_path d <> [] ->
    broken r = false ->
    check_hash env d (<[raw_file_path d := File (concat (chunks r))]> fs0) =
      (res, <[raw_file_path d := File (concat (chunks r))]> fs0, tc) ->
    download_run env d fs
      (res, <[raw_file_path d := File (concat (chunks r))]> fs0,
       t0 ++ [EGet (url d); EWrite (raw_file_path d)] ++ tc).

(** Integrity checker vocabulary of the specification. *)
Definition digest_of (fs : FS) (p : Path) : option string :=
  sha256_hexdigest <$> file_at fs p.

Definition matches (fs : FS) (p : Path) (expected : string) : option bool :=
  (fun h => bool_decide (h = expected)) <$> digest_of fs p.

(** In a trace, each write of the clean file comes after a digest of the
    raw file that equals the expected one. *)
Definition digest_confirmed_before_write (d : Dataset) (tr : list event) : Prop :=
  forall pre post, tr = pre ++ EWrite (clean_file_path d) :: post ->
    In (EDigest (raw_file_path d) (hash d)) pre.

(** The surroundings let a download of [d] go through: the server answers
    with [r] in full, with a [Content-Length] that [int] accepts, and the
    directories and the raw file can be created on [fs]. *)
Definition served (env : Env) (d : Dataset) (fs : FS) (r : response) : Prop :=
  net env (url d) = Responds r /\ broken r = false /\
  is_Some (content_length r ≫= py_int) /\
  result_of (mkdir_parents (parent (raw_file_path d)) fs) = Ok tt /\
  result_of (open_wb (raw_file_path d)
               (fs_of (mkdir_parents (parent (raw_file_path d)) fs))) = Ok tt.

(** The call downloads the raw file afresh and computes digest [h] over it. *)
Definition fresh_digest (env : Env) (d : Dataset) (fs : FS) (h : string) : Prop :=
  In (raw_file_path d, h) (digests (trace_of (verify_downloaded env d fs))).

(** Every way a transformation routine can end. *)
Inductive routine_run (compute : bytes -> option (string * bytes))
  (i o : Path) (fs : FS) : outcome unit * FS * list event -> Prop :=
| rt_unreadable e :
    file_at fs i = None ->
    routine_run compute i o fs (Raise e, fs, [])
| rt_raises c :
    file_at fs i = Some c -> compute c = None ->
    routine_run compute i o fs (Raise TransformError, fs, [ERead i])
| rt_unwritable c line out e :
    file_at fs i = Some c -> compute c = Some (line, out) ->
    open_wb o fs = (Raise e, fs, []) ->
    routine_run compute i o fs (Raise e, fs, [ERead i; EPrint line])
| rt_done c line out :
    file_at fs i = Some c -> compute c = Some (line, out) ->
    is_dir fs o = false -> stat fs (parent o) = Some Dir ->
    routine_run compute i o fs
      (Ok tt, <[o := File out]> fs, [ERead i; EPrint line; EWrite o]).

(** ** What the clean table is expected to look like *)

Definition in_unit (q : Q) : Prop := (0 <= q <= 1)%Q.

Definition constant_column (xs : list (option Q)) : Prop :=
  forall q q', Some q ∈ xs -> Some q' ∈ xs -> (q == q')%Q.

Definition attains (v : Q) (xs : list (option Q)) : Prop :=
  exists q, Some q ∈ xs /\ (q == v)%Q.

(** A min-max scaled column: the values present lie in [[0, 1]], and reach
    both ends unless they are all equal. *)
Definition scaled_column (xs : list (option Q)) : Prop :=
  (forall q, Some q ∈ xs -> in_unit q) /\
  (constant_column xs \/ (attains 0 xs /\ attains 1 xs)).

Definition scaled_feature (c : label * series) : Prop :=
  exists xs, c.2 = NumCol xs /\ scaled_column xs.

(** A feature column as the claim has it: no value missing. *)
Definition complete_feature (c : label * series) : Prop :=
  exists xs, c.2 = NumCol xs /\ forall x, x ∈ xs -> exists q, x = Some q /\ in_unit q.

(** Features, then the one label column [y]. *)
Definition label_last (out : frame) (feats : frame) (y : series) : Prop :=
  out = feats ++ [(LStr "y", y)] /\ LStr "y" ∉ columns feats.

(** Every column of the frame has [n] rows. *)
Definition rows_are (n : nat) (df : frame) : Prop :=
  Forall (fun c => series_length c.2 = n) df.

(** The name of an indicator column holds an underscore. *)
Definition has_underscore (l : label) : Prop :=
  exists a z, label_str l = a +:+ String "_" z.

(** What each routine is shown to deliver: [n] rows; and, when no feature
    column takes the name [y], the scaled features followed by [y]. *)
Definition delivers (n : nat) (out : frame) (no_y : Prop) : Prop :=
  rows_are n out /\ nrows out = n /\
  (no_y -> exists feats y, label_last out feats y /\ Forall scaled_feature feats).


(** ** Example data *)

(** A plain codec for the examples: records are lines and fields are cut
    at the delimiter, without quoting; numbers are written as fractions.
    Archives, spreadsheets and ARFF files are not read by it. *)
Fixpoint split_on (sep : ascii) (s : string) : list string :=
  match s with
  | EmptyString => [EmptyString]
  | String c s' =>
      if Ascii.eqb c sep then EmptyString :: split_on sep s'
      else match split_on sep s' with
           | [] => [String c EmptyString]
           | w :: ws => String c w :: ws
           end
  end.

Definition plain_lines (s : string) : list string :=
  filter (fun l => l <> EmptyString) (split_on (ascii_of_nat 10) s).

Definition plain_csv_records (sep encoding : string) (raw : bytes) : option grid :=
  match sep with
  | String c EmptyString =>
      Some (split_on c <$> plain_lines (string_of_list_byte raw))
  | _ => None
  end.

Definition plain_cell (x : option Q) : string :=
  match x with
  | None => EmptyString
  | Some q =>
      if Pos.eqb (Qden q) 1 then pretty (Qnum q)
      else pretty (Qnum q) +:+ "/" +:+ pretty (Zpos (Qden q))
  end.

Definition plain_column (s : series) : list string :=
  match s with
  | NumCol xs => plain_cell <$> xs
  | ObjCol _ xs => default EmptyString <$> xs
  end.

Fixpoint join (sep : string) (l : list string) : string :=
  match l with
  | [] => EmptyString
  | [x] => x
  | x :: l' => x +:+ sep +:+ join sep l'
  end.

Definition plain_to_csv (sep : string) (X : frame) : bytes :=
  let header := join sep (label_str <$> columns X) in
  let row i := join sep ((fun c => nth i (plain_column c.2) EmptyString) <$> X) in
  list_byte_of_string
    (join nl (header :: (row <$> seq 0 (nrows X))) +:+ nl).

Definition plain_codec : Codec := {|
  csv_records := plain_csv_records;
  zip_member := fun _ _ => None;
  excel_records := fun _ => None;
  arff_relation := fun _ => None;
  to_csv := plain_to_csv |}.

(** Four records in the format of [data_banknote_authentication.txt],
    which has no header line: variance, skewness, curtosis, entropy, class. *)
Definition banknote_head : grid :=
  [ ["3.6216"; "8.6661"; "-2.8073"; "-0.44699"; "0"];
    ["4.5459"; "8.1674"; "-2.4586"; "-1.4621"; "0"];
    ["-1.3971"; "3.3191"; "-1.3927"; "-1.9948"; "1"];
    ["0.39012"; "-0.14279"; "-0.031994"; "0.35084"; "1"] ]%string.

Definition banknote_head_clean : frame :=
  [ (LStr "variance", NumCol [Some 1%Q; Some 0%Q; Some (29787 # 99050)]);
    (LStr "skewness", NumCol [Some 1%Q; Some (346189 # 831019); Some 0%Q]);
    (LStr "curtosis", NumCol [Some 0%Q; Some (532950 # 1213303); Some 1%Q]);
    (LStr "entropy", NumCol [Some (26635 # 117282); Some 0%Q; Some 1%Q]);
    (LStr "y", NumCol [Some 0%Q; Some 1%Q; Some 1%Q]) ].

(** The same format with a genuine note (class 1) as first record. *)
Definition banknote_genuine_first : grid :=
  [ ["-1.3971"; "3.3191"; "-1.3927"; "-1.9948"; "1"];
    ["3.6216"; "8.6661"; "-2.8073"; "-0.44699"; "0"];
    ["4.5459"; "8.1674"; "-2.4586"; "-1.4621"; "0"] ]%string.

Definition banknote_genuine_first_clean : frame :=
  [ (LStr "variance", NumCol [Some 0%Q; Some 1%Q]);
    (LStr "skewness", NumCol [Some 1%Q; Some 0%Q]);
    (LStr "curtosis", NumCol [Some 0%Q; Some 1%Q]);
    (LStr "entropy", NumCol [Some 1%Q; Some 0%Q]);
    (LStr "y", NumCol [Some 0%Q; Some 0%Q]) ].

(** The class field of each record of a banknote file, as a number. *)
Definition raw_class (g : grid) : list (option Q) :=
  (fun r => to_numeric (nth 4 r EmptyString)) <$> g.

(** Three abalone records, the second without its diameter. *)
Definition abalone_gap : grid :=
  [ ["M"; "0.455"; "0.365"; "0.095"; "0.514"; "0.2245"; "0.101"; "0.15"; "15"];
    ["F"; "0.53"; ""; "0.135"; "0.677"; "0.2565"; "0.1415"; "0.21"; "9"];
    ["M"; "0.35"; "0.265"; "0.09"; "0.2255"; "0.0995"; "0.0485"; "0.07"; "7"] ]%string.


(** A diabetes file with a raw column called [y]. *)
Definition diabetes_with_y : grid :=
  [ ["Age"; "y"; "Gender"; "class"];
    ["40"; "3"; "Male"; "Positive"];
    ["58"; "5"; "Female"; "Negative"] ]%string.


(** Three records of [breast-cancer-wisconsin.data], one with a [?]. *)
Definition wbc_head : grid :=
  [ ["1000025"; "5"; "1"; "1"; "1"; "2"; "1"; "3"; "1"; "1"; "2"];
    ["1002945"; "5"; "4"; "4"; "5"; "7"; "10"; "3"; "2"; "1"; "2"];
    ["1057013"; "8"; "4"; "5"; "1"; "2"; "?"; "7"; "3"; "1"; "4"] ]%string.

(** The working directory, the banknote record of the catalogue, and the
    same record pinned to the digest of the four-record file. *)
Definition cwd : Path := ["home"; "user"; "pointctl"; "inverse_projections"]%string.

Definition banknote_record : Dataset :=
  nth 3 (datasets plain_codec cwd)
      {| name := ""; url := ""; hash := ""; raw_file_path := []; clean_file_path := [];
         processing_function := fun _ _ => mret tt |}.

Definition banknote_bytes : bytes :=
  list_byte_of_string
    (join nl ["3.6216,8.6661,-2.8073,-0.44699,0"; "4.5459,8.1674,-2.4586,-1.4621,0";
              "-1.3971,3.3191,-1.3927,-1.9948,1"; "0.39012,-0.14279,-0.031994,0.35084,1"]
     +:+ nl)%string.

Definition pinned_record : Dataset :=
  {| name := name banknote_record; url := url banknote_record;
     hash := sha256_hexdigest banknote_bytes;
     raw_file_path := raw_file_path banknote_record;
     clean_file_path := clean_file_path banknote_record;
     processing_function := processing_function banknote_record |}.

(** The table computation of [process_banknote] under the plain codec. *)
Definition banknote_compute (raw : bytes) : option (string * bytes) :=
  g ← csv_records plain_codec "," "utf-8" raw;
  written_table plain_codec <$> banknote_table g.

(** Servers: one that sends the four-record file in two chunks, one that
    sends it without a [Content-Length] header. *)
Definition serving (r : response) : string -> http := fun _ => Responds r.

Definition good_response : response :=
  {| content_length := Some "135"%string;
     chunks := [take 100 banknote_bytes; drop 100 banknote_bytes];
     broken := false |}.

Definition headerless_response : response :=
  {| content_length := None; chunks := [banknote_bytes]; broken := false |}.

Definition in_main_loop (r : response) (d : Dataset) : Env :=
  {| net := serving r; dataset := Some d |}.

(** An empty disk, and one where the raw file of the banknote record is
    already in place with bytes of its own. *)
Definition stale_bytes : bytes :=
  list_byte_of_string
    (join nl ["1,2,3,4,0"; "2,3,5,7,1"; "4,9,25,49,0"] +:+ nl)%string.

Definition disk_with_raw : FS :=
  <[raw_file_path banknote_record := File stale_bytes]>
    (fs_of (mkdir_parents (parent (raw_file_path banknote_record)) ∅)).

(** A second record, whose raw file is elsewhere. *)
Definition abalone_record : Dataset :=
  nth 0 (datasets plain_codec cwd) banknote_record.

(** A third record, whose URL does not hold its name. *)
Definition epileptic_record : Dataset :=
  nth 5 (datasets plain_codec cwd) banknote_record.

(** ** Further vocabulary: what a run keeps, the layout of the catalogue *)

(** Every path present before is present after. *)
Definition nothing_removed (fs fs' : FS) : Prop :=
  forall p, present fs p = true -> present fs' p = true.

(** The layout on disk: [<base>/<name>/raw/<file>] for the raw file and
    [<base>/<name>/<name>.csv] for the clean one. *)
Definition laid_out (base : Path) (d : Dataset) : Prop :=
  exists file,
    raw_file_path d = base ++ [name d; "raw"%string; file] /\
    clean_file_path d = base ++ [name d; name d +:+ ".csv"].

(** A server that does not answer, a response whose [Content-Length] is
    not a number, and one that announces two kilobytes and ends after the
    first: [iter_content(chunk_size=1024)] yields that kilobyte (32 records
    of 32 bytes) and then raises. *)
Definition offline : string -> http := fun _ => Unreachable.

Definition malformed_response : response :=
  {| content_length := Some "135 bytes"%string;
     chunks := [banknote_bytes];
     broken := false |}.

Definition dropped_response : response :=
  {| content_length := Some "2048"%string;
     chunks := [concat (replicate 32
                  (list_byte_of_string ("4.5459,8.1674,-2.4586,-1.4621,0" +:+ nl)))];
     broken := true |}.

(** ** The routines by name *)

(** The first statements of each [process_*] function: how it gets its
    raw table out of the bytes of [input_file]. *)
Definition raw_reader (io : Codec) (r : routine) (raw : bytes) : option raw_table :=
  match r with
  | Absenteeism =>
      member ← zip_member io ["Absenteeism_at_work.csv"] raw;
      Records <$> csv_records io ";" "utf-8" member
  | Bank =>
      member ← zip_member io ["bank-additional"; "bank-additional-full.csv"] raw;
      Records <$> csv_records io ";" "utf-8" member
  | Defaultcc => Records <$> excel_records io raw
  | Happiness => Records <$> csv_records io "," "utf-16" raw
  | Seismic => Relation <$> arff_relation io raw
  | Abalone | Banknote | Diabetes | Epileptic | Wbc =>
      Records <$> csv_records io "," "utf-8" raw
  end.

Definition routine_of (io : Codec) (r : routine) : Path -> Path -> M unit :=
  match r with
  | Abalone => process_abalone io
  | Absenteeism => process_absenteeism io
  | Bank => process_bank io
  | Banknote => process_banknote io
  | Defaultcc => process_defaultcc io
  | Diabetes => process_diabetes io
  | Epileptic => process_epileptic io
  | Happiness => process_happiness io
  | Seismic => process_seismic io
  | Wbc => process_wbc io
  end.

(** ** Further vocabulary for the clean table *)

(** The last three statements before the print, shared by the routines:
    scale, rebuild the frame under [names], assign the label. *)
Definition assembled (X : frame) (names : list label) (y : series) (out : frame) : Prop :=
  exists a F, fit_transform X = Some a /\ DataFrame a names = Some F /\
              setitem F (LStr "y") y = Some out.

(** The column names each routine passes to [pd.DataFrame]: the names of
    the frame it scaled, those names tidied, or a fixed list. *)
Definition happiness_names : list string :=
  ["city_services"; "housing_cost"; "school_quality";
   "police_trust"; "street_maint"; "community_events"]%string.

Definition wbc_names : list string :=
  ["clump_thickness"; "uniformity_cell_size"; "uniformity_cell_shape";
   "marginal_adhesion"; "single_epithelial_cell_size"; "bare_nuclei";
   "bland_chromatin"; "normal_nucleoli"; "mitoses"]%string.

Definition column_names_rule (r : routine) (X : frame) (names : list label) : Prop :=
  match r with
  | Absenteeism => names = (fun c => LStr (tidy_name (label_str c))) <$> columns X
  | Happiness => names = LStr <$> happiness_names
  | Wbc => names = LStr <$> wbc_names
  | _ => names = columns X
  end.










(** A label column of zeros and ones, none missing. *)
Definition binary_series (y : series) : Prop :=
  exists ys, y = NumCol ys /\ Forall (fun v => v = Some 0%Q \/ v = Some 1%Q) ys.

(** The routines whose label is a comparison cast to [uint8]; the others
    pass a raw column through (abalone, epileptic) or rank its values
    (wbc). *)
Definition compares_for_label (r : routine) : bool :=
  match r with
  | Abalone | Epileptic | Wbc => false
  | _ => true
  end.

(** A field made of decimal digits only, at most 18 of them, and the
    integer it spells: pandas reads a column of such fields as [int64]. *)
Fixpoint all_digits (acc : Z) (s : string) : option Z :=
  match s with
  | EmptyString => Some acc
  | String c s' =>
      match digit_of c with
      | Some d => all_digits (10 * acc + d)%Z s'
      | None => None
      end
  end.

Definition plain_count (s : string) : option Z :=
  if ((0 <? String.length s) && (String.length s <=? 18))%nat
  then all_digits 0%Z s else None.

(** A name without blank, slash or upper-case ASCII letter. *)
Definition tidy_char (c : ascii) : bool :=
  negb (Ascii.eqb c " ") && negb (Ascii.eqb c "/") &&
  negb ((65 <=? nat_of_ascii c)%nat && (nat_of_ascii c <=? 90)%nat).

Definition tidy (s : string) : bool := forallb tidy_char (list_ascii_of_string s).

(** A short absenteeism file: the header, then two records. *)
Definition absenteeism_head : grid :=
  [ ["ID"; "Reason for absence"; "Work load Average/day "; "Absenteeism time in hours"];
    ["11"; "26"; "239.554"; "4"];
    ["36"; "0"; "239.554"; "0"] ]%string.

(** A happiness file with its header and three answers. *)
Definition happiness_head : grid :=
  [ ["D"; "X1"; "X2"; "X3"; "X4"; "X5"; "X6"];
    ["0"; "3"; "3"; "3"; "4"; "2"; "4"];
    ["0"; "3"; "2"; "3"; "5"; "4"; "3"];
    ["1"; "5"; "3"; "3"; "3"; "3"; "5"] ]%string.

(** * Properties of the table library *)


Section ScaleColumn.
Local Open Scope Q_scope.

Lemma foldr_Qmin_le (v : Q) (vs : list Q) :
  foldr Qmin v vs <= v /\ Forall (fun x => foldr Qmin v vs <= x) vs.
Proof.
  induction vs as [|a vs [IH1 IH2]]; cbn.
  - split; [apply Qle_refl|constructor].
  - split.
    + eapply Qle_trans; [apply Q.le_min_r|done].
    + constructor; [apply Q.le_min_l|].
      eapply Forall_impl; [exact IH2|]. cbn. intros x Hx.
      eapply Qle_trans; [apply Q.le_min_r|done].
Qed.

Lemma foldr_Qmax_ge (v : Q) (vs : list Q) :
  v <= foldr Qmax v vs /\ Forall (fun x => x <= foldr Qmax v vs) vs.
Proof.
  induction vs as [|a vs [IH1 IH2]]; cbn.
  - split; [apply Qle_refl|constructor].
  - split.
    + eapply Qle_trans; [done|apply Q.le_max_r].
    + constructor; [apply Q.le_max_l|].
      eapply Forall_impl; [exact IH2|]. cbn. intros x Hx.
      eapply Qle_trans; [done|apply Q.le_max_r].
Qed.

Lemma foldr_Qmin_in (v : Q) (vs : list Q) :
  Exists (fun x => x == foldr Qmin v vs) (v :: vs).
Proof.
  induction vs as [|a vs IH]; cbn.
  - by left.
  - destruct (Q.min_dec a (foldr Qmin v vs)) as [E|E].
    + right. left. by symmetry.
    + inversion IH as [? ? Hv|? ? Hvs]; subst.
      * left. by rewrite E.
      * do 2 right. eapply Exists_impl; [exact Hvs|]. cbn. intros x Hx. by rewrite E.
Qed.

Lemma foldr_Qmax_in (v : Q) (vs : list Q) :
  Exists (fun x => x == foldr Qmax v vs) (v :: vs).
Proof.
  induction vs as [|a vs IH]; cbn.
  - by left.
  - destruct (Q.max_dec a (foldr Qmax v vs)) as [E|E].
    + right. left. by symmetry.
    + inversion IH as [? ? Hv|? ? Hvs]; subst.
      * left. by rewrite E.
      * do 2 right. eapply Exists_impl; [exact Hvs|]. cbn. intros x Hx. by rewrite E.
Qed.

(** The affine map of [MinMaxScaler] sends [[lo, hi]] into [[0, 1]]. *)
Lemma minmax_affine_bounds (lo hi q : Q) :
  lo <= q -> q <= hi ->
  let scale_ := 1 / handle_zeros_in_scale (hi - lo) in
  0 <= q * scale_ + (0 - lo * scale_) <= 1.
Proof.
  intros H1 H2. cbn zeta. unfold handle_zeros_in_scale.
  destruct (Qeq_bool (hi - lo) 0) eqn:E.
  - apply Qeq_bool_eq in E. split; field_simplify; lra.
  - apply Qeq_bool_neq in E. assert (Hpos : 0 < hi - lo) by lra.
    assert (Hinv : 0 < / (hi - lo)) by (by apply Qinv_lt_0_compat).
    assert (Heq : q * (1 / (hi - lo)) + (0 - lo * (1 / (hi - lo)))
                  == (q - lo) * / (hi - lo)) by (field; lra).
    rewrite Heq. split.
    + apply Qmult_le_0_compat; lra.
    + assert (H1' : 1 == (hi - lo) * / (hi - lo)) by (field; lra).
      rewrite H1'. apply Qmult_le_compat_r; lra.
Qed.

Lemma minmax_affine_lo (lo hi : Q) :
  let scale_ := 1 / handle_zeros_in_scale (hi - lo) in
  lo * scale_ + (0 - lo * scale_) == 0.
Proof. cbn zeta. ring. Qed.

Lemma minmax_affine_hi (lo hi : Q) :
  ~ hi - lo == 0 ->
  let scale_ := 1 / handle_zeros_in_scale (hi - lo) in
  hi * scale_ + (0 - lo * scale_) == 1.
Proof.
  intros Hne. cbn zeta. unfold handle_zeros_in_scale.
  destruct (Qeq_bool (hi - lo) 0) eqn:E.
  - by apply Qeq_bool_eq in E.
  - field. lra.
Qed.

Lemma minmax_affine_const (lo hi q : Q) :
  hi - lo == 0 -> lo <= q -> q <= hi ->
  let scale_ := 1 / handle_zeros_in_scale (hi - lo) in
  q * scale_ + (0 - lo * scale_) == 0.
Proof.
  intros He H1 H2. cbn zeta. unfold handle_zeros_in_scale.
  rewrite (proj2 (Qeq_bool_iff _ _) He). field_simplify. lra.
Qed.
End ScaleColumn.

Section ScaledColumns.
Local Open Scope Q_scope.

Lemma elem_of_present (xs : list (option Q)) (q : Q) :
  q ∈ omap id xs <-> Some q ∈ xs.
Proof.
  rewrite list_elem_of_omap. split.
  - intros (x & Hx & E). cbn in E. by subst.
  - intros H. by exists (Some q).
Qed.

Lemma scale_column_length (xs : list (option Q)) :
  length (scale_column xs) = length xs.
Proof.
  unfold scale_column. destruct (nanmin xs), (nanmax xs); try done.
  by rewrite length_fmap.
Qed.

(** A missing value stays missing, a value stays a value. *)
Lemma scale_column_missing (xs : list (option Q)) (i : nat) :
  scale_column xs !! i = Some None <-> xs !! i = Some None.
Proof.
  unfold scale_column. destruct (nanmin xs), (nanmax xs); try done.
  rewrite list_lookup_fmap. destruct (xs !! i) as [[x|]|]; cbn; split; intros; by simplify_eq.
Qed.

Lemma scale_column_scaled (xs : list (option Q)) : scaled_column (scale_column xs).
Proof.
  unfold scale_column, nanmin, nanmax.
  destruct (omap id xs) as [|v vs] eqn:E.
  { assert (Hnone : forall q, Some q ∈ xs -> False).
    { intros q Hq. apply elem_of_present in Hq. rewrite E in Hq. by apply not_elem_of_nil in Hq. }
    split; [intros q Hq; by destruct (Hnone q)|].
    left. intros q q' Hq. by destruct (Hnone q). }
  set (lo := foldr Qmin v vs). set (hi := foldr Qmax v vs).
  assert (Hb : forall q, Some q ∈ xs -> lo <= q /\ q <= hi).
  { intros q Hq. apply elem_of_present in Hq. rewrite E in Hq.
    destruct (foldr_Qmin_le v vs) as [H1 H2]. destruct (foldr_Qmax_ge v vs) as [H3 H4].
    rewrite Forall_forall in H2, H4.
    apply elem_of_cons in Hq as [->|Hq]; [done|]. split; [by apply H2|by apply H4]. }
  assert (Hout : forall q', Some q' ∈ (fun x : option Q =>
              (fun q => Qred (q * (1 / handle_zeros_in_scale (hi - lo)) +
                              (0 - lo * (1 / handle_zeros_in_scale (hi - lo))))) <$> x) <$> xs ->
            exists q, Some q ∈ xs /\
              q' == q * (1 / handle_zeros_in_scale (hi - lo)) +
                    (0 - lo * (1 / handle_zeros_in_scale (hi - lo)))).
  { intros q' Hq'. apply list_elem_of_fmap in Hq' as (x & Hx & Hin).
    destruct x as [q|]; cbn in Hx; [|done]. simplify_eq. exists q. split; [done|].
    apply Qred_correct. }
  assert (Hin : forall q, Some q ∈ xs ->
            Some (Qred (q * (1 / handle_zeros_in_scale (hi - lo)) +
                        (0 - lo * (1 / handle_zeros_in_scale (hi - lo))))) ∈
            (fun x : option Q =>
              (fun q => Qred (q * (1 / handle_zeros_in_scale (hi - lo)) +
                              (0 - lo * (1 / handle_zeros_in_scale (hi - lo))))) <$> x) <$> xs).
  { intros q Hq. apply list_elem_of_fmap. by exists (Some q). }
  split.
  - intros q' Hq'. destruct (Hout q' Hq') as (q & Hq & Heq).
    destruct (Hb q Hq). unfold in_unit. rewrite Heq. by apply minmax_affine_bounds.
  - destruct (Qeq_dec (hi - lo) 0) as [Hz|Hnz].
    + left. intros q1 q2 H1 H2.
      destruct (Hout q1 H1) as (a & Ha & ->). destruct (Hout q2 H2) as (c & Hc & ->).
      destruct (Hb a Ha), (Hb c Hc).
      rewrite (minmax_affine_const lo hi a), (minmax_affine_const lo hi c); done.
    + right. split.
      * pose proof (foldr_Qmin_in v vs) as Hex. apply Exists_exists in Hex as (x & Hx & Hxe).
        fold lo in Hxe. rewrite <- E in Hx. apply elem_of_present in Hx.
        eexists. split; [apply (Hin x Hx)|].
        rewrite Qred_correct, Hxe. apply minmax_affine_lo.
      * pose proof (foldr_Qmax_in v vs) as Hex. apply Exists_exists in Hex as (x & Hx & Hxe).
        fold hi in Hxe. rewrite <- E in Hx. apply elem_of_present in Hx.
        eexists. split; [apply (Hin x Hx)|].
        rewrite Qred_correct, Hxe. by apply minmax_affine_hi.
Qed.
End ScaledColumns.

Section Frames.

Lemma Forall_filter_keep {A} (P : A -> Prop) (Q : A -> Prop) `{!forall x, Decision (Q x)}
    (l : list A) :
  Forall P l -> Forall P (filter Q l).
Proof.
  rewrite !Forall_forall. intros Hall x Hx. apply list_elem_of_filter in Hx as [_ Hx]. auto.
Qed.

Lemma rows_are_nrows (n : nat) (df : frame) : rows_are n df -> df <> [] -> nrows df = n.
Proof. intros H Hne. destruct df as [|[l s] df]; [done|]. by inversion H. Qed.

Lemma infer_series_length (fields : list (option string)) :
  series_length (infer_series fields) = length fields.
Proof.
  unfold infer_series. destruct (mapM _ fields) as [xs|] eqn:E; [|done].
  cbn. apply length_mapM in E. done.
Qed.

Lemma column_fields_length (j : nat) (records : grid) :
  length (column_fields j records) = length records.
Proof. unfold column_fields. by rewrite length_map. Qed.

Lemma frame_of_records_rows na labels records (df : frame) :
  frame_of_records na labels records = Some df ->
  rows_are (length records) df /\ columns df = labels.
Proof.
  unfold frame_of_records. destruct (rectangular _ _); [|done]. intros [= <-]. split.
  - unfold rows_are. apply Forall_forall. intros c Hc.
    apply elem_of_lookup_imap in Hc as (j & l & -> & _). cbn.
    by rewrite infer_series_length, length_fmap, column_fields_length.
  - unfold columns. apply list_eq. intros j.
    rewrite list_lookup_fmap, list_lookup_imap. by destruct (labels !! j).
Qed.

Lemma read_csv_rows (g : grid) (df : frame) :
  read_csv g = Some df -> rows_are (length g - 1) df.
Proof.
  unfold read_csv, read_table. destruct g as [|names records]; [done|].
  intros H. apply frame_of_records_rows in H as [H _]. cbn. by rewrite Nat.sub_0_r.
Qed.

Lemma read_csv_header_none_rows (na : list string) (g : grid) (df : frame) :
  read_table HeaderNone na g = Some df -> rows_are (length g) df.
Proof.
  unfold read_table. destruct g as [|r records]; [done|].
  intros H. by apply frame_of_records_rows in H as [H _].
Qed.

Lemma read_excel_rows (g : grid) (df : frame) :
  read_excel_header_1 g = Some df -> rows_are (length g - 2) df.
Proof.
  unfold read_excel_header_1, read_table. destruct g as [|r0 [|names records]]; [done..|].
  cbn. intros H. apply frame_of_records_rows in H as [H _]. by rewrite Nat.sub_0_r.
Qed.

Lemma loadarff_rows (a : arff) (df : frame) :
  loadarff a = Some df -> rows_are (length (data a)) df.
Proof.
  unfold loadarff. destruct (_ && _); [|done]. intros H.
  unfold rows_are. apply Forall_forall. intros c Hc.
  apply list_elem_of_lookup in Hc as (i & Hi).
  eapply mapM_Some_1, Forall2_lookup_r in H as ([j [name nominal]] & _ & Hx); [|done].
  cbn in Hx. unfold arff_series in Hx. destruct nominal; simplify_option_eq.
  - by rewrite length_fmap, column_fields_length.
  - match goal with H : mapM _ _ = Some _ |- _ => apply length_mapM in H end.
    by rewrite column_fields_length in *.
Qed.

Lemma getitem_elem (df : frame) (l : label) (s : series) :
  getitem df l = Some s -> (l, s) ∈ df.
Proof.
  induction df as [|[l' s'] df IH]; [done|]. cbn. case_decide as Hd.
  - intros [= <-]. subst. left.
  - intros Hg. right. by apply IH.
Qed.

Lemma getitem_rows (n : nat) (df : frame) (l : label) (s : series) :
  rows_are n df -> getitem df l = Some s -> series_length s = n.
Proof.
  intros Hwf H. apply getitem_elem in H. unfold rows_are in Hwf.
  rewrite Forall_forall in Hwf. by apply (Hwf _ H).
Qed.

Lemma set_columns_rows (n : nat) (df df' : frame) (names : list string) :
  rows_are n df -> set_columns df names = Some df' ->
  rows_are n df' /\ columns df' = LStr <$> names.
Proof.
  unfold set_columns. destruct (Nat.eqb _ _) eqn:E; [|done]. intros Hwf [= <-].
  apply Nat.eqb_eq in E. split.
  - unfold rows_are in *. apply Forall_forall. intros [l s] Hc.
    apply elem_of_zip_r in Hc. apply list_elem_of_fmap in Hc as ([l' s'] & -> & Hin).
    rewrite Forall_forall in Hwf. by apply (Hwf _ Hin).
  - unfold columns. apply fst_zip. by rewrite !length_fmap, E.
Qed.

Lemma drop_columns_rows (n : nat) (ls : list label) (df df' : frame) :
  rows_are n df -> drop_columns ls df = Some df' ->
  rows_are n df' /\ (forall l, l ∈ columns df' -> l ∈ columns df /\ l ∉ ls).
Proof.
  unfold drop_columns. destruct (forallb _ _); [|done]. intros Hwf [= <-]. split.
  - by apply Forall_filter_keep.
  - intros l Hl. unfold columns in *. apply list_elem_of_fmap in Hl as (c & -> & Hc).
    apply list_elem_of_filter in Hc as [Hc1 Hc2]. split; [|done].
    apply list_elem_of_fmap. by exists c.
Qed.

Lemma setitem_rows (n : nat) (df df' : frame) (l : label) (s : series) :
  rows_are n df -> series_length s = n -> setitem df l s = Some df' ->
  rows_are n df' /\ df' <> [].
Proof.
  unfold setitem. intros Hwf Hs. destruct (_ && _); [done|].
  destruct (has_column l df) eqn:Hh; intros [= <-].
  - split.
    + unfold rows_are in *. rewrite Forall_forall in Hwf. apply Forall_forall.
      intros c Hc. apply list_elem_of_fmap in Hc as (c' & -> & Hc').
      case_decide; [done|]. by apply Hwf.
    + unfold has_column in Hh. apply bool_decide_eq_true_1 in Hh.
      destruct df; [|done]. by apply not_elem_of_nil in Hh.
  - split; [|by destruct df]. apply Forall_app. split; [done|]. by constructor.
Qed.

Lemma setitem_append (df df' : frame) (l : label) (s : series) :
  l ∉ columns df -> setitem df l s = Some df' -> df' = df ++ [(l, s)].
Proof.
  unfold setitem. intros Hl. destruct (_ && _); [done|].
  unfold has_column. rewrite bool_decide_eq_false_2 by done. by intros [= <-].
Qed.

Lemma levels_elem (xs : list (option string)) (v : string) :
  v ∈ levels xs -> Some v ∈ xs.
Proof.
  unfold levels. intros H.
  assert (Hin : v ∈ omap id xs).
  { revert H. generalize (omap id xs). intros l. induction l as [|a l IH]; cbn; [done|].
    intros H. cut (v = a \/ v ∈ foldr insert_sorted [] l).
    { intros [->|H']; [left|right; by apply IH]. }
    revert H. generalize (foldr insert_sorted [] l). clear. intros l.
    induction l as [|x l IH]; cbn.
    - intros H. apply list_elem_of_singleton in H. by left.
    - destruct (String.compare a x) eqn:E.
      + intros H. by right.
      + intros H. apply elem_of_cons in H as [->|H]; [by left|by right].
      + intros H. apply elem_of_cons in H as [->|H]; [right; left|].
        destruct (IH H) as [->|H']; [by left|right; by right]. }
  apply list_elem_of_omap in Hin as (x & Hx & E). cbn in E. by subst.
Qed.

Lemma get_dummies_rows (n : nat) (df : frame) :
  rows_are n df -> rows_are n (get_dummies df).
Proof.
  intros Hwf. unfold get_dummies, rows_are in *. apply Forall_app. split.
  - by apply Forall_filter_keep.
  - rewrite Forall_forall in Hwf. apply Forall_forall. intros c Hc.
    apply list_elem_of_In, in_flat_map in Hc as ([l s] & Hin & Hc).
    apply list_elem_of_In in Hin. specialize (Hwf _ Hin). cbn in *.
    destruct s as [xs|k xs]; [done|]. apply list_elem_of_In in Hc.
    unfold dummies in Hc. apply list_elem_of_fmap in Hc as (v & -> & _).
    cbn. by rewrite length_fmap.
Qed.

Lemma get_dummies_columns (df : frame) (l : label) :
  l ∈ columns (get_dummies df) -> l ∈ columns df \/ has_underscore l.
Proof.
  unfold get_dummies, columns. rewrite fmap_app, elem_of_app. intros [H|H].
  - left. apply list_elem_of_fmap in H as (c & -> & Hc).
    apply list_elem_of_filter in Hc as [_ Hc]. apply list_elem_of_fmap. by exists c.
  - right. apply list_elem_of_fmap in H as (c & -> & Hc).
    apply list_elem_of_In, in_flat_map in Hc as ([l' s] & _ & Hc). cbn in Hc.
    destruct s as [xs|k xs]; [done|]. apply list_elem_of_In in Hc.
    unfold dummies in Hc. apply list_elem_of_fmap in Hc as (v & -> & _).
    cbn. by exists (label_str l'), (level_str k v).
Qed.

Lemma underscore_not_y (l : label) : has_underscore l -> l <> LStr "y".
Proof.
  intros (a & z & E) ->. cbn in E. destruct a as [|c [|c' a]]; cbn in E; simplify_eq.
Qed.

End Frames.

Section Assemble.

Lemma to_array_spec (n : nat) (X : frame) (a : array) :
  rows_are n X -> to_array X = Some a ->
  X <> [] /\ n <> 0 /\ length a = length X /\ Forall (fun col => length col = n) a.
Proof.
  unfold to_array, ncols. intros Hwf.
  destruct (Nat.eqb (length X) 0) eqn:E1; [done|]. apply Nat.eqb_neq in E1.
  assert (HX : X <> []) by (by destruct X).
  rewrite (rows_are_nrows n X Hwf HX).
  destruct (Nat.eqb n 0) eqn:E2; [done|]. apply Nat.eqb_neq in E2. cbn.
  intros H. split; [done|]. split; [done|]. split.
  - symmetry. by eapply length_mapM.
  - apply mapM_Some_1 in H. unfold rows_are in Hwf.
    clear -H Hwf. induction H as [|[l s] col X a Hc H IH]; [constructor|].
    inversion Hwf; subst. constructor; [|by apply IH].
    cbn in *. destruct s; by simplify_eq.
Qed.

Lemma fit_transform_spec (n : nat) (X : frame) (a : array) :
  rows_are n X -> fit_transform X = Some a ->
  X <> [] /\ n <> 0 /\ length a = length X /\
  Forall (fun col => length col = n /\ scaled_column col) a.
Proof.
  unfold fit_transform. intros Hwf H.
  destruct (to_array X) as [a0|] eqn:E; [|done]. cbn in H. simplify_eq.
  destruct (to_array_spec n X a0 Hwf E) as (H1 & H2 & H3 & H4).
  split; [done|]. split; [done|]. split; [by rewrite length_fmap|].
  apply Forall_fmap. eapply Forall_impl; [exact H4|]. cbn. intros col Hc.
  split; [by rewrite scale_column_length|apply scale_column_scaled].
Qed.

Lemma DataFrame_spec (n : nat) (a : array) (names : list label) (F : frame) :
  DataFrame a names = Some F ->
  Forall (fun col => length col = n /\ scaled_column col) a ->
  columns F = names /\ rows_are n F /\ Forall scaled_feature F /\ length F = length a.
Proof.
  unfold DataFrame. destruct (Nat.eqb _ _) eqn:E; [|done]. apply Nat.eqb_eq in E.
  intros [= <-] Ha. split; [|split; [|split]].
  - unfold columns. apply fst_zip. rewrite length_fmap. lia.
  - unfold rows_are. apply Forall_forall. intros [l s] Hc. apply elem_of_zip_r in Hc.
    apply list_elem_of_fmap in Hc as (col & -> & Hcol).
    rewrite Forall_forall in Ha. by destruct (Ha _ Hcol).
  - apply Forall_forall. intros [l s] Hc. apply elem_of_zip_r in Hc.
    apply list_elem_of_fmap in Hc as (col & -> & Hcol).
    rewrite Forall_forall in Ha. exists col. split; [done|]. by destruct (Ha _ Hcol).
  - rewrite length_zip, length_fmap. lia.
Qed.

(** The common end of the routines: scale, name the columns, add [y]. *)
Lemma assemble_spec (n : nat) (X : frame) (names : list label) (y : series) (out : frame) :
  rows_are n X -> series_length y = n ->
  (a ← fit_transform X; F ← DataFrame a names; setitem F (LStr "y") y) = Some out ->
  rows_are n out /\ nrows out = n /\
  (LStr "y" ∉ names ->
     exists feats, label_last out feats y /\ columns feats = names /\
                   Forall scaled_feature feats).
Proof.
  intros Hwf Hy H.
  apply bind_Some in H as (a & Ha & H). apply bind_Some in H as (F & HF & H).
  destruct (fit_transform_spec n X a Hwf Ha) as (HX & Hn & Hlen & Hcols).
  destruct (DataFrame_spec n a names F HF Hcols) as (Hnames & HwfF & HsF & HlenF).
  destruct (setitem_rows n F out (LStr "y") y HwfF Hy H) as (Hout & Hne).
  split; [done|]. split; [by apply rows_are_nrows|].
  intros Hny. exists F. rewrite <- Hnames in Hny.
  split; [|done]. split; [|done]. by apply setitem_append.
Qed.

Lemma eq_number_length (s : series) (v : Q) :
  series_length (eq_number s v) = series_length s.
Proof. destruct s; cbn; by rewrite length_fmap. Qed.

Lemma eq_string_length (s : series) (v : string) :
  series_length (eq_string s v) = series_length s.
Proof. destruct s as [|[] ?]; cbn; by rewrite length_fmap. Qed.

Lemma gt_zero_length (s s' : series) :
  gt_zero s = Some s' -> series_length s' = series_length s.
Proof. destruct s; cbn; [|done]. intros [= <-]. cbn. by rewrite length_fmap. Qed.

Lemma label_encode_length (s s' : series) :
  label_encode s = Some s' -> series_length s' = series_length s.
Proof.
  destruct s as [xs|k xs]; cbn; intros H; apply bind_Some in H as (vs & Hvs & [= <-]);
    cbn; rewrite length_fmap; symmetry; by eapply length_mapM.
Qed.



Lemma setitem_replace (n : nat) (df df' : frame) (l : label) (s : series) :
  rows_are n df -> series_length s = n -> l ∈ columns df ->
  setitem df l s = Some df' ->
  rows_are n df' /\ columns df' = columns df.
Proof.
  intros Hwf Hs Hl H. split; [by eapply setitem_rows|].
  unfold setitem in H. destruct (_ && _); [done|].
  unfold has_column in H. rewrite bool_decide_eq_true_2 in H by done. simplify_eq.
  unfold columns. rewrite <- list_fmap_compose. apply list_fmap_ext.
  intros i [l' s'] _. cbn. by case_decide.
Qed.

Lemma str_decode_rows (n : nat) (df df' : frame) (l : label) :
  rows_are n df -> str_decode df l = Some df' ->
  rows_are n df' /\ columns df' = columns df.
Proof.
  unfold str_decode. intros Hwf H. apply bind_Some in H as (s & Hs & H).
  pose proof (getitem_rows _ _ _ _ Hwf Hs) as Hlen.
  assert (Hl : l ∈ columns df).
  { apply getitem_elem in Hs. unfold columns. apply list_elem_of_fmap. by exists (l, s). }
  destruct s as [xs|[] xs]; [done|..];
    (eapply (setitem_replace n); [exact Hwf| |exact Hl|exact H]);
    cbn in *; by rewrite ?length_fmap.
Qed.

Lemma getitems_rows (n : nat) (df X : frame) (ls : list label) :
  rows_are n df -> getitems df ls = Some X -> rows_are n X /\ columns X = ls.
Proof.
  unfold getitems. intros Hwf H. apply mapM_Some_1 in H.
  induction H as [|l [l' s] ls X Hc H IH].
  { split; [by unfold rows_are|done]. }
  destruct IH as [IH1 IH2].
  apply bind_Some in Hc as (s0 & Hs0 & Hc). simplify_eq. split.
  - apply Forall_cons. split; [|done]. cbn. exact (getitem_rows _ _ _ _ Hwf Hs0).
  - done.
Qed.

Lemma numeric_array_spec (n : nat) (X : frame) (a : array) :
  rows_are n X -> numeric_array X = Some a ->
  length a = length X /\ Forall (fun col => length col = n) a.
Proof.
  unfold numeric_array. intros Hwf H. split; [symmetry; by eapply length_mapM|].
  apply mapM_Some_1 in H. unfold rows_are in Hwf.
  induction H as [|[l s] col X a Hc H IH]; [constructor|].
  inversion Hwf; subst. constructor; [|by apply IH].
  cbn in *. destruct s; by simplify_eq.
Qed.

(** After [X[np.isnan(X)] = 0.0] and scaling, no value is missing. *)
Lemma scale_imputed_complete (col : list (option Q)) (x : option Q) :
  x ∈ scale_column ((fun x : option Q => Some (default 0%Q x)) <$> col) ->
  exists q, x = Some q /\ in_unit q.
Proof.
  intros Hx. destruct x as [q|].
  - exists q. split; [done|]. eapply (proj1 (scale_column_scaled _)), Hx.
  - apply list_elem_of_lookup in Hx as (i & Hi).
    apply (proj1 (scale_column_missing _ _)) in Hi.
    rewrite list_lookup_fmap in Hi. by destruct (col !! i).
Qed.

End Assemble.

Ltac step_bind H x Hx := apply bind_Some in H as (x & Hx & H).

Ltac not_listed H :=
  cbn in H; repeat (apply elem_of_cons in H as [H|H]; [done|]); by apply not_elem_of_nil in H.

Lemma delivers_assemble (n : nat) (X : frame) (names : list label) (y : series)
    (a : array) (F out : frame) (no_y : Prop) :
  rows_are n X -> series_length y = n ->
  fit_transform X = Some a -> DataFrame a names = Some F ->
  setitem F (LStr "y") y = Some out ->
  (no_y -> LStr "y" ∉ names) ->
  delivers n out no_y.
Proof.
  intros HX Hy Ha HF H Hn.
  destruct (assemble_spec n X names y out HX Hy) as (H1 & H2 & H3).
  { rewrite Ha. cbn. rewrite HF. done. }
  split; [done|]. split; [done|]. intros Hno.
  destruct (H3 (Hn Hno)) as (feats & Hl & _ & Hs). eauto.
Qed.

Lemma dummies_not_y (X : frame) :
  LStr "y" ∉ columns X -> LStr "y" ∉ columns (get_dummies X).
Proof.
  intros HX Hin. apply get_dummies_columns in Hin as [Hin|Hin]; [done|].
  by apply underscore_not_y in Hin.
Qed.

Lemma abalone_table_spec (g : grid) (out : frame) :
  abalone_table g = Some out -> delivers (length g) out True.
Proof.
  unfold abalone_table. intros H.
  step_bind H df0 Hread. step_bind H df Hset. step_bind H X Hdrop.
  step_bind H a Ha. step_bind H F HF. step_bind H y Hy.
  pose proof (read_csv_header_none_rows _ g df0 Hread) as Hwf0.
  destruct (set_columns_rows _ _ _ _ Hwf0 Hset) as (Hwf & Hcols).
  destruct (drop_columns_rows _ _ _ _ Hwf Hdrop) as (HwfX & HcolsX).
  eapply (delivers_assemble _ (get_dummies X) _ y a F out);
    [by apply get_dummies_rows|exact (getitem_rows _ _ _ _ Hwf Hy)|done..|].
  intros _. apply dummies_not_y. intros Hin. apply HcolsX in Hin as [_ Hin].
  apply Hin. by left.
Qed.

Lemma read_csv_columns (g : grid) (df : frame) :
  read_csv g = Some df -> columns df = header_labels (hd [] g).
Proof.
  unfold read_csv, read_table. destruct g as [|names records]; [done|].
  intros H. by apply frame_of_records_rows in H as [_ H].
Qed.

Lemma read_excel_columns (g : grid) (df : frame) :
  read_excel_header_1 g = Some df -> columns df = header_labels (nth 1 g []).
Proof.
  unfold read_excel_header_1, read_table. destruct g as [|r0 [|names records]]; [done..|].
  cbn. intros H. by apply frame_of_records_rows in H as [_ H].
Qed.

Lemma loadarff_columns (a : arff) (df : frame) :
  loadarff a = Some df -> columns df = LStr <$> (fst <$> attributes a).
Proof.
  unfold loadarff. destruct (_ && _); [|done]. intros H. apply mapM_Some_1 in H.
  unfold columns. revert H.
  change (imap pair (attributes a))
    with (imap (fun j (x : string * bool) => (id j, x)) (attributes a)).
  generalize (@id nat). generalize (attributes a). clear.
  intros l. revert df. induction l as [|[name nominal] l IH]; intros df h H.
  - by inversion H.
  - cbn in H. inversion H as [|? [l' s'] ? df' Hc Hrest]; subst.
    apply bind_Some in Hc as (s0 & _ & Hc). simplify_eq. cbn. f_equal.
    apply (IH df' (h ∘ S)). exact Hrest.
Qed.

Lemma dedup_name_shape (fuel : nat) (counts : list (string * nat)) (col : string) :
  (dedup_name fuel counts col).1 = col \/
  exists a z, (dedup_name fuel counts col).1 = a +:+ String "." z.
Proof.
  revert counts col. induction fuel as [|fuel IH]; intros counts col; cbn.
  - destruct (count_of counts col); by left.
  - destruct (count_of counts col) as [|c]; [by left|]. right.
    destruct (IH ((col, S (S c)) :: counts) (col +:+ "." +:+ pretty (S c))) as [->|H].
    + by exists col, (pretty (S c)).
    + done.
Qed.

Lemma dedup_names_elem (names : list string) (counts : list (string * nat)) (s : string) :
  s ∈ dedup_names counts names -> s ∈ names \/ exists a z, s = a +:+ String "." z.
Proof.
  revert counts. induction names as [|col rest IH]; intros counts; cbn [dedup_names].
  - intros H. by apply not_elem_of_nil in H.
  - pose proof (dedup_name_shape (S (length counts)) counts col) as Hshape.
    destruct (dedup_name (S (length counts)) counts col) as [col' counts'].
    cbn [fst] in Hshape. intros H. apply elem_of_cons in H as [->|H].
    + destruct Hshape as [->|Hd]; [left; left|by right].
    + destruct (IH _ H) as [Hin|Hd]; [left; by right|by right].
Qed.

Lemma unnamed_elem (names : list string) (s : string) :
  s ∈ imap unnamed names -> s ∈ names \/ exists j : nat, s = "Unnamed: " +:+ pretty j.
Proof.
  intros H. apply elem_of_lookup_imap in H as (j & s0 & -> & Hs). unfold unnamed.
  case_bool_decide; [right; by exists j|left; by eapply list_elem_of_lookup_2].
Qed.

Lemma char_inside_not_y (c : ascii) (a z : string) :
  c <> "y"%char -> a +:+ String c z <> "y"%string.
Proof.
  intros Hc. destruct a as [|c0 a]; cbn; intros E.
  - injection E as E _. done.
  - injection E as _ E. destruct a; discriminate E.
Qed.

Lemma header_labels_y (names : list string) :
  LStr "y" ∈ header_labels names -> "y"%string ∈ names.
Proof.
  unfold header_labels. intros H. apply list_elem_of_fmap in H as (s & [= <-] & H).
  apply dedup_names_elem in H as [H|(a & z & E)].
  - apply unnamed_elem in H as [H|(j & E)]; [done|]. cbn in E. simplify_eq.
  - symmetry in E. by apply char_inside_not_y in E.
Qed.

Lemma tidy_name_app (a z : string) :
  tidy_name (a +:+ z) = tidy_name a +:+ tidy_name z.
Proof.
  induction a as [|c a IH]; [done|].
  change (String c a +:+ z) with (String c (a +:+ z)).
  cbn [tidy_name]. rewrite IH. done.
Qed.

Lemma underscore_inside_not_y (a z : string) : a +:+ String "_" z <> "y"%string.
Proof. by apply char_inside_not_y. Qed.

Lemma header_labels_tidy (names : list string) (l : label) :
  (forall s, s ∈ names -> tidy_name s <> "y"%string) ->
  l ∈ header_labels names -> tidy_name (label_str l) <> "y"%string.
Proof.
  intros Hn H. unfold header_labels in H.
  apply list_elem_of_fmap in H as (s & -> & H). cbn.
  apply dedup_names_elem in H as [H|(a & z & ->)].
  - apply unnamed_elem in H as [H|(j & ->)]; [by apply Hn|]. done.
  - rewrite tidy_name_app.
    change (tidy_name (String "." z)) with (String "." (tidy_name z)).
    by apply char_inside_not_y.
Qed.

Lemma absenteeism_table_spec (g : grid) (out : frame) :
  absenteeism_table g = Some out ->
  delivers (length g - 1) out (forall s, s ∈ hd [] g -> tidy_name s <> "y"%string).
Proof.
  unfold absenteeism_table. intros H.
  step_bind H df Hread. step_bind H hours Hh. step_bind H y Hy. step_bind H X Hdrop.
  step_bind H a Ha. step_bind H F HF.
  pose proof (read_csv_rows g df Hread) as Hwf.
  destruct (drop_columns_rows _ _ _ _ Hwf Hdrop) as (HwfX & HcolsX).
  eapply (delivers_assemble _ (get_dummies X) _ y a F out);
    [by apply get_dummies_rows| |done..|].
  { rewrite (gt_zero_length _ _ Hy). exact (getitem_rows _ _ _ _ Hwf Hh). }
  intros Hno Hin. apply list_elem_of_fmap in Hin as (c & [= Hc] & Hin). symmetry in Hc.
  apply get_dummies_columns in Hin as [Hin|(a' & z & E)].
  - apply HcolsX in Hin as [Hin _]. rewrite (read_csv_columns _ _ Hread) in Hin.
    by apply (header_labels_tidy _ _ Hno Hin).
  - rewrite E, tidy_name_app in Hc.
    change (tidy_name (String "_" z)) with (String "_" (tidy_name z)) in Hc.
    by apply underscore_inside_not_y in Hc.
Qed.

Lemma bank_table_spec (g : grid) (out : frame) :
  bank_table g = Some out -> delivers (length g - 1) out True.
Proof.
  unfold bank_table. intros H.
  step_bind H df Hread. step_bind H lab Hlab. step_bind H X Hdrop.
  step_bind H a Ha. step_bind H F HF.
  pose proof (read_csv_rows g df Hread) as Hwf.
  destruct (drop_columns_rows _ _ _ _ Hwf Hdrop) as (HwfX & HcolsX).
  eapply (delivers_assemble _ (get_dummies X) _ _ a F out);
    [by apply get_dummies_rows| |done..|].
  { rewrite eq_string_length. exact (getitem_rows _ _ _ _ Hwf Hlab). }
  intros _. apply dummies_not_y. intros Hin. apply HcolsX in Hin as [_ Hin].
  apply Hin. by left.
Qed.

Lemma banknote_table_spec (g : grid) (out : frame) :
  banknote_table g = Some out -> delivers (length g - 1) out True.
Proof.
  unfold banknote_table. intros H.
  step_bind H df0 Hread. step_bind H df Hset. step_bind H lab Hlab. step_bind H X Hdrop.
  step_bind H a Ha. step_bind H F HF.
  pose proof (read_csv_rows g df0 Hread) as Hwf0.
  destruct (set_columns_rows _ _ _ _ Hwf0 Hset) as (Hwf & Hcols).
  destruct (drop_columns_rows _ _ _ _ Hwf Hdrop) as (HwfX & HcolsX).
  eapply (delivers_assemble _ (get_dummies X) _ _ a F out);
    [by apply get_dummies_rows| |done..|].
  { rewrite eq_number_length. exact (getitem_rows _ _ _ _ Hwf Hlab). }
  intros _. apply dummies_not_y. intros Hin. apply HcolsX in Hin as [Hin _].
  rewrite Hcols in Hin. not_listed Hin.
Qed.

Lemma defaultcc_table_spec (g : grid) (out : frame) :
  defaultcc_table g = Some out ->
  delivers (length g - 2) out ("y"%string ∉ nth 1 g []).
Proof.
  unfold defaultcc_table. intros H.
  step_bind H df Hread. step_bind H lab Hlab. step_bind H X Hdrop.
  step_bind H a Ha. step_bind H F HF.
  pose proof (read_excel_rows g df Hread) as Hwf.
  destruct (drop_columns_rows _ _ _ _ Hwf Hdrop) as (HwfX & HcolsX).
  eapply (delivers_assemble _ (get_dummies X) _ _ a F out);
    [by apply get_dummies_rows| |done..|].
  { rewrite eq_number_length. exact (getitem_rows _ _ _ _ Hwf Hlab). }
  intros Hno. apply dummies_not_y. intros Hin. apply HcolsX in Hin as [Hin _].
  rewrite (read_excel_columns _ _ Hread) in Hin. by apply header_labels_y in Hin.
Qed.

Lemma diabetes_table_spec (g : grid) (out : frame) :
  diabetes_table g = Some out ->
  delivers (length g - 1) out ("y"%string ∉ hd [] g).
Proof.
  unfold diabetes_table. intros H.
  step_bind H df Hread. step_bind H lab Hlab. step_bind H X Hdrop.
  step_bind H a Ha. step_bind H F HF.
  pose proof (read_csv_rows g df Hread) as Hwf.
  destruct (drop_columns_rows _ _ _ _ Hwf Hdrop) as (HwfX & HcolsX).
  eapply (delivers_assemble _ (get_dummies X) _ _ a F out);
    [by apply get_dummies_rows| |done..|].
  { rewrite eq_string_length. exact (getitem_rows _ _ _ _ Hwf Hlab). }
  intros Hno. apply dummies_not_y. intros Hin. apply HcolsX in Hin as [Hin _].
  rewrite (read_csv_columns _ _ Hread) in Hin. by apply header_labels_y in Hin.
Qed.

Lemma epileptic_table_spec (g : grid) (out : frame) :
  epileptic_table g = Some out -> delivers (length g - 1) out True.
Proof.
  unfold epileptic_table. intros H.
  step_bind H df Hread. step_bind H X0 Hdrop0. step_bind H X Hdrop.
  step_bind H a Ha. step_bind H F HF. step_bind H y Hy.
  pose proof (read_csv_rows g df Hread) as Hwf.
  destruct (drop_columns_rows _ _ _ _ Hwf Hdrop0) as (HwfX0 & _).
  destruct (drop_columns_rows _ _ _ _ HwfX0 Hdrop) as (HwfX & HcolsX).
  eapply (delivers_assemble _ X _ y a F out);
    [done|exact (getitem_rows _ _ _ _ Hwf Hy)|done..|].
  intros _ Hin. apply HcolsX in Hin as [_ Hin]. apply Hin. by left.
Qed.

Lemma happiness_table_spec (g : grid) (out : frame) :
  happiness_table g = Some out -> delivers (length g - 1) out True.
Proof.
  unfold happiness_table. intros H.
  step_bind H df Hread. step_bind H lab Hlab. step_bind H X Hdrop.
  step_bind H a Ha. step_bind H F HF.
  pose proof (read_csv_rows g df Hread) as Hwf.
  destruct (drop_columns_rows _ _ _ _ Hwf Hdrop) as (HwfX & HcolsX).
  eapply (delivers_assemble _ (get_dummies X) _ _ a F out);
    [by apply get_dummies_rows| |done..|].
  { rewrite eq_number_length. exact (getitem_rows _ _ _ _ Hwf Hlab). }
  intros _ Hin. not_listed Hin.
Qed.

Lemma seismic_table_spec (r : arff) (out : frame) :
  seismic_table r = Some out ->
  delivers (length (data r)) out ("y"%string ∉ (fst <$> attributes r)).
Proof.
  unfold seismic_table. intros H.
  step_bind H df0 Hread. step_bind H df1 H1. step_bind H df2 H2. step_bind H df3 H3.
  step_bind H df4 H4. step_bind H df H5. step_bind H lab Hlab. step_bind H X Hdrop.
  step_bind H a Ha. step_bind H F HF.
  pose proof (loadarff_rows r df0 Hread) as Hwf0.
  destruct (str_decode_rows _ _ _ _ Hwf0 H1) as (Hwf1 & Hc1).
  destruct (str_decode_rows _ _ _ _ Hwf1 H2) as (Hwf2 & Hc2).
  destruct (str_decode_rows _ _ _ _ Hwf2 H3) as (Hwf3 & Hc3).
  destruct (str_decode_rows _ _ _ _ Hwf3 H4) as (Hwf4 & Hc4).
  destruct (str_decode_rows _ _ _ _ Hwf4 H5) as (Hwf & Hc).
  destruct (drop_columns_rows _ _ _ _ Hwf Hdrop) as (HwfX & HcolsX).
  eapply (delivers_assemble _ (get_dummies X) _ _ a F out);
    [by apply get_dummies_rows| |done..|].
  { rewrite eq_string_length. exact (getitem_rows _ _ _ _ Hwf Hlab). }
  intros Hno. apply dummies_not_y. intros Hin. apply HcolsX in Hin as [Hin _].
  rewrite Hc, Hc4, Hc3, Hc2, Hc1, (loadarff_columns _ _ Hread) in Hin.
  apply list_elem_of_fmap in Hin as (s & E & Hs). by simplify_eq.
Qed.

(** [process_wbc] replaces the missing values by zero before scaling, so
    its features have none. *)
Lemma wbc_table_spec (g : grid) (out : frame) :
  wbc_table g = Some out ->
  rows_are (length g) out /\ nrows out = length g /\
  exists feats y, label_last out feats y /\ Forall scaled_feature feats /\
                  Forall complete_feature feats.
Proof.
  unfold wbc_table. intros H.
  step_bind H tmp Hread. step_bind H X0 Hsel. step_bind H A Harr. step_bind H y0 Hy0.
  step_bind H y1 Hy1. step_bind H y Hy. step_bind H A' Hfit. step_bind H F HF.
  pose proof (read_csv_header_none_rows _ g tmp Hread) as Hwf.
  destruct (getitems_rows _ _ _ _ Hwf Hsel) as (HwfX0 & _).
  destruct (numeric_array_spec _ _ _ HwfX0 Harr) as (HlenA & HcolsA).
  assert (Hylen : series_length y = length g).
  { rewrite (label_encode_length _ _ Hy). unfold squeeze in Hy1.
    destruct (Nat.eqb _ _); [done|]. simplify_eq. exact (getitem_rows _ _ _ _ Hwf Hy0). }
  unfold array_fit_transform in Hfit. destruct (_ || _); [done|]. simplify_eq.
  assert (Hcols : Forall (fun col => (length col = length g /\ scaled_column col) /\
                    forall x, x ∈ col -> exists q, x = Some q /\ in_unit q)
                         (scale_column <$> nan_to_zero A)).
  { apply Forall_fmap. unfold nan_to_zero. apply Forall_fmap.
    eapply Forall_impl; [exact HcolsA|]. cbn. intros col Hc. split; [split|].
    - by rewrite scale_column_length, length_fmap.
    - apply scale_column_scaled.
    - apply scale_imputed_complete. }
  destruct (DataFrame_spec (length g) _ _ F HF) as (Hnames & HwfF & HsF & HlenF).
  { eapply Forall_impl; [exact Hcols|]. by intros ? [? _]. }
  destruct (setitem_rows _ F out (LStr "y") y HwfF Hylen H) as (Hout & Hne).
  split; [done|]. split; [by apply rows_are_nrows|].
  exists F, y. split; [|split; [done|]].
  - split; [|rewrite Hnames; intros Hin; not_listed Hin].
    apply setitem_append; [|done]. rewrite Hnames. intros Hin. not_listed Hin.
  - unfold DataFrame in HF. destruct (Nat.eqb _ _); [|done]. simplify_eq.
    apply Forall_forall. intros [l s] Hc. apply elem_of_zip_r in Hc.
    apply list_elem_of_fmap in Hc as (col & -> & Hcol).
    rewrite Forall_forall in Hcols. exists col. split; [done|]. by destruct (Hcols _ Hcol).
Qed.

(** * Properties of the life cycle *)

Lemma bind_run {A B} (m : M A) (f : A -> M B) (fs : FS) :
  (m ≫= f) fs =
  match m fs with
  | (Ok a, fs1, t1) => let '(r, fs2, t2) := f a fs1 in (r, fs2, t1 ++ t2)
  | (Raise e, fs1, t1) => (Raise e, fs1, t1)
  end.
Proof. reflexivity. Qed.

Lemma stat_insert_eq (fs : FS) (p : Path) (n : node) :
  p <> [] -> stat (<[p := n]> fs) p = Some n.
Proof. destruct p; [done|]. intros _. cbn. by rewrite lookup_insert_eq. Qed.

Lemma stat_insert_ne (fs : FS) (p q : Path) (n : node) :
  p <> q -> stat (<[p := n]> fs) q = stat fs q.
Proof. intros Hne. destruct q; [done|]. cbn. by rewrite lookup_insert_ne. Qed.

Lemma is_dir_false_nonroot (fs : FS) (p : Path) : is_dir fs p = false -> p <> [].
Proof. by destruct p. Qed.

Lemma file_at_nonroot (fs : FS) (p : Path) (c : bytes) : file_at fs p = Some c -> p <> [].
Proof. by destruct p. Qed.

Lemma file_at_stat (fs : FS) (p : Path) (c : bytes) :
  file_at fs p = Some c <-> stat fs p = Some (File c).
Proof.
  unfold file_at. destruct (stat fs p) as [[c'|]|]; split; intros H; by simplify_eq.
Qed.

Lemma file_at_present (fs : FS) (p : Path) (c : bytes) :
  file_at fs p = Some c -> present fs p = true.
Proof. rewrite file_at_stat. unfold present. by intros ->. Qed.

Lemma file_at_insert_dir (fs : FS) (q p : Path) :
  stat fs q = None -> file_at (<[q := Dir]> fs) p = file_at fs p.
Proof.
  intros Hq. unfold file_at. destruct (decide (q = p)) as [->|Hne].
  - rewrite Hq. destruct p; [done|]. rewrite stat_insert_eq; done.
  - by rewrite stat_insert_ne.
Qed.

(** [mkdir] with [parents=True] only adds directories, below its starting
    point, and never touches a regular file. *)
Lemma mkdir_from_spec (todo done : Path) (fs : FS) :
  let x := mkdir_from done todo fs in
  (forall p, file_at (fs_of x) p = file_at fs p) /\
  (forall p, (length p <= length done)%nat \/ (length done + length todo < length p)%nat ->
             fs_of x !! p = fs !! p) /\
  written (trace_of x) = [] /\ requests (trace_of x) = [] /\
  digests (trace_of x) = [] /\ printed (trace_of x) = [] /\
  (result_of x = Ok tt \/ exists e, result_of x = Raise e /\ mkdir_error e).
Proof.
  revert done fs. induction todo as [|c rest IH]; intros done fs; cbn zeta.
  - cbn. repeat split; auto.
  - cbn [mkdir_from]. rewrite bind_run. unfold mkdir1.
    assert (Hq : done ++ [c] <> []) by (by destruct done).
    destruct (stat fs (done ++ [c])) as [[cc|]|] eqn:Hs.
    + cbn. repeat split; auto. right. unfold mkdir_error. destruct rest; eauto.
    + specialize (IH (done ++ [c]) fs). cbn zeta in IH.
      destruct (mkdir_from (done ++ [c]) rest fs) as [[r fs'] t] eqn:E.
      cbn in *. destruct IH as (H1 & H2 & H3 & H4 & H5 & H6 & H7).
      repeat split; auto. intros p Hp. apply H2. rewrite length_app. cbn. lia.
    + specialize (IH (done ++ [c]) (<[done ++ [c] := Dir]> fs)). cbn zeta in IH.
      destruct (mkdir_from (done ++ [c]) rest (<[done ++ [c] := Dir]> fs))
        as [[r fs'] t] eqn:E.
      cbn in *. destruct IH as (H1 & H2 & H3 & H4 & H5 & H6 & H7).
      repeat split; auto.
      * intros p. rewrite H1. by apply file_at_insert_dir.
      * intros p Hp. rewrite H2 by (rewrite length_app; cbn; lia).
        apply lookup_insert_ne. intros <-. rewrite length_app in Hp. cbn in Hp. lia.
Qed.

Lemma write_chunks_run (p : Path) (cs : list bytes) (fs : FS) (c0 : bytes) :
  file_at fs p = Some c0 ->
  write_chunks p cs fs = (Ok tt, <[p := File (c0 ++ concat cs)]> fs, []).
Proof.
  revert fs c0. induction cs as [|c cs IH]; intros fs c0 Hf.
  - cbn. rewrite app_nil_r, insert_id; [done|].
    apply file_at_stat in Hf. by destruct p.
  - cbn [write_chunks]. rewrite bind_run. destruct c as [|x c].
    + cbn. rewrite (IH fs c0 Hf). done.
    + unfold write at 1. rewrite Hf.
      rewrite (IH _ (c0 ++ x :: c)).
      * cbn. by rewrite insert_insert_eq, <- app_assoc.
      * apply file_at_stat, stat_insert_eq. eapply file_at_nonroot, Hf.
Qed.

(** The three ways [check_hash] ends on a readable file. *)
Lemma check_hash_match (env : Env) (d : Dataset) (fs : FS) (c : bytes) :
  file_at fs (raw_file_path d) = Some c ->
  sha256_hexdigest c = hash d ->
  check_hash env d fs =
    (Ok tt, fs, [ERead (raw_file_path d); EDigest (raw_file_path d) (hash d)]).
Proof.
  intros Hf Hh. apply file_at_stat in Hf. unfold check_hash.
  rewrite bind_run. unfold read_file. rewrite Hf. rewrite bind_run. cbn.
  rewrite Hh. by rewrite bool_decide_eq_true_2.
Qed.

Lemma check_hash_mismatch (env : Env) (d g : Dataset) (fs : FS) (c : bytes) :
  file_at fs (raw_file_path d) = Some c ->
  sha256_hexdigest c <> hash d ->
  dataset env = Some g ->
  check_hash env d fs =
    (Raise (SystemExit 1), fs,
     [ERead (raw_file_path d); EDigest (raw_file_path d) (sha256_hexdigest c);
      EPrint (hash_message g)]).
Proof.
  intros Hf Hh Hg. apply file_at_stat in Hf. unfold check_hash.
  rewrite bind_run. unfold read_file. rewrite Hf. rewrite bind_run. cbn.
  rewrite bool_decide_eq_false_2 by done.
  rewrite bind_run. unfold global_dataset. rewrite Hg. done.
Qed.

Lemma check_hash_mismatch_unbound (env : Env) (d : Dataset) (fs : FS) (c : bytes) :
  file_at fs (raw_file_path d) = Some c ->
  sha256_hexdigest c <> hash d ->
  dataset env = None ->
  check_hash env d fs =
    (Raise (NameError "dataset"), fs,
     [ERead (raw_file_path d); EDigest (raw_file_path d) (sha256_hexdigest c)]).
Proof.
  intros Hf Hh Hg. apply file_at_stat in Hf. unfold check_hash.
  rewrite bind_run. unfold read_file. rewrite Hf. rewrite bind_run. cbn.
  rewrite bool_decide_eq_false_2 by done.
  rewrite bind_run. unfold global_dataset. rewrite Hg. done.
Qed.

Lemma check_hash_unreadable (env : Env) (d : Dataset) (fs : FS) :
  file_at fs (raw_file_path d) = None ->
  exists e, check_hash env d fs = (Raise e, fs, []).
Proof.
  intros Hf. unfold check_hash. rewrite bind_run. unfold read_file.
  unfold file_at in Hf. destruct (stat fs (raw_file_path d)) as [[c|]|]; [done|eauto..].
Qed.

Lemma download_file_cases (env : Env) (d : Dataset) (fs : FS) :
  download_run env d fs (download_file env d fs).
Proof.
  unfold download_file. rewrite bind_run.
  pose proof (mkdir_from_spec (parent (raw_file_path d)) [] fs) as Hm.
  cbn zeta in Hm. fold (mkdir_parents (parent (raw_file_path d))) in Hm.
  destruct (mkdir_parents (parent (raw_file_path d)) fs) as [[r0 fs0] t0] eqn:Emk.
  destruct Hm as (_ & _ & _ & _ & _ & _ & Hres). cbn in Hres.
  destruct Hres as [->|(e & -> & He)]; [|by eapply dl_mkdir_fails].
  rewrite bind_run. unfold requests_get at 1. rewrite bind_run. cbn [emit].
  destruct (net env (url d)) as [|r] eqn:Enet.
  { cbn. by apply dl_unreachable. }
  cbn [mret M_ret]. rewrite bind_run. unfold int_content_length at 1.
  destruct (content_length r) as [s|] eqn:Ecl; [|cbn; by eapply dl_no_length].
  destruct (py_int s) as [n|] eqn:Eint; [|cbn; by eapply dl_bad_length].
  cbn [mret M_ret]. rewrite bind_run.
  destruct (open_wb (raw_file_path d) fs0) as [[ro fso] to] eqn:Eopen.
  unfold open_wb in Eopen.
  destruct (is_dir fs0 (raw_file_path d)) eqn:Edir.
  { simplify_eq. cbn. eapply dl_open_fails; eauto. unfold open_wb. by rewrite Edir. }
  destruct (stat fs0 (parent (raw_file_path d))) as [[?|]|] eqn:Epar.
  1,3: simplify_eq; cbn; eapply dl_open_fails; eauto; unfold open_wb;
       by rewrite Edir, Epar.
  simplify_eq. apply is_dir_false_nonroot in Edir.
  rewrite bind_run.
  rewrite (write_chunks_run _ _ _ []) by (by apply file_at_stat, stat_insert_eq).
  rewrite insert_insert_eq. cbn [app]. rewrite bind_run.
  destruct (broken r) eqn:Ebr.
  { cbn. by eapply dl_broken. }
  cbn [mret M_ret].
  destruct (check_hash env d (<[raw_file_path d:=File (concat (chunks r))]> fs0))
    as [[rc fsc] tc] eqn:Ech.
  assert (fsc = <[raw_file_path d:=File (concat (chunks r))]> fs0) as ->.
  { destruct (decide (sha256_hexdigest (concat (chunks r)) = hash d)) as [Hh|Hh].
    - erewrite check_hash_match in Ech; [by simplify_eq| |done].
      by apply file_at_stat, stat_insert_eq.
    - destruct (dataset env) as [g|] eqn:Eg.
      + erewrite check_hash_mismatch in Ech; [by simplify_eq| |done..].
        by apply file_at_stat, stat_insert_eq.
      + erewrite check_hash_mismatch_unbound in Ech; [by simplify_eq| |done..].
        by apply file_at_stat, stat_insert_eq. }
  cbn. replace (t0 ++ EGet (url d) :: EWrite (raw_file_path d) :: tc)
    with (t0 ++ [EGet (url d); EWrite (raw_file_path d)] ++ tc) by done.
  by eapply dl_checked.
Qed.

Lemma verify_downloaded_unbound (env : Env) (d : Dataset) (fs : FS) :
  dataset env = None ->
  verify_downloaded env d fs = (Raise (NameError "dataset"), fs, []).
Proof. intros Hg. unfold verify_downloaded, global_dataset. rewrite bind_run, Hg. done. Qed.

Lemma verify_downloaded_present (env : Env) (g d : Dataset) (fs : FS) :
  dataset env = Some g -> present fs (raw_file_path g) = true ->
  verify_downloaded env d fs = (Ok tt, fs, []).
Proof.
  intros Hg Hp. unfold verify_downloaded, global_dataset. rewrite bind_run, Hg.
  cbn [mret M_ret]. rewrite bind_run. unfold exists_. rewrite Hp. done.
Qed.

Lemma verify_downloaded_missing (env : Env) (g d : Dataset) (fs : FS) :
  dataset env = Some g -> present fs (raw_file_path g) = false ->
  verify_downloaded env d fs =
    let '(r, fs', t) := download_file env d fs in
    (r, fs', EPrint (missing_message g) :: t).
Proof.
  intros Hg Hp. unfold verify_downloaded, global_dataset. rewrite bind_run, Hg.
  cbn [mret M_ret]. rewrite bind_run. unfold exists_. rewrite Hp.
  rewrite bind_run. cbn [mret M_ret]. rewrite bind_run. cbn [print emit].
  destruct (download_file env d fs) as [[r fs'] t]. by destruct r.
Qed.

Lemma process_run (env : Env) (d : Dataset) (fs : FS) :
  process env d fs =
  match verify_downloaded env d fs with
  | (Ok _, fs1, t1) =>
      let '(r, fs2, t2) :=
        processing_function d (raw_file_path d) (clean_file_path d) fs1 in
      (r, fs2, t1 ++ t2)
  | (Raise e, fs1, t1) => (Raise e, fs1, t1)
  end.
Proof. reflexivity. Qed.

Lemma omap_app_events {B} (f : event -> option B) (l1 l2 : list event) :
  omap f (l1 ++ l2) = omap f l1 ++ omap f l2.
Proof. apply omap_app. Qed.

(** What a download leaves behind, whatever its outcome. *)
Lemma download_file_frame (env : Env) (d : Dataset) (fs : FS) :
  let x := download_file env d fs in
  (forall p, p <> raw_file_path d -> file_at (fs_of x) p = file_at fs p) /\
  (forall p, In p (written (trace_of x)) -> p = raw_file_path d) /\
  (forall u, In u (requests (trace_of x)) -> u = url d) /\
  (forall p h, In (p, h) (digests (trace_of x)) ->
     p = raw_file_path d /\ file_at (fs_of x) p <> None /\
     digest_of (fs_of x) p = Some h).
Proof.
  cbn zeta. destruct (download_file_cases env d fs)
    as [e0 fs0 t0 Hmk He0|fs0 t0 Hmk Hn|fs0 t0 r Hmk Hn Hc|fs0 t0 r s Hmk Hn Hc Hi
       |fs0 t0 r s n e Hmk Hn Hc Hi Ho|fs0 t0 r s n Hmk Hn Hc Hi Hne Hb|fs0 t0 r s n res tc Hmk Hn Hc Hi Hne Hb Hch];
    pose proof (mkdir_from_spec (parent (raw_file_path d)) [] fs) as Hm;
    cbn zeta in Hm; fold (mkdir_parents (parent (raw_file_path d))) in Hm;
    rewrite Hmk in Hm; cbn in Hm;
    destruct Hm as (Hfile & Hlook & Hw & Hr & Hd & Hp & _);
    unfold fs_of, trace_of; cbn [fst snd];
    unfold written, requests, digests in *; rewrite ?omap_app_events, ?Hw, ?Hr, ?Hd; cbn.
  1-5: refine (conj _ (conj _ (conj _ _))); auto; try tauto;
       intros ? [<-|[]]; done.
  - refine (conj _ (conj _ (conj _ _))); try tauto.
    + intros p Hp'. unfold file_at. rewrite stat_insert_ne by done. apply Hfile.
    + intros p [<-|[]]; done.
    + intros u [<-|[]]; done.
  - assert (Hfa : file_at (<[raw_file_path d:=File (concat (chunks r))]> fs0)
                    (raw_file_path d) = Some (concat (chunks r)))
      by (by apply file_at_stat, stat_insert_eq).
    assert (Htc : omap (fun e => match e with EWrite p => Some p | _ => None end) tc = []
                  /\ omap (fun e => match e with EGet u => Some u | _ => None end) tc = []
                  /\ omap (fun e => match e with EDigest p h => Some (p, h) | _ => None end) tc
                     = [(raw_file_path d, sha256_hexdigest (concat (chunks r)))]).
    { destruct (decide (sha256_hexdigest (concat (chunks r)) = hash d)) as [Hh|Hh].
      - rewrite (check_hash_match _ _ _ _ Hfa Hh) in Hch. simplify_eq. cbn. by rewrite Hh.
      - destruct (dataset env) as [g|] eqn:Eg.
        + rewrite (check_hash_mismatch _ _ _ _ _ Hfa Hh Eg) in Hch. by simplify_eq.
        + rewrite (check_hash_mismatch_unbound _ _ _ _ Hfa Hh Eg) in Hch. by simplify_eq. }
    destruct Htc as (-> & -> & ->). cbn. refine (conj _ (conj _ (conj _ _))).
    + intros p Hp'. unfold file_at. rewrite stat_insert_ne by done. apply Hfile.
    + intros p [<-|[]]; done.
    + intros u [<-|[]]; done.
    + intros p h [H|[]]. simplify_eq. unfold digest_of. rewrite Hfa. done.
Qed.

Lemma download_file_ok (env : Env) (d : Dataset) (fs fs' : FS) (t : list event) :
  download_file env d fs = (Ok tt, fs', t) ->
  exists c t', file_at fs' (raw_file_path d) = Some c /\ sha256_hexdigest c = hash d /\
               t = t' ++ [EDigest (raw_file_path d) (hash d)].
Proof.
  intros E. pose proof (download_file_cases env d fs) as Hc. rewrite E in Hc.
  inversion Hc as [| | | | | |fs0 t0 r s n res tc Hmk Hn Hcl Hi Hne Hb Hch]; subst.
  assert (Hfa : file_at (<[raw_file_path d:=File (concat (chunks r))]> fs0)
                  (raw_file_path d) = Some (concat (chunks r)))
    by (by apply file_at_stat, stat_insert_eq).
  exists (concat (chunks r)).
  destruct (decide (sha256_hexdigest (concat (chunks r)) = hash d)) as [Hh|Hh].
  - rewrite (check_hash_match _ _ _ _ Hfa Hh) in Hch. simplify_eq.
    exists (t0 ++ [EGet (url d); EWrite (raw_file_path d); ERead (raw_file_path d)]).
    split; [done|]. split; [done|]. by rewrite <- app_assoc.
  - destruct (dataset env) as [g|] eqn:Eg.
    + rewrite (check_hash_mismatch _ _ _ _ _ Hfa Hh Eg) in Hch. by simplify_eq.
    + rewrite (check_hash_mismatch_unbound _ _ _ _ Hfa Hh Eg) in Hch. by simplify_eq.
Qed.

Lemma parent_neq (p : Path) : p <> [] -> parent p <> p.
Proof.
  intros Hp E. apply (f_equal length) in E. unfold parent in E.
  rewrite removelast_firstn_len, length_take in E. destruct p; [done|]. cbn in E. lia.
Qed.

Lemma file_routine_cases (compute : bytes -> option (string * bytes)) (i o : Path) (fs : FS) :
  routine_run compute i o fs (file_routine compute i o fs).
Proof.
  unfold file_routine. rewrite bind_run. unfold read_file.
  destruct (stat fs i) as [[c|]|] eqn:Es.
  2,3: apply rt_unreadable; unfold file_at; by rewrite Es.
  assert (Hf : file_at fs i = Some c) by (by apply file_at_stat).
  destruct (compute c) as [[line out]|] eqn:Ec; [|cbn; by eapply rt_raises].
  rewrite bind_run. cbn [print emit]. rewrite bind_run.
  destruct (open_wb o fs) as [[ro fso] to] eqn:Eopen.
  pose proof Eopen as Eopen'. unfold open_wb in Eopen.
  destruct (is_dir fs o) eqn:Edir.
  { simplify_eq. cbn. by eapply rt_unwritable. }
  destruct (stat fs (parent o)) as [[?|]|] eqn:Epar.
  1,3: simplify_eq; cbn; by eapply rt_unwritable.
  simplify_eq. apply is_dir_false_nonroot in Edir as Hne.
  unfold write. rewrite (proj2 (file_at_stat _ _ _) (stat_insert_eq fs o (File []) Hne)).
  rewrite insert_insert_eq. cbn. eapply rt_done; eauto.
Qed.

Lemma file_routine_frame (compute : bytes -> option (string * bytes)) (i o : Path) (fs : FS) :
  let x := file_routine compute i o fs in
  (forall p, p <> o -> file_at (fs_of x) p = file_at fs p) /\
  (forall p, In p (written (trace_of x)) -> p = o) /\
  requests (trace_of x) = [] /\ digests (trace_of x) = [].
Proof.
  cbn zeta. destruct (file_routine_cases compute i o fs); cbn; repeat split; try tauto.
  - intros p Hp. unfold file_at. by rewrite stat_insert_ne.
  - intros p [<-|[]]. done.
Qed.

Lemma hexdigest_length (data : bytes) : String.length (sha256_hexdigest data) = 64%nat.
Proof.
  unfold sha256_hexdigest, SHA256.hexdigest, SHA256.hex8. cbv zeta.
  cbn [String.length]. reflexivity.
Qed.

(** Known answers: the digests of the empty message, of a three-byte and
    of a 56-byte message (one and two blocks). *)
Lemma sha256_known_answers :
  sha256_hexdigest (list_byte_of_string "") =
    "e3b0c44298fc1c149afbf4c8996fb92427ae41e4649b934ca495991b7852b855"%string /\
  sha256_hexdigest (list_byte_of_string "abc") =
    "ba7816bf8f01cfea414140de5dae2223b00361a396177a9cb410ff61f20015ad"%string /\
  sha256_hexdigest
    (list_byte_of_string "abcdbcdecdefdefgefghfghighijhijkijkljklmklmnlmnomnopnopq") =
    "248d6a61d20638b8e5c026930c3e6039a33ce45964ff2167f6ecedd419db06c1"%string.
Proof. split_and!; vm_compute; reflexivity. Qed.

Lemma split_at_write (l1 l2 pre post : list event) (e : event) :
  l1 ++ l2 = pre ++ e :: post ->
  In e l1 \/ exists pre', pre = l1 ++ pre'.
Proof.
  revert pre. induction l1 as [|a l1 IH]; intros pre E.
  - right. by exists pre.
  - destruct pre as [|b pre]; cbn in E; simplify_eq.
    + left. by left.
    + destruct (IH _ H0) as [Hin|[pre' ->]]; [left; by right|right; by exists pre'].
Qed.

Lemma in_written (p : Path) (tr : list event) : In (EWrite p) tr <-> In p (written tr).
Proof.
  unfold written. rewrite <- !list_elem_of_In, list_elem_of_omap. split.
  - intros H. by exists (EWrite p).
  - intros (e & He & Hs). destruct e; by simplify_eq.
Qed.

Lemma in_digests (p : Path) (h : string) (tr : list event) :
  In (EDigest p h) tr <-> In (p, h) (digests tr).
Proof.
  unfold digests. rewrite <- !list_elem_of_In, list_elem_of_omap. split.
  - intros H. by exists (EDigest p h).
  - intros (e & He & Hs). destruct e; by simplify_eq.
Qed.

Lemma mkdir_parents_quiet (p : Path) (fs fs0 : FS) (r : outcome unit) (t0 : list event) :
  mkdir_parents p fs = (r, fs0, t0) ->
  written t0 = [] /\ requests t0 = [] /\ digests t0 = [] /\ printed t0 = [] /\
  (forall q, file_at fs0 q = file_at fs q) /\
  (forall q, (length p < length q)%nat \/ q = [] -> fs0 !! q = fs !! q).
Proof.
  intros E. pose proof (mkdir_from_spec p [] fs) as Hm. cbn zeta in Hm.
  fold (mkdir_parents p) in Hm. rewrite E in Hm.
  unfold fs_of, trace_of, result_of in Hm. cbn [fst snd] in Hm.
  destruct Hm as (H1 & H2 & H3 & H4 & H5 & H6 & _).
  repeat (split; [done|]). intros q [Hq| ->]; apply H2; cbn; lia.
Qed.

Lemma parent_shorter (p : Path) : p <> [] -> (length (parent p) < length p)%nat.
Proof.
  intros Hp. unfold parent. rewrite removelast_firstn_len, length_take.
  destruct p; [done|]. cbn. lia.
Qed.

(** C1 (amended). When [process] has to download the raw file, every write
    of the clean file in that call comes after the digest of the raw file
    was computed and found equal to the expected one. When the raw file is
    already there, [verify_downloaded] does nothing at all, so the routine
    runs, and writes the clean file, with no digest computed. *)
Theorem clean_written_after_digest_when_downloaded
    (env : Env) (g d : Dataset) (fs : FS) :
  dataset env = Some g ->
  raw_file_path d <> clean_file_path d ->
  (present fs (raw_file_path g) = false ->
     digest_confirmed_before_write d (trace_of (process env d fs))) /\
  (present fs (raw_file_path g) = true ->
     verify_downloaded env d fs = (Ok tt, fs, []) /\
     process env d fs =
       processing_function d (raw_file_path d) (clean_file_path d) fs).
Proof.
  intros Hg Hne. split; intros Hp.
  - rewrite process_run, (verify_downloaded_missing env _ d fs Hg Hp).
    pose proof (download_file_frame env d fs) as (_ & Hw & _). cbn zeta in Hw.
    destruct (download_file env d fs) as [[r fs'] t] eqn:E.
    unfold trace_of in Hw. cbn [snd] in Hw.
    assert (Hno : ~ In (EWrite (clean_file_path d)) (EPrint (missing_message g) :: t)).
    { intros [?|Hin]; [done|]. apply in_written, Hw in Hin. congruence. }
    destruct r as [[]|e].
    + destruct (download_file_ok _ _ _ _ _ E) as (c & t' & _ & _ & ->).
      destruct (processing_function d _ _ fs') as [[r2 fs2] t2].
      unfold trace_of. cbn [snd]. intros pre post Heq.
      apply split_at_write in Heq as [Hin|[pre' ->]]; [done|].
      apply in_or_app. left. right. apply in_or_app. right. by left.
    + unfold trace_of. cbn [snd]. intros pre post Heq. exfalso. apply Hno.
      rewrite Heq. apply in_or_app. right. by left.
  - pose proof (verify_downloaded_present env _ d fs Hg Hp) as Hv. split; [done|].
    rewrite process_run, Hv.
    by destruct (processing_function d _ _ fs) as [[r2 fs2] t2].
Qed.

(** A fresh download whose digest is not the expected one: the whole run
    of [verify_downloaded]. *)
Lemma fresh_mismatch_run (env : Env) (g d : Dataset) (fs : FS) (h : string) :
  dataset env = Some g ->
  fresh_digest env d fs h ->
  h <> hash d ->
  exists fs0 t0 r,
    present fs (raw_file_path g) = false /\
    mkdir_parents (parent (raw_file_path d)) fs = (Ok tt, fs0, t0) /\
    net env (url d) = Responds r /\
    h = sha256_hexdigest (concat (chunks r)) /\
    raw_file_path d <> [] /\
    verify_downloaded env d fs =
      (Raise (SystemExit 1), <[raw_file_path d := File (concat (chunks r))]> fs0,
       [EPrint (missing_message g)] ++ t0 ++
       [EGet (url d); EWrite (raw_file_path d); ERead (raw_file_path d);
        EDigest (raw_file_path d) h] ++ [EPrint (hash_message g)]).
Proof.
  intros Hg Hfresh Hh. unfold fresh_digest in Hfresh. apply in_digests in Hfresh.
  destruct (present fs (raw_file_path g)) eqn:Hp.
  { rewrite (verify_downloaded_present env _ d fs Hg Hp) in Hfresh. done. }
  rewrite (verify_downloaded_missing env _ d fs Hg Hp) in Hfresh |- *.
  destruct (download_file_cases env d fs)
    as [e0 fs0 t0 Hmk He0|fs0 t0 Hmk Hn|fs0 t0 r Hmk Hn Hc|fs0 t0 r s Hmk Hn Hc Hi
       |fs0 t0 r s n e Hmk Hn Hc Hi Ho|fs0 t0 r s n Hmk Hn Hc Hi Hnr Hb|fs0 t0 r s n res tc Hmk Hn Hc Hi Hnr Hb Hch];
    destruct (mkdir_parents_quiet _ _ _ _ _ Hmk) as (Hw & Hr & Hd & Hpr & _);
    unfold trace_of in Hfresh; cbn [snd] in Hfresh;
    (destruct Hfresh as [?|Hfresh]; [done|]);
    try (apply in_app_or in Hfresh as [Hfresh|Hfresh]);
    try (apply in_digests in Hfresh; rewrite Hd in Hfresh; done);
    try (cbn in Hfresh; intuition congruence).
  assert (Hfa : file_at (<[raw_file_path d:=File (concat (chunks r))]> fs0)
                  (raw_file_path d) = Some (concat (chunks r)))
    by (by apply file_at_stat, stat_insert_eq).
  destruct (decide (sha256_hexdigest (concat (chunks r)) = hash d)) as [Hh'|Hh'].
  { rewrite (check_hash_match _ _ _ _ Hfa Hh') in Hch. simplify_eq.
    cbn in Hfresh. intuition congruence. }
  rewrite (check_hash_mismatch _ _ _ _ _ Hfa Hh' Hg) in Hch. simplify_eq.
  assert (h = sha256_hexdigest (concat (chunks r))) as ->.
  { cbn in Hfresh. intuition congruence. }
  exists fs0, t0, r. split_and!; done.
Qed.

(** A download that goes through ends in [check_hash] on the bytes served. *)
Lemma served_run (env : Env) (d : Dataset) (fs : FS) (r : response) :
  served env d fs r ->
  exists fs0 t0 res tc,
    mkdir_parents (parent (raw_file_path d)) fs = (Ok tt, fs0, t0) /\
    raw_file_path d <> [] /\
    check_hash env d (<[raw_file_path d := File (concat (chunks r))]> fs0) =
      (res, <[raw_file_path d := File (concat (chunks r))]> fs0, tc) /\
    download_file env d fs =
      (res, <[raw_file_path d := File (concat (chunks r))]> fs0,
       t0 ++ [EGet (url d); EWrite (raw_file_path d)] ++ tc).
Proof.
  intros (Hnet & Hbr & [n Hlen] & Hmkr & Hopen).
  destruct (download_file_cases env d fs)
    as [e0 fs0 t0 Hmk He0|fs0 t0 Hmk Hn|fs0 t0 r' Hmk Hn Hc|fs0 t0 r' s Hmk Hn Hc Hi
       |fs0 t0 r' s n' e Hmk Hn Hc Hi Ho|fs0 t0 r' s n' Hmk Hn Hc Hi Hnr Hb
       |fs0 t0 r' s n' res tc Hmk Hn Hc Hi Hnr Hb Hch];
    rewrite Hmk in Hmkr, Hopen; cbn in Hmkr, Hopen; try done;
    rewrite Hnet in Hn; simplify_eq.
  - by rewrite Hc in Hlen.
  - rewrite Hc in Hlen. cbn in Hlen. congruence.
  - by rewrite Ho in Hopen.
  - congruence.
  - by exists fs0, t0, res, tc.
Qed.

(** C2 (amended). In the main loop (the global [dataset] is the record
    itself), when the raw file is absent, the download goes through and the
    digest of the bytes served differs from the expected one, [process]
    ends in [SystemExit 1]: the exit status is 1; two lines are printed,
    the announcement of the download, which names the dataset, and the
    diagnostic, which names the URL and is the last thing the call does;
    one digest is computed; the clean file is neither written nor changed
    and the routine does not run. The bytes served stay at the raw path;
    every other file is as before. *)
Theorem corrupted_download_exits_1
    (env : Env) (d : Dataset) (fs : FS) (r : response) :
  dataset env = Some d ->
  raw_file_path d <> clean_file_path d ->
  present fs (raw_file_path d) = false ->
  served env d fs r ->
  sha256_hexdigest (concat (chunks r)) <> hash d ->
  let x := process env d fs in
  result_of x = Raise (SystemExit 1) /\ exit_status (result_of x) = 1%Z /\
  printed (trace_of x) = [missing_message d; hash_message d] /\
  last (trace_of x) = Some (EPrint (hash_message d)) /\
  (exists a z, missing_message d = a +:+ name d +:+ z) /\
  (exists a z, hash_message d = a +:+ url d +:+ z) /\
  digests (trace_of x) = [(raw_file_path d, sha256_hexdigest (concat (chunks r)))] /\
  ~ In (clean_file_path d) (written (trace_of x)) /\
  file_at (fs_of x) (clean_file_path d) = file_at fs (clean_file_path d) /\
  file_at (fs_of x) (raw_file_path d) = Some (concat (chunks r)) /\
  (forall p, p <> raw_file_path d -> file_at (fs_of x) p = file_at fs p).
Proof.
  intros Hg Hne Hp Hs Hh. cbn zeta.
  destruct (served_run env d fs r Hs) as (fs0 & t0 & res & tc & Hmk & Hnr & Hch & Hrun).
  destruct (mkdir_parents_quiet _ _ _ _ _ Hmk) as (Hw & Hr & Hd & Hpr & Hfile & _).
  assert (Hfa : file_at (<[raw_file_path d:=File (concat (chunks r))]> fs0)
                  (raw_file_path d) = Some (concat (chunks r)))
    by (by apply file_at_stat, stat_insert_eq).
  rewrite (check_hash_mismatch _ _ _ _ _ Hfa Hh Hg) in Hch. simplify_eq.
  rewrite process_run, (verify_downloaded_missing env _ d fs Hg Hp), Hrun.
  unfold result_of, trace_of, fs_of. cbn [fst snd].
  change (EPrint (missing_message d) :: ?t) with ([EPrint (missing_message d)] ++ t).
  split; [done|]. split; [done|]. split.
  { unfold printed in *. by rewrite !omap_app_events, Hpr. }
  split.
  { change [ERead (raw_file_path d);
            EDigest (raw_file_path d) (sha256_hexdigest (concat (chunks r)));
            EPrint (hash_message d)]
      with ([ERead (raw_file_path d);
             EDigest (raw_file_path d) (sha256_hexdigest (concat (chunks r)))] ++
            [EPrint (hash_message d)]).
    by rewrite !app_assoc, last_snoc. }
  split. { by exists "Source file for ", " is missing, downloading it". }
  split. { unfold hash_message. eexists "The file hosted as ", _. done. }
  split. { unfold digests in *. by rewrite !omap_app_events, Hd. }
  split.
  { unfold written in *. rewrite !omap_app_events, Hw. cbn. intros [E|[]]. done. }
  split. { unfold file_at. rewrite stat_insert_ne by done. apply Hfile. }
  split; [done|].
  intros p Hpne. unfold file_at. rewrite stat_insert_ne by done. apply Hfile.
Qed.

Lemma process_present (env : Env) (d : Dataset) (fs : FS) :
  dataset env = Some d -> present fs (raw_file_path d) = true ->
  process env d fs = processing_function d (raw_file_path d) (clean_file_path d) fs.
Proof.
  intros Hg Hp. rewrite process_run, (verify_downloaded_present env _ d fs Hg Hp).
  by destruct (processing_function d _ _ fs) as [[r2 fs2] t2].
Qed.

Lemma second_run (env : Env) (d : Dataset) (compute : bytes -> option (string * bytes))
    (fs fs1 : FS) (tr1 : list event) :
  dataset env = Some d ->
  processing_function d = file_routine compute ->
  raw_file_path d <> clean_file_path d ->
  process env d fs = (Ok tt, fs1, tr1) ->
  exists c line out,
    file_at fs1 (raw_file_path d) = Some c /\ compute c = Some (line, out) /\
    file_at fs1 (clean_file_path d) = Some out /\
    process env d fs1 =
      (Ok tt, fs1, [ERead (raw_file_path d); EPrint line; EWrite (clean_file_path d)]).
Proof.
  intros Hg Hf Hne Hrun. rewrite process_run in Hrun.
  destruct (verify_downloaded env d fs) as [[rv fsv] tv] eqn:Ev.
  destruct rv as [[]|e]; [|done]. rewrite Hf in Hrun.
  pose proof (file_routine_cases compute (raw_file_path d) (clean_file_path d) fsv) as Hc.
  destruct (file_routine compute (raw_file_path d) (clean_file_path d) fsv)
    as [[r2 fs2] t2] eqn:Er.
  simplify_eq.
  inversion Hc as [| | |c line out Hraw Hcomp Hdir Hpar]; subst.
  apply is_dir_false_nonroot in Hdir as Hnr.
  assert (Hraw1 : file_at (<[clean_file_path d:=File out]> fsv) (raw_file_path d) = Some c).
  { unfold file_at. rewrite stat_insert_ne by done. by apply file_at_stat in Hraw as ->. }
  assert (Hclean1 : file_at (<[clean_file_path d:=File out]> fsv) (clean_file_path d) = Some out).
  { by apply file_at_stat, stat_insert_eq. }
  exists c, line, out. split; [done|]. split; [done|]. split; [done|].
  rewrite process_present; [|done|by eapply file_at_present]. rewrite Hf.
  destruct (file_routine_cases compute (raw_file_path d) (clean_file_path d)
              (<[clean_file_path d:=File out]> fsv))
    as [e H1|c' H1 H2|c' l' o' e H1 H2 H3|c' l' o' H1 H2 H3 H4];
    [congruence|congruence| |].
  - exfalso. rewrite Hraw1 in H1. simplify_eq.
    unfold open_wb in H3. unfold is_dir in H3 at 1.
    apply file_at_stat in Hclean1. rewrite Hclean1 in H3.
    rewrite stat_insert_ne in H3 by (apply not_eq_sym, parent_neq; done).
    by rewrite Hpar in H3.
  - rewrite Hraw1 in H1. simplify_eq.
    by rewrite insert_insert_eq.
Qed.

(** C3. In the main loop, whenever the raw file is present [process] makes
    no network request and is the transformation routine alone. So once a
    call of [process] has succeeded, a second call on the file system it
    left requests nothing and runs the transformation again: it reads the
    raw file, prints the size line and writes the clean file anew, leaving
    the file system as it was. *)
Theorem second_process_no_request_reruns
    (env : Env) (d : Dataset) (compute : bytes -> option (string * bytes)) :
  dataset env = Some d ->
  processing_function d = file_routine compute ->
  raw_file_path d <> clean_file_path d ->
  (forall fs, present fs (raw_file_path d) = true ->
     process env d fs = file_routine compute (raw_file_path d) (clean_file_path d) fs /\
     requests (trace_of (process env d fs)) = []) /\
  (forall fs fs1 tr1, process env d fs = (Ok tt, fs1, tr1) ->
     exists c line out,
       file_at fs1 (raw_file_path d) = Some c /\ compute c = Some (line, out) /\
       file_at fs1 (clean_file_path d) = Some out /\
       process env d fs1 =
         (Ok tt, fs1, [ERead (raw_file_path d); EPrint line; EWrite (clean_file_path d)]) /\
       requests (trace_of (process env d fs1)) = []).
Proof.
  intros Hg Hf Hne. split.
  - intros fs Hp. rewrite (process_present env d fs Hg Hp), Hf. split; [done|].
    apply (file_routine_frame compute (raw_file_path d) (clean_file_path d) fs).
  - intros fs fs1 tr1 Hrun.
    destruct (second_run env d compute fs fs1 tr1 Hg Hf Hne Hrun)
      as (c & line & out & H1 & H2 & H3 & H4).
    exists c, line, out. split_and!; try done. by rewrite H4.
Qed.

(** C4. In the main loop, a raw file that is present is left as it is by
    [process], whatever its bytes (empty, stale or with another digest): no
    request is made, no digest is computed and the file is not opened for
    writing. Presence alone decides. *)
Theorem present_raw_never_overwritten
    (env : Env) (d : Dataset) (compute : bytes -> option (string * bytes))
    (fs : FS) (c : bytes) :
  dataset env = Some d ->
  processing_function d = file_routine compute ->
  raw_file_path d <> clean_file_path d ->
  file_at fs (raw_file_path d) = Some c ->
  let x := process env d fs in
  file_at (fs_of x) (raw_file_path d) = Some c /\
  requests (trace_of x) = [] /\
  digests (trace_of x) = [] /\
  ~ In (raw_file_path d) (written (trace_of x)).
Proof.
  intros Hg Hf Hne Hraw. cbn zeta.
  rewrite process_present; [|done|by eapply file_at_present]. rewrite Hf.
  pose proof (file_routine_frame compute (raw_file_path d) (clean_file_path d) fs)
    as (Hfile & Hw & Hr & Hd). cbn zeta in *.
  split; [|split; [done|split; [done|]]].
  - rewrite Hfile; done.
  - intros Hin. apply Hw in Hin. done.
Qed.

(** C5. On a readable raw file, [check_hash] computes a 64-digit (256-bit)
    hexadecimal digest and returns normally exactly when that digest is
    the expected string: it accepts the file's own digest, and any other
    expected value makes it raise ([SystemExit 1] once the global
    [dataset] is bound). The specification's [matches] is that test. *)
Theorem check_hash_reflexive_and_complete
    (env : Env) (d : Dataset) (fs : FS) (c : bytes) :
  file_at fs (raw_file_path d) = Some c ->
  digest_of fs (raw_file_path d) = Some (sha256_hexdigest c) /\
  String.length (sha256_hexdigest c) = 64%nat /\
  matches fs (raw_file_path d) (sha256_hexdigest c) = Some true /\
  (forall expected, expected <> sha256_hexdigest c ->
     matches fs (raw_file_path d) expected = Some false) /\
  (matches fs (raw_file_path d) (hash d) = Some true ->
     result_of (check_hash env d fs) = Ok tt) /\
  (matches fs (raw_file_path d) (hash d) = Some false ->
     (exists e, result_of (check_hash env d fs) = Raise e) /\
     (dataset env <> None -> result_of (check_hash env d fs) = Raise (SystemExit 1))).
Proof.
  intros Hf. unfold matches, digest_of. rewrite Hf. cbn.
  split; [done|]. split; [apply hexdigest_length|].
  split; [by rewrite bool_decide_eq_true_2|].
  split. { intros e He. by rewrite bool_decide_eq_false_2. }
  split.
  - intros [= Hm]. apply bool_decide_eq_true_1 in Hm.
    by rewrite (check_hash_match _ _ _ _ Hf Hm).
  - intros [= Hm]. apply bool_decide_eq_false_1 in Hm.
    destruct (dataset env) as [g|] eqn:Eg.
    + rewrite (check_hash_mismatch _ _ _ _ _ Hf Hm Eg). eauto.
    + rewrite (check_hash_mismatch_unbound _ _ _ _ Hf Hm Eg). split; [eauto|done].
Qed.

(** C9. When the download is due and the response carries no
    [Content-Length] header, [process] raises before the raw file is opened:
    the exit status is 1, nothing is written, no digest is computed, the
    routine is not run (only the "missing" line is printed) and the raw path
    is exactly as before, so it is still absent on the next run. *)
Theorem missing_content_length_aborts
    (env : Env) (g d : Dataset) (fs : FS) (r : response) :
  dataset env = Some g ->
  present fs (raw_file_path g) = false ->
  net env (url d) = Responds r ->
  content_length r = None ->
  let x := process env d fs in
  (result_of x = Raise TypeError \/ exists e, result_of x = Raise e /\ mkdir_error e) /\
  exit_status (result_of x) = 1%Z /\
  written (trace_of x) = [] /\
  digests (trace_of x) = [] /\
  printed (trace_of x) = [missing_message g] /\
  fs_of x !! raw_file_path d = fs !! raw_file_path d /\
  (forall p, file_at (fs_of x) p = file_at fs p).
Proof.
  intros Hg Hp Hn Hc. cbn zeta.
  rewrite process_run, (verify_downloaded_missing env _ d fs Hg Hp).
  destruct (download_file_cases env d fs)
    as [e0 fs0 t0 Hmk He0|fs0 t0 Hmk Hn'|fs0 t0 r' Hmk Hn' Hc'|fs0 t0 r' s Hmk Hn' Hc' Hi
       |fs0 t0 r' s n e Hmk Hn' Hc' Hi Ho|fs0 t0 r' s n Hmk Hn' Hc' Hi Hnr Hb|fs0 t0 r' s n res tc Hmk Hn' Hc' Hi Hnr Hb Hch];
    destruct (mkdir_parents_quiet _ _ _ _ _ Hmk) as (Hw & Hr & Hd & Hpr & Hfile & Hlook);
    try congruence.
  1: destruct He0 as (q & [-> | ->]).
  1-3: unfold result_of, trace_of, fs_of; cbn [fst snd];
       unfold written, digests, printed in *;
       change (EPrint (missing_message g) :: ?t)
         with ([EPrint (missing_message g)] ++ t);
       rewrite ?omap_app_events, ?Hw, ?Hd, ?Hpr;
       (split; [unfold mkdir_error; eauto 6|]); repeat (split; [done|]); split; [|done];
       apply Hlook; destruct (raw_file_path d) eqn:E; [by right|left];
       rewrite <- E; apply parent_shorter; congruence.
  all: exfalso; rewrite Hn in Hn'; simplify_eq; congruence.
Qed.

(** C10. Which record decides. With the global [dataset] bound to [g],
    [process] on [d] downloads exactly when the raw file of [g] is absent,
    whatever the state of [d]'s own raw file. When the raw file of [g] is
    present the call is the routine alone and makes no request. When it is
    absent the call first announces the download under the name of [g];
    if the download goes through, it makes the one request to the URL of
    [d], opens the raw path of [d] for writing and computes one digest,
    over the bytes served; and if that digest differs from the expected
    one the call ends in [SystemExit 1] with the bytes served at the raw
    path of [d], the diagnostic printed last naming the URL of [g]. In
    the main loop [g] is [d] itself. *)
Theorem skip_decision_reads_global
    (env : Env) (g d : Dataset) (compute : bytes -> option (string * bytes)) (fs : FS) :
  dataset env = Some g ->
  processing_function d = file_routine compute ->
  let x := process env d fs in
  (head (trace_of x) = Some (EPrint (missing_message g)) <->
     present fs (raw_file_path g) = false) /\
  (present fs (raw_file_path g) = true ->
     x = file_routine compute (raw_file_path d) (clean_file_path d) fs /\
     requests (trace_of x) = []) /\
  (present fs (raw_file_path g) = false ->
     forall r, served env d fs r ->
       requests (trace_of x) = [url d] /\
       In (raw_file_path d) (written (trace_of x)) /\
       digests (trace_of x) =
         [(raw_file_path d, sha256_hexdigest (concat (chunks r)))] /\
       (sha256_hexdigest (concat (chunks r)) <> hash d ->
          result_of x = Raise (SystemExit 1) /\
          last (trace_of x) = Some (EPrint (hash_message g)) /\
          (exists a z, hash_message g = a +:+ url g +:+ z) /\
          file_at (fs_of x) (raw_file_path d) = Some (concat (chunks r)))).
Proof.
  intros Hg Hf. cbn zeta.
  assert (Hpres : present fs (raw_file_path g) = true ->
            process env d fs = file_routine compute (raw_file_path d) (clean_file_path d) fs).
  { intros Hp. rewrite process_run, (verify_downloaded_present env _ d fs Hg Hp), Hf.
    by destruct (file_routine compute _ _ fs) as [[r2 fs2] t2]. }
  split; [|split].
  - split.
    + intros Hh. destruct (present fs (raw_file_path g)) eqn:Hp; [|done].
      rewrite (Hpres eq_refl) in Hh.
      by destruct (file_routine_cases compute (raw_file_path d) (clean_file_path d) fs).
    + intros Hp. rewrite process_run, (verify_downloaded_missing env _ d fs Hg Hp).
      destruct (download_file env d fs) as [[r fs'] t]. destruct r as [[]|e]; [|done].
      by destruct (processing_function d _ _ fs') as [[r2 fs2] t2].
  - intros Hp. rewrite (Hpres Hp). split; [done|].
    apply (file_routine_frame compute (raw_file_path d) (clean_file_path d) fs).
  - clear Hpres. intros Hp r Hs.
    destruct (served_run env d fs r Hs) as (fs0 & t0 & res & tc & Hmk & Hnr & Hch & Hrun).
    destruct (mkdir_parents_quiet _ _ _ _ _ Hmk) as (Hw & Hr & Hd & Hpr & Hfile & _).
    assert (Hfa : file_at (<[raw_file_path d:=File (concat (chunks r))]> fs0)
                    (raw_file_path d) = Some (concat (chunks r)))
      by (by apply file_at_stat, stat_insert_eq).
    rewrite process_run, (verify_downloaded_missing env _ d fs Hg Hp), Hrun, Hf.
    destruct (decide (sha256_hexdigest (concat (chunks r)) = hash d)) as [Hh|Hh].
    + rewrite (check_hash_match _ _ _ _ Hfa Hh) in Hch. simplify_eq.
      destruct (file_routine_frame compute (raw_file_path d) (clean_file_path d)
                  (<[raw_file_path d:=File (concat (chunks r))]> fs0)) as (_ & _ & Hr2 & Hd2).
      destruct (file_routine compute (raw_file_path d) (clean_file_path d)
                  (<[raw_file_path d:=File (concat (chunks r))]> fs0))
        as [[r2 fs2] t2]. cbn in Hr2, Hd2.
      cbv beta iota zeta. unfold result_of, trace_of, fs_of. cbn [fst snd].
      change (EPrint (missing_message g) :: ?t) with ([EPrint (missing_message g)] ++ t).
      unfold requests, written, digests in *.
      rewrite !omap_app_events, Hw, Hr, Hd, Hr2, Hd2, Hh. cbn.
      split; [done|]. split; [by left|]. split; [done|]. done.
    + rewrite (check_hash_mismatch _ _ _ _ _ Hfa Hh Hg) in Hch. simplify_eq.
      unfold result_of, trace_of, fs_of. cbn [fst snd].
      change (EPrint (missing_message g) :: ?t) with ([EPrint (missing_message g)] ++ t).
      unfold requests, written, digests in *.
      rewrite !omap_app_events, Hw, Hr, Hd. cbn.
      split; [done|]. split; [by left|]. split; [done|]. intros _.
      split; [done|]. split.
      { change (last ((EPrint (missing_message g) :: t0 ++
                  [EGet (url d); EWrite (raw_file_path d); ERead (raw_file_path d);
                   EDigest (raw_file_path d) (sha256_hexdigest (concat (chunks r)))] ++
                  [EPrint (hash_message g)])) = Some (EPrint (hash_message g))).
        by rewrite app_comm_cons, app_assoc, last_snoc. }
      split; [|done]. unfold hash_message. eexists "The file hosted as ", _. done.
Qed.

(** * The claims about the clean table *)

Lemma clean_table_delivers (r : routine) (x : raw_table) (out : frame) :
  clean_table r x = Some out ->
  delivers (records_read r x) out (no_feature_named_y r x).
Proof.
  destruct r, x as [g|a]; cbn [clean_table]; try done; intros H.
  - by apply abalone_table_spec.
  - by apply absenteeism_table_spec.
  - by apply bank_table_spec.
  - by apply banknote_table_spec.
  - by apply defaultcc_table_spec.
  - by apply diabetes_table_spec.
  - by apply epileptic_table_spec.
  - by apply happiness_table_spec.
  - by apply seismic_table_spec.
  - destruct (wbc_table_spec g out H) as (H1 & H2 & feats & y & H3 & H4 & _).
    split; [done|]. split; [done|]. eauto.
Qed.

(** No routine drops a row of the frame its reader returns. *)
Lemma rows_kept (r : routine) (x : raw_table) (out : frame) :
  clean_table r x = Some out -> nrows out = records_read r x.
Proof. intros H. by destruct (clean_table_delivers r x out H) as (_ & ? & _). Qed.

(** [process_abalone] and [process_wbc] read with [header=None] and keep
    every record of the file. *)
Lemma abalone_keeps_all_records (g : grid) (out : frame) :
  abalone_table g = Some out -> nrows out = length g.
Proof. intros H. by destruct (abalone_table_spec g out H) as (_ & ? & _). Qed.

(** [process_banknote] reads with the default header: the table it writes
    is always one row short of the records in the file. *)
Lemma banknote_one_row_short (g : grid) (out : frame) :
  banknote_table g = Some out -> S (nrows out) = length g.
Proof.
  intros H. destruct (banknote_table_spec g out H) as (_ & -> & _).
  unfold banknote_table in H. apply bind_Some in H as (df & Hread & _).
  destruct g; [done|]. cbn. lia.
Qed.

(** The label of [process_banknote] is the equality test on the class
    column of the frame that was read. *)
Lemma banknote_label_of_parsed (g : grid) (out : frame) :
  banknote_table g = Some out ->
  exists df class_column feats,
    (df0 ← read_csv g;
     set_columns df0 ["variance"; "skewness"; "curtosis"; "entropy"; "class"]) = Some df /\
    getitem df (LStr "class") = Some class_column /\
    label_last out feats (eq_number class_column 1) /\
    Forall scaled_feature feats.
Proof.
  unfold banknote_table. intros H.
  step_bind H df0 Hread. step_bind H df Hset. step_bind H lab Hlab. step_bind H X Hdrop.
  pose proof (read_csv_rows g df0 Hread) as Hwf0.
  destruct (set_columns_rows _ _ _ _ Hwf0 Hset) as (Hwf & Hcols).
  destruct (drop_columns_rows _ _ _ _ Hwf Hdrop) as (HwfX & HcolsX).
  destruct (assemble_spec (length g - 1) (get_dummies X) (columns (get_dummies X))
              (eq_number lab 1) out) as (_ & _ & H3); [by apply get_dummies_rows| |done|].
  { rewrite eq_number_length. exact (getitem_rows _ _ _ _ Hwf Hlab). }
  destruct H3 as (feats & Hl & _ & Hs).
  { apply dummies_not_y. intros Hin. apply HcolsX in Hin as [Hin _].
    rewrite Hcols in Hin. not_listed Hin. }
  exists df, lab, feats. rewrite Hread. cbn. by rewrite Hset.
Qed.

Lemma eq_number_one (xs : list (option Q)) (i : nat) :
  match eq_number (NumCol xs) 1 with
  | NumCol ys =>
      ys !! i = Some (Some 1%Q) <-> exists q, xs !! i = Some (Some q) /\ (q == 1)%Q
  | ObjCol _ _ => False
  end.
Proof.
  cbn. rewrite list_lookup_fmap. destruct (xs !! i) as [[q|]|]; cbn.
  - destruct (Qeq_bool q 1) eqn:E; cbn; split.
    + intros _. exists q. split; [done|]. by apply Qeq_bool_eq.
    + done.
    + intros [=].
    + intros (q' & [= <-] & Hq). apply Qeq_bool_neq in E. done.
  - split; [intros [=]|]. by intros (q & [=] & _).
  - split; [intros [=]|]. by intros (q & [=] & _).
Qed.




(** [process_wbc] on three records, one with [?] for the bare nuclei: the
    missing number counts as 0 and all three rows are written. *)
Lemma wbc_imputes_missing :
  exists out, clean_table Wbc (Records wbc_head) = Some out /\ nrows out = 3%nat /\
    getitem out (LStr "bare_nuclei") = Some (NumCol [Some (1 # 10); Some 1%Q; Some 0%Q]).
Proof. eexists. split; [vm_compute; reflexivity|]. split; vm_compute; reflexivity. Qed.

(** C7 at the failing input. The banknote file has no header line;
    [process_banknote] reads it with the default [header], which takes the
    first record for the column names: of four records, three rows are
    written. *)
Theorem banknote_loses_first_record :
  length banknote_head = 4%nat /\
  clean_table Banknote (Records banknote_head) = Some banknote_head_clean /\
  nrows banknote_head_clean = 3%nat.
Proof. split; [reflexivity|]. split; [vm_compute; reflexivity|reflexivity]. Qed.

(** C8 at the failing input. The first record is a genuine note (class
    1); it is taken for the header, so the clean table has two rows, both
    with [y = 0], and no row with [y = 1]. *)
Theorem banknote_first_label_lost :
  raw_class banknote_genuine_first = [Some 1%Q; Some 0%Q; Some 0%Q] /\
  clean_table Banknote (Records banknote_genuine_first) =
    Some banknote_genuine_first_clean /\
  getitem banknote_genuine_first_clean (LStr "y") = Some (NumCol [Some 0%Q; Some 0%Q]).
Proof.
  split; [vm_compute; reflexivity|]. split; [vm_compute; reflexivity|reflexivity].
Qed.

(** * The life cycle on the example data *)

Ltac by_computation := apply (bool_decide_unpack _); vm_compute; exact I.

Lemma run_succeeded {A} (x : outcome A * FS * list event) (a : A) :
  result_of x = Ok a -> x = (Ok a, fs_of x, trace_of x).
Proof. destruct x as [[r fs] t]. cbn. by intros ->. Qed.

Lemma clean_written_after_digest_when_downloaded_witness :
  let env := in_main_loop good_response pinned_record in
  dataset env = Some pinned_record /\
  raw_file_path pinned_record <> clean_file_path pinned_record /\
  (present ∅ (raw_file_path pinned_record) = false ->
     digest_confirmed_before_write pinned_record (trace_of (process env pinned_record ∅))) /\
  (present ∅ (raw_file_path pinned_record) = true ->
     verify_downloaded env pinned_record ∅ = (Ok tt, ∅, []) /\
     process env pinned_record ∅ =
       processing_function pinned_record (raw_file_path pinned_record)
         (clean_file_path pinned_record) ∅).
Proof.
  cbn zeta. split; [reflexivity|]. split; [by_computation|].
  apply (clean_written_after_digest_when_downloaded
           (in_main_loop good_response pinned_record) pinned_record pinned_record ∅);
    [reflexivity|by_computation].
Defined.

(** C1 as stated fails when the raw file is already on disk: the four
    records of [stale_bytes] do not have the pinned digest, yet [process]
    succeeds, computes no digest and writes the clean file. *)
Lemma stale_raw_transformed_unverified :
  let x := process (in_main_loop good_response banknote_record) banknote_record
             disk_with_raw in
  file_at disk_with_raw (raw_file_path banknote_record) = Some stale_bytes /\
  sha256_hexdigest stale_bytes <> hash banknote_record /\
  result_of x = Ok tt /\
  trace_of x = [ERead (raw_file_path banknote_record);
                EPrint "Processed dataset to 2 rows, 5 columns";
                EWrite (clean_file_path banknote_record)] /\
  ~ digest_confirmed_before_write banknote_record (trace_of x).
Proof.
  cbn zeta.
  assert (Ht : trace_of (process (in_main_loop good_response banknote_record)
                  banknote_record disk_with_raw) =
               [ERead (raw_file_path banknote_record);
                EPrint "Processed dataset to 2 rows, 5 columns";
                EWrite (clean_file_path banknote_record)])
    by (vm_compute; reflexivity).
  split; [vm_compute; reflexivity|]. split; [by_computation|].
  split; [vm_compute; reflexivity|]. split; [exact Ht|].
  rewrite Ht. intros H.
  specialize (H [ERead (raw_file_path banknote_record);
                 EPrint "Processed dataset to 2 rows, 5 columns"] [] eq_refl).
  destruct H as [H|[H|[]]]; discriminate H.
Qed.

Ltac served_by_computation :=
  unfold served; split_and!;
    [reflexivity|reflexivity|eexists; vm_compute; reflexivity
    |vm_compute; reflexivity|vm_compute; reflexivity].

Lemma corrupted_download_exits_1_witness :
  let env := in_main_loop good_response banknote_record in
  let d := banknote_record in
  let x := process env d ∅ in
  dataset env = Some d /\
  raw_file_path d <> clean_file_path d /\
  present ∅ (raw_file_path d) = false /\
  served env d ∅ good_response /\
  sha256_hexdigest (concat (chunks good_response)) <> hash d /\
  result_of x = Raise (SystemExit 1) /\ exit_status (result_of x) = 1%Z /\
  printed (trace_of x) = [missing_message d; hash_message d] /\
  last (trace_of x) = Some (EPrint (hash_message d)) /\
  (exists a z, missing_message d = a +:+ name d +:+ z) /\
  (exists a z, hash_message d = a +:+ url d +:+ z) /\
  digests (trace_of x) =
    [(raw_file_path d, sha256_hexdigest (concat (chunks good_response)))] /\
  ~ In (clean_file_path d) (written (trace_of x)) /\
  file_at (fs_of x) (clean_file_path d) = file_at ∅ (clean_file_path d) /\
  file_at (fs_of x) (raw_file_path d) = Some (concat (chunks good_response)) /\
  (forall p, p <> raw_file_path d -> file_at (fs_of x) p = file_at ∅ p).
Proof.
  cbn zeta. split; [reflexivity|]. split; [by_computation|]. split; [reflexivity|].
  split; [served_by_computation|]. split; [by_computation|].
  apply (corrupted_download_exits_1 (in_main_loop good_response banknote_record)
           banknote_record ∅ good_response);
    [reflexivity|by_computation|reflexivity|served_by_computation|by_computation].
Defined.

(** C2 as stated fails on a corrupted download of the epileptic record:
    the call exits with status 1, but the diagnostic, which is that of
    [check_hash], does not hold the name of the dataset, and the state is
    not unchanged: the raw path, absent before, now holds the bytes that
    failed the check. *)
Lemma corrupted_download_changes_state :
  let env := in_main_loop good_response epileptic_record in
  let d := epileptic_record in
  let x := process env d ∅ in
  served env d ∅ good_response /\
  sha256_hexdigest (concat (chunks good_response)) <> hash d /\
  result_of x = Raise (SystemExit 1) /\
  last (trace_of x) = Some (EPrint (hash_message d)) /\
  name d = "epileptic"%string /\
  String.index 0 (name d) (hash_message d) = None /\
  file_at ∅ (raw_file_path d) = None /\
  file_at (fs_of x) (raw_file_path d) = Some banknote_bytes.
Proof.
  cbn zeta. split; [served_by_computation|]. split; [by_computation|].
  split_and!; vm_compute; reflexivity.
Qed.

(** After that exit the downloaded bytes stay at the raw path, so the next
    run finds the file present and transforms it with no digest computed. *)
Lemma corrupted_raw_stays_on_disk :
  let env := in_main_loop good_response banknote_record in
  let x := process env banknote_record ∅ in
  let x' := process env banknote_record (fs_of x) in
  file_at (fs_of x) (raw_file_path banknote_record) = Some banknote_bytes /\
  result_of x' = Ok tt /\ digests (trace_of x') = [] /\ requests (trace_of x') = [] /\
  In (EWrite (clean_file_path banknote_record)) (trace_of x').
Proof.
  cbn zeta. split_and!; try (vm_compute; reflexivity). vm_compute. tauto.
Qed.

Lemma second_process_no_request_reruns_witness :
  let env := in_main_loop good_response pinned_record in
  let d := pinned_record in
  let x := process env d ∅ in
  dataset env = Some d /\
  processing_function d = file_routine banknote_compute /\
  raw_file_path d <> clean_file_path d /\
  x = (Ok tt, fs_of x, trace_of x) /\
  present (fs_of x) (raw_file_path d) = true /\
  (forall fs, present fs (raw_file_path d) = true ->
     process env d fs =
       file_routine banknote_compute (raw_file_path d) (clean_file_path d) fs /\
     requests (trace_of (process env d fs)) = []) /\
  (forall fs fs1 tr1, process env d fs = (Ok tt, fs1, tr1) ->
     exists c line out,
       file_at fs1 (raw_file_path d) = Some c /\
       banknote_compute c = Some (line, out) /\
       file_at fs1 (clean_file_path d) = Some out /\
       process env d fs1 =
         (Ok tt, fs1, [ERead (raw_file_path d); EPrint line; EWrite (clean_file_path d)]) /\
       requests (trace_of (process env d fs1)) = []).
Proof.
  cbn zeta. split; [reflexivity|]. split; [reflexivity|]. split; [by_computation|].
  split; [apply run_succeeded; vm_compute; reflexivity|].
  split; [vm_compute; reflexivity|].
  apply (second_process_no_request_reruns (in_main_loop good_response pinned_record)
           pinned_record banknote_compute);
    [reflexivity|reflexivity|by_computation].
Defined.

(** The two runs on the example: the first downloads and verifies, the
    second only transforms. *)
Lemma two_runs_on_empty_disk :
  let env := in_main_loop good_response pinned_record in
  let x := process env pinned_record ∅ in
  let x' := process env pinned_record (fs_of x) in
  requests (trace_of x) = [url pinned_record] /\
  digests (trace_of x) = [(raw_file_path pinned_record, hash pinned_record)] /\
  result_of x' = Ok tt /\
  trace_of x' = [ERead (raw_file_path pinned_record);
                 EPrint "Processed dataset to 3 rows, 5 columns";
                 EWrite (clean_file_path pinned_record)] /\
  file_at (fs_of x') (clean_file_path pinned_record) =
    file_at (fs_of x) (clean_file_path pinned_record).
Proof. cbn zeta. split_and!; vm_compute; reflexivity. Qed.

Lemma present_raw_never_overwritten_witness :
  let env := in_main_loop good_response banknote_record in
  let x := process env banknote_record disk_with_raw in
  dataset env = Some banknote_record /\
  processing_function banknote_record = file_routine banknote_compute /\
  raw_file_path banknote_record <> clean_file_path banknote_record /\
  file_at disk_with_raw (raw_file_path banknote_record) = Some stale_bytes /\
  file_at (fs_of x) (raw_file_path banknote_record) = Some stale_bytes /\
  requests (trace_of x) = [] /\
  digests (trace_of x) = [] /\
  ~ In (raw_file_path banknote_record) (written (trace_of x)).
Proof.
  cbn zeta. split; [reflexivity|]. split; [reflexivity|]. split; [by_computation|].
  split; [vm_compute; reflexivity|].
  apply (present_raw_never_overwritten (in_main_loop good_response banknote_record)
           banknote_record banknote_compute disk_with_raw stale_bytes);
    [reflexivity|reflexivity|by_computation|vm_compute; reflexivity].
Defined.

Lemma check_hash_reflexive_and_complete_witness :
  let env := in_main_loop good_response banknote_record in
  let d := banknote_record in
  file_at disk_with_raw (raw_file_path d) = Some stale_bytes /\
  digest_of disk_with_raw (raw_file_path d) = Some (sha256_hexdigest stale_bytes) /\
  String.length (sha256_hexdigest stale_bytes) = 64%nat /\
  matches disk_with_raw (raw_file_path d) (sha256_hexdigest stale_bytes) = Some true /\
  (forall expected, expected <> sha256_hexdigest stale_bytes ->
     matches disk_with_raw (raw_file_path d) expected = Some false) /\
  (matches disk_with_raw (raw_file_path d) (hash d) = Some true ->
     result_of (check_hash env d disk_with_raw) = Ok tt) /\
  (matches disk_with_raw (raw_file_path d) (hash d) = Some false ->
     (exists e, result_of (check_hash env d disk_with_raw) = Raise e) /\
     (dataset env <> None ->
        result_of (check_hash env d disk_with_raw) = Raise (SystemExit 1))).
Proof.
  cbn zeta. split; [vm_compute; reflexivity|].
  apply (check_hash_reflexive_and_complete (in_main_loop good_response banknote_record)
           banknote_record disk_with_raw stale_bytes).
  vm_compute; reflexivity.
Defined.

Lemma missing_content_length_aborts_witness :
  let env := in_main_loop headerless_response banknote_record in
  let x := process env banknote_record ∅ in
  dataset env = Some banknote_record /\
  present ∅ (raw_file_path banknote_record) = false /\
  net env (url banknote_record) = Responds headerless_response /\
  content_length headerless_response = None /\
  (result_of x = Raise TypeError \/ exists e, result_of x = Raise e /\ mkdir_error e) /\
  exit_status (result_of x) = 1%Z /\
  written (trace_of x) = [] /\
  digests (trace_of x) = [] /\
  printed (trace_of x) = [missing_message banknote_record] /\
  fs_of x !! raw_file_path banknote_record = (∅ : FS) !! raw_file_path banknote_record /\
  (forall p, file_at (fs_of x) p = file_at ∅ p).
Proof.
  cbn zeta. split; [reflexivity|]. split; [reflexivity|]. split; [reflexivity|].
  split; [reflexivity|].
  apply (missing_content_length_aborts (in_main_loop headerless_response banknote_record)
           banknote_record banknote_record ∅ headerless_response); reflexivity.
Defined.

Lemma skip_decision_reads_global_witness :
  let env := in_main_loop good_response abalone_record in
  let d := banknote_record in
  let x := process env d disk_with_raw in
  dataset env = Some abalone_record /\
  processing_function d = file_routine banknote_compute /\
  present disk_with_raw (raw_file_path d) = true /\
  present disk_with_raw (raw_file_path abalone_record) = false /\
  served env d disk_with_raw good_response /\
  sha256_hexdigest (concat (chunks good_response)) <> hash d /\
  head (trace_of x) = Some (EPrint (missing_message abalone_record)) /\
  requests (trace_of x) = [url d] /\
  In (raw_file_path d) (written (trace_of x)) /\
  digests (trace_of x) =
    [(raw_file_path d, sha256_hexdigest (concat (chunks good_response)))] /\
  result_of x = Raise (SystemExit 1) /\
  last (trace_of x) = Some (EPrint (hash_message abalone_record)) /\
  (exists a z, hash_message abalone_record = a +:+ url abalone_record +:+ z) /\
  file_at (fs_of x) (raw_file_path d) = Some (concat (chunks good_response)).
Proof.
  cbn zeta.
  assert (Hs : served (in_main_loop good_response abalone_record) banknote_record
                 disk_with_raw good_response) by served_by_computation.
  assert (Hh : sha256_hexdigest (concat (chunks good_response)) <> hash banknote_record)
    by by_computation.
  assert (Hp : present disk_with_raw (raw_file_path abalone_record) = false)
    by reflexivity.
  destruct (skip_decision_reads_global (in_main_loop good_response abalone_record)
              abalone_record banknote_record banknote_compute disk_with_raw
              eq_refl eq_refl) as (Hhead & _ & Habsent).
  destruct (Habsent Hp good_response Hs) as (Hreq & Hwr & Hdig & Hmis).
  destruct (Hmis Hh) as (Hres & Hlast & Hurl & Hraw).
  split; [reflexivity|]. split; [reflexivity|]. split; [vm_compute; reflexivity|].
  split; [exact Hp|]. split; [exact Hs|]. split; [exact Hh|].
  split; [by apply Hhead|]. split_and!; assumption.
Defined.

(** The global record decides, not the receiver. With [dataset] bound to
    the banknote record, whose raw file is on disk, [process] on the
    abalone record makes no request although the abalone raw file is
    absent, and the routine fails to open it. *)
Lemma absent_raw_not_downloaded_under_other_global :
  let x := process (in_main_loop good_response banknote_record) abalone_record
             disk_with_raw in
  present disk_with_raw (raw_file_path abalone_record) = false /\
  requests (trace_of x) = [] /\
  result_of x = Raise (FileNotFoundError (raw_file_path abalone_record)).
Proof. cbn zeta. split; [|split]; vm_compute; reflexivity. Qed.

(** With [dataset] bound to the abalone record, whose raw file is absent,
    [process] on the banknote record downloads and overwrites the raw file
    that was on disk, and the diagnostic names the abalone URL. *)
Lemma present_raw_overwritten_under_other_global :
  let x := process (in_main_loop good_response abalone_record) banknote_record
             disk_with_raw in
  file_at disk_with_raw (raw_file_path banknote_record) = Some stale_bytes /\
  requests (trace_of x) = [url banknote_record] /\
  file_at (fs_of x) (raw_file_path banknote_record) = Some banknote_bytes /\
  result_of x = Raise (SystemExit 1) /\
  printed (trace_of x) = [missing_message abalone_record; hash_message abalone_record].
Proof. cbn zeta. split_and!; vm_compute; reflexivity. Qed.

(** Outside the main loop the variable [dataset] is unbound and [process]
    ends at once with a [NameError]. *)
Lemma process_unbound_global (network : string -> http) (d : Dataset) (fs : FS) :
  process {| net := network; dataset := None |} d fs =
    (Raise (NameError "dataset"), fs, []).
Proof. by rewrite process_run, verify_downloaded_unbound. Qed.

(** The main loop binds [dataset] to the record it processes, and a record
    that fails ends the run. *)
Lemma for_each_dataset_cons (network : string -> http) (d : Dataset) (ds : list Dataset)
    (fs : FS) :
  for_each_dataset network (d :: ds) fs =
  match process {| net := network; dataset := Some d |} d fs with
  | (Ok _, fs1, t1) =>
      let '(r, fs2, t2) := for_each_dataset network ds fs1 in
      (r, fs2, EPrint (gathering_message d) :: t1 ++ t2)
  | (Raise e, fs1, t1) => (Raise e, fs1, EPrint (gathering_message d) :: t1)
  end.
Proof.
  cbn [for_each_dataset]. rewrite bind_run. cbn [print emit]. rewrite bind_run.
  destruct (process _ d fs) as [[[[]|e] fs1] t1]; [|done].
  by destruct (for_each_dataset network ds fs1) as [[r fs2] t2].
Qed.

(** The whole script on an empty disk, with a server that sends the four
    records for every URL: the first record of the catalogue fails its
    integrity check and the exit status is 1. *)
Lemma main_stops_at_first_mismatch :
  let x := main plain_codec (serving good_response) cwd
             (fs_of (mkdir_parents (parent cwd) ∅)) in
  exit_status (result_of x) = 1%Z /\
  requests (trace_of x) = [url abalone_record] /\
  last (trace_of x) = Some (EPrint (hash_message abalone_record)).
Proof. cbn zeta. split_and!; vm_compute; reflexivity. Qed.

(** * Further properties of the life cycle *)

Lemma present_insert (fs : FS) (p q : Path) (n : node) :
  present fs q = true -> present (<[p := n]> fs) q = true.
Proof.
  unfold present. destruct (decide (p = q)) as [->|Hne].
  - destruct q; [done|]. intros _. by rewrite stat_insert_eq.
  - by rewrite stat_insert_ne.
Qed.

Lemma mkdir_from_keeps (todo pre : Path) (fs : FS) :
  nothing_removed fs (fs_of (mkdir_from pre todo fs)).
Proof.
  revert pre fs. induction todo as [|c rest IH]; intros pre fs q Hq; [done|].
  cbn [mkdir_from]. rewrite bind_run. unfold mkdir1.
  destruct (stat fs (pre ++ [c])) as [[cc|]|] eqn:Hs.
  - done.
  - specialize (IH (pre ++ [c]) fs q Hq).
    by destruct (mkdir_from (pre ++ [c]) rest fs) as [[r fs'] t].
  - specialize (IH (pre ++ [c]) (<[pre ++ [c] := Dir]> fs) q (present_insert _ _ _ _ Hq)).
    by destruct (mkdir_from (pre ++ [c]) rest (<[pre ++ [c] := Dir]> fs)) as [[r fs'] t].
Qed.

Lemma mkdir_parents_keeps (p : Path) (fs fs0 : FS) (r : outcome unit) (t0 : list event) :
  mkdir_parents p fs = (r, fs0, t0) -> nothing_removed fs fs0.
Proof.
  intros E. pose proof (mkdir_from_keeps p [] fs) as H.
  fold (mkdir_parents p) in H. by rewrite E in H.
Qed.

Lemma download_file_keeps (env : Env) (d : Dataset) (fs : FS) :
  nothing_removed fs (fs_of (download_file env d fs)).
Proof.
  destruct (download_file_cases env d fs)
    as [e0 fs0 t0 Hmk He0|fs0 t0 Hmk Hn|fs0 t0 r Hmk Hn Hc|fs0 t0 r s Hmk Hn Hc Hi
       |fs0 t0 r s n e Hmk Hn Hc Hi Ho|fs0 t0 r s n Hmk Hn Hc Hi Hne Hb
       |fs0 t0 r s n res tc Hmk Hn Hc Hi Hne Hb Hch];
    pose proof (mkdir_parents_keeps _ _ _ _ _ Hmk) as Hk; intros q Hq;
    unfold fs_of; cbn [fst snd]; auto using present_insert.
Qed.

Lemma file_routine_keeps (compute : bytes -> option (string * bytes)) (i o : Path) (fs : FS) :
  nothing_removed fs (fs_of (file_routine compute i o fs)).
Proof.
  destruct (file_routine_cases compute i o fs); intros q Hq;
    unfold fs_of; cbn [fst snd]; auto using present_insert.
Qed.

(** What [verify_downloaded] may touch, whatever the global [dataset] is. *)
Lemma verify_downloaded_frame (env : Env) (d : Dataset) (fs : FS) :
  let x := verify_downloaded env d fs in
  nothing_removed fs (fs_of x) /\
  (forall p, p <> raw_file_path d -> file_at (fs_of x) p = file_at fs p) /\
  (forall p, In p (written (trace_of x)) -> p = raw_file_path d) /\
  (forall u, In u (requests (trace_of x)) -> u = url d).
Proof.
  cbn zeta. destruct (dataset env) as [g|] eqn:Hg.
  2: { rewrite (verify_downloaded_unbound env d fs Hg). unfold nothing_removed. cbn. repeat split; tauto. }
  destruct (present fs (raw_file_path g)) eqn:Hp.
  { rewrite (verify_downloaded_present env g d fs Hg Hp). unfold nothing_removed. cbn. repeat split; tauto. }
  rewrite (verify_downloaded_missing env g d fs Hg Hp).
  pose proof (download_file_keeps env d fs) as Hk.
  destruct (download_file_frame env d fs) as (Hf & Hw & Hr & _).
  destruct (download_file env d fs) as [[r fs'] t]. by cbn in *.
Qed.

Lemma process_frame (env : Env) (d : Dataset) (compute : bytes -> option (string * bytes))
    (fs : FS) :
  processing_function d = file_routine compute ->
  let x := process env d fs in
  nothing_removed fs (fs_of x) /\
  (forall p, p <> raw_file_path d -> p <> clean_file_path d ->
     file_at (fs_of x) p = file_at fs p) /\
  (forall p, In p (written (trace_of x)) -> p = raw_file_path d \/ p = clean_file_path d) /\
  (forall u, In u (requests (trace_of x)) -> u = url d).
Proof.
  intros Hpf. cbn zeta. rewrite process_run, Hpf.
  destruct (verify_downloaded_frame env d fs) as (Hk & Hf & Hw & Hr).
  destruct (verify_downloaded env d fs) as [[[[]|e] fs1] t1]; cbn in Hk, Hf, Hw, Hr.
  2: { cbn. repeat split; auto. }
  pose proof (file_routine_keeps compute (raw_file_path d) (clean_file_path d) fs1) as Hk2.
  destruct (file_routine_frame compute (raw_file_path d) (clean_file_path d) fs1)
    as (Hf2 & Hw2 & Hr2 & _).
  destruct (file_routine compute (raw_file_path d) (clean_file_path d) fs1)
    as [[r2 fs2] t2]. cbn in *.
  split; [intros q Hq; auto|]. split; [intros p H1 H2; rewrite Hf2, Hf; done|].
  unfold written, requests in *. rewrite !omap_app_events.
  split.
  - intros p [H|H]%in_app_or; [left; auto|right; auto].
  - intros u [H|H]%in_app_or; [auto|]. rewrite Hr2 in H. destruct H.
Qed.

(** X1. A download that returns normally has left at the raw path exactly
    the bytes the server sent, in order, and their digest is the pinned
    one; it made the one request and opened no other file. *)
Theorem download_writes_served_bytes
    (env : Env) (d : Dataset) (fs fs' : FS) (t : list event) :
  download_file env d fs = (Ok tt, fs', t) ->
  exists r,
    net env (url d) = Responds r /\ broken r = false /\
    file_at fs' (raw_file_path d) = Some (concat (chunks r)) /\
    sha256_hexdigest (concat (chunks r)) = hash d /\
    requests t = [url d] /\ written t = [raw_file_path d] /\
    digests t = [(raw_file_path d, hash d)] /\
    (forall p, p <> raw_file_path d -> file_at fs' p = file_at fs p).
Proof.
  intros E. pose proof (download_file_cases env d fs) as Hc. rewrite E in Hc.
  inversion Hc as [| | | | | |fs0 t0 r s n res tc Hmk Hn Hcl Hi Hne Hb Hch]; subst.
  destruct (mkdir_parents_quiet _ _ _ _ _ Hmk) as (Hw & Hr & Hd & _ & Hfile & _).
  assert (Hfa : file_at (<[raw_file_path d:=File (concat (chunks r))]> fs0)
                  (raw_file_path d) = Some (concat (chunks r)))
    by (by apply file_at_stat, stat_insert_eq).
  exists r. destruct (decide (sha256_hexdigest (concat (chunks r)) = hash d)) as [Hh|Hh].
  - rewrite (check_hash_match _ _ _ _ Hfa Hh) in Hch. simplify_eq.
    unfold requests, written, digests in *. rewrite !omap_app_events, Hw, Hr, Hd. cbn.
    split_and!; try done.
    intros p Hp. unfold file_at. rewrite stat_insert_ne by done. apply Hfile.
  - destruct (dataset env) as [g|] eqn:Eg.
    + rewrite (check_hash_mismatch _ _ _ _ _ Hfa Hh Eg) in Hch. by simplify_eq.
    + rewrite (check_hash_mismatch_unbound _ _ _ _ Hfa Hh Eg) in Hch. by simplify_eq.
Qed.

Lemma download_writes_served_bytes_witness :
  let env := in_main_loop good_response pinned_record in
  let x := download_file env pinned_record ∅ in
  x = (Ok tt, fs_of x, trace_of x) /\
  exists r,
    net env (url pinned_record) = Responds r /\ broken r = false /\
    file_at (fs_of x) (raw_file_path pinned_record) = Some (concat (chunks r)) /\
    sha256_hexdigest (concat (chunks r)) = hash pinned_record /\
    requests (trace_of x) = [url pinned_record] /\
    written (trace_of x) = [raw_file_path pinned_record] /\
    digests (trace_of x) = [(raw_file_path pinned_record, hash pinned_record)] /\
    (forall p, p <> raw_file_path pinned_record -> file_at (fs_of x) p = file_at ∅ p).
Proof.
  cbn zeta.
  assert (E : download_file (in_main_loop good_response pinned_record) pinned_record ∅ =
              (Ok tt, fs_of (download_file (in_main_loop good_response pinned_record)
                               pinned_record ∅),
               trace_of (download_file (in_main_loop good_response pinned_record)
                           pinned_record ∅)))
    by (apply run_succeeded; vm_compute; reflexivity).
  split; [exact E|].
  exact (download_writes_served_bytes _ _ _ _ _ E).
Defined.

(** X2. When the download is due and the server cannot be reached, or
    answers with a [Content-Length] that is not an integer, [process]
    raises before the raw file is opened: nothing is written, no digest is
    computed, the routine does not run and the raw path is as before. *)
Theorem refused_download_leaves_no_file
    (env : Env) (g d : Dataset) (fs : FS) :
  dataset env = Some g ->
  present fs (raw_file_path g) = false ->
  (net env (url d) = Unreachable \/
   exists r s, net env (url d) = Responds r /\ content_length r = Some s /\ py_int s = None) ->
  let x := process env d fs in
  ((exists e, result_of x = Raise e /\ mkdir_error e) \/
   (net env (url d) = Unreachable /\ result_of x = Raise (ConnectionError (url d))) \/
   (net env (url d) <> Unreachable /\ result_of x = Raise ValueError)) /\
  exit_status (result_of x) = 1%Z /\
  written (trace_of x) = [] /\
  digests (trace_of x) = [] /\
  printed (trace_of x) = [missing_message g] /\
  fs_of x !! raw_file_path d = fs !! raw_file_path d /\
  (forall p, file_at (fs_of x) p = file_at fs p).
Proof.
  intros Hg Hp Hnet. cbn zeta.
  rewrite process_run, (verify_downloaded_missing env _ d fs Hg Hp).
  destruct (download_file_cases env d fs)
    as [e0 fs0 t0 Hmk He0|fs0 t0 Hmk Hn|fs0 t0 r Hmk Hn Hc|fs0 t0 r s Hmk Hn Hc Hi
       |fs0 t0 r s n e Hmk Hn Hc Hi Ho|fs0 t0 r s n Hmk Hn Hc Hi Hnr Hb
       |fs0 t0 r s n res tc Hmk Hn Hc Hi Hnr Hb Hch];
    destruct (mkdir_parents_quiet _ _ _ _ _ Hmk) as (Hw & Hr & Hd & Hpr & Hfile & Hlook).
  1: destruct He0 as (q & [-> | ->]).
  1-3, 5: unfold result_of, trace_of, fs_of; cbn [fst snd];
       unfold written, digests, printed in *;
       change (EPrint (missing_message g) :: ?t)
         with ([EPrint (missing_message g)] ++ t);
       rewrite ?omap_app_events, ?Hw, ?Hd, ?Hpr;
       (split; [first [left; unfold mkdir_error; by eauto 6
                      |right; left; by split
                      |right; right; split; [by rewrite Hn|done] ]|]);
       repeat (split; [done|]); split; [|done];
       apply Hlook; destruct (raw_file_path d) eqn:E; [by right|left];
       rewrite <- E; apply parent_shorter; congruence.
  all: exfalso; destruct Hnet as [Hu|(r' & s' & Hn' & Hc' & Hi')]; congruence.
Qed.

Lemma refused_download_leaves_no_file_witness :
  let env := {| net := offline; dataset := Some banknote_record |} in
  let x := process env banknote_record ∅ in
  dataset env = Some banknote_record /\
  present ∅ (raw_file_path banknote_record) = false /\
  (net env (url banknote_record) = Unreachable \/
   exists r s, net env (url banknote_record) = Responds r /\
               content_length r = Some s /\ py_int s = None) /\
  ((exists e, result_of x = Raise e /\ mkdir_error e) \/
   (net env (url banknote_record) = Unreachable /\
    result_of x = Raise (ConnectionError (url banknote_record))) \/
   (net env (url banknote_record) <> Unreachable /\ result_of x = Raise ValueError)) /\
  exit_status (result_of x) = 1%Z /\
  written (trace_of x) = [] /\
  digests (trace_of x) = [] /\
  printed (trace_of x) = [missing_message banknote_record] /\
  fs_of x !! raw_file_path banknote_record = (∅ : FS) !! raw_file_path banknote_record /\
  (forall p, file_at (fs_of x) p = file_at ∅ p).
Proof.
  cbn zeta. split; [reflexivity|]. split; [reflexivity|]. split; [left; reflexivity|].
  apply (refused_download_leaves_no_file
           {| net := offline; dataset := Some banknote_record |}
           banknote_record banknote_record ∅);
    [reflexivity|reflexivity|left; reflexivity].
Defined.

(** The same edge with a header that is not a number. *)
Lemma malformed_length_on_example :
  let x := process (in_main_loop malformed_response banknote_record) banknote_record ∅ in
  result_of x = Raise ValueError /\ written (trace_of x) = [] /\
  present (fs_of x) (raw_file_path banknote_record) = false.
Proof. cbn zeta. split_and!; vm_compute; reflexivity. Qed.

(** X3. When the body ends early while it is streamed ([iter_content]
    raises [ChunkedEncodingError]), the chunks it had yielded stay at the
    raw path, with no digest computed. The next call in the main loop
    finds the path present: it makes no request, computes no digest and
    hands the partial file to the routine. *)
Theorem dropped_connection_leaves_partial_file
    (env : Env) (d : Dataset) (compute : bytes -> option (string * bytes))
    (fs fs1 : FS) (t : list event) :
  dataset env = Some d ->
  processing_function d = file_routine compute ->
  download_file env d fs = (Raise ChunkedEncodingError, fs1, t) ->
  exists r,
    net env (url d) = Responds r /\ broken r = true /\
    file_at fs1 (raw_file_path d) = Some (concat (chunks r)) /\
    written t = [raw_file_path d] /\ digests t = [] /\
    process env d fs1 = file_routine compute (raw_file_path d) (clean_file_path d) fs1 /\
    requests (trace_of (process env d fs1)) = [] /\
    digests (trace_of (process env d fs1)) = [].
Proof.
  intros Hg Hpf E. pose proof (download_file_cases env d fs) as Hc. rewrite E in Hc.
  inversion Hc as [e0 fs0 t0 Hmk He0|fs0 t0 Hmk Hn|fs0 t0 r Hmk Hn Hcl|fs0 t0 r s Hmk Hn Hcl Hi
       |fs0 t0 r s n e Hmk Hn Hcl Hi Ho|fs0 t0 r s n Hmk Hn Hcl Hi Hnr Hb
       |fs0 t0 r s n res tc Hmk Hn Hcl Hi Hnr Hb Hch]; subst;
    destruct (mkdir_parents_quiet _ _ _ _ _ Hmk) as (Hw & Hr & Hd & _ & Hfile & _).
  - destruct He0 as (q & [?|?]); done.
  - exfalso. unfold open_wb in Ho. destruct (is_dir fs1 (raw_file_path d)); [done|].
    by destruct (stat fs1 (parent (raw_file_path d))) as [[?|]|].
  - assert (Hfa : file_at (<[raw_file_path d:=File (concat (chunks r))]> fs0)
                    (raw_file_path d) = Some (concat (chunks r)))
      by (by apply file_at_stat, stat_insert_eq).
    exists r. split; [done|]. split; [done|]. split; [done|].
    split; [unfold written in *; by rewrite omap_app_events, Hw|].
    split; [unfold digests in *; by rewrite omap_app_events, Hd|].
    rewrite (process_present env d _ Hg (file_at_present _ _ _ Hfa)), Hpf.
    split; [done|].
    apply (file_routine_frame compute (raw_file_path d) (clean_file_path d)).
  - exfalso.
    assert (Hfa : file_at (<[raw_file_path d:=File (concat (chunks r))]> fs0)
                    (raw_file_path d) = Some (concat (chunks r)))
      by (by apply file_at_stat, stat_insert_eq).
    destruct (decide (sha256_hexdigest (concat (chunks r)) = hash d)) as [Hh|Hh].
    + rewrite (check_hash_match _ _ _ _ Hfa Hh) in Hch. by simplify_eq.
    + rewrite (check_hash_mismatch _ _ _ _ _ Hfa Hh Hg) in Hch. by simplify_eq.
Qed.

Lemma dropped_connection_leaves_partial_file_witness :
  let env := in_main_loop dropped_response pinned_record in
  let d := pinned_record in
  let x := download_file env d ∅ in
  dataset env = Some d /\
  processing_function d = file_routine banknote_compute /\
  x = (Raise ChunkedEncodingError, fs_of x, trace_of x) /\
  exists r,
    net env (url d) = Responds r /\ broken r = true /\
    file_at (fs_of x) (raw_file_path d) = Some (concat (chunks r)) /\
    written (trace_of x) = [raw_file_path d] /\ digests (trace_of x) = [] /\
    process env d (fs_of x) =
      file_routine banknote_compute (raw_file_path d) (clean_file_path d) (fs_of x) /\
    requests (trace_of (process env d (fs_of x))) = [] /\
    digests (trace_of (process env d (fs_of x))) = [].
Proof.
  cbn zeta.
  assert (E : download_file (in_main_loop dropped_response pinned_record) pinned_record ∅ =
              (Raise ChunkedEncodingError,
               fs_of (download_file (in_main_loop dropped_response pinned_record)
                        pinned_record ∅),
               trace_of (download_file (in_main_loop dropped_response pinned_record)
                           pinned_record ∅))).
  { destruct (download_file (in_main_loop dropped_response pinned_record) pinned_record ∅)
      as [[r fs'] t'] eqn:Ex.
    assert (Hr : result_of (download_file (in_main_loop dropped_response pinned_record)
                              pinned_record ∅) = Raise ChunkedEncodingError)
      by (vm_compute; reflexivity).
    rewrite Ex in Hr. cbn in Hr. by rewrite Hr. }
  split; [reflexivity|]. split; [reflexivity|]. split; [exact E|].
  exact (dropped_connection_leaves_partial_file
           (in_main_loop dropped_response pinned_record) pinned_record banknote_compute
           ∅ _ _ eq_refl eq_refl E).
Defined.

(** On the example the first kilobyte of a two-kilobyte file stays on
    disk, and the next call transforms it. *)
Lemma partial_file_is_transformed :
  let env := in_main_loop dropped_response pinned_record in
  let x := process env pinned_record ∅ in
  let x' := process env pinned_record (fs_of x) in
  result_of x = Raise ChunkedEncodingError /\
  (length <$> file_at (fs_of x) (raw_file_path pinned_record)) = Some 1024 /\
  result_of x' = Ok tt /\
  printed (trace_of x') = ["Processed dataset to 31 rows, 5 columns"%string].
Proof. cbn zeta. split_and!; vm_compute; reflexivity. Qed.

(** X4. [process] is confined to its own two files: whatever the global
    [dataset], the network and the outcome, every other file keeps its
    bytes, only the raw and the clean path are ever opened for writing, the
    only URL requested is the record's own, and nothing that was on disk is
    removed. The temporary directory into which [process_absenteeism] and
    [process_bank] unpack their archive belongs to the codec and is not
    part of the file system modelled here. *)
Theorem process_confined_to_own_files
    (env : Env) (d : Dataset) (compute : bytes -> option (string * bytes)) (fs : FS) :
  processing_function d = file_routine compute ->
  let x := process env d fs in
  (forall p, p <> raw_file_path d -> p <> clean_file_path d ->
     file_at (fs_of x) p = file_at fs p) /\
  (forall p, In p (written (trace_of x)) -> p = raw_file_path d \/ p = clean_file_path d) /\
  (forall u, In u (requests (trace_of x)) -> u = url d) /\
  nothing_removed fs (fs_of x).
Proof.
  intros Hpf. destruct (process_frame env d compute fs Hpf) as (H1 & H2 & H3 & H4).
  cbn zeta. auto.
Qed.

Lemma process_confined_to_own_files_witness :
  let env := in_main_loop good_response abalone_record in
  let d := banknote_record in
  let x := process env d disk_with_raw in
  processing_function d = file_routine banknote_compute /\
  (forall p, p <> raw_file_path d -> p <> clean_file_path d ->
     file_at (fs_of x) p = file_at disk_with_raw p) /\
  (forall p, In p (written (trace_of x)) -> p = raw_file_path d \/ p = clean_file_path d) /\
  (forall u, In u (requests (trace_of x)) -> u = url d) /\
  nothing_removed disk_with_raw (fs_of x).
Proof.
  cbn zeta. split; [reflexivity|].
  apply (process_confined_to_own_files (in_main_loop good_response abalone_record)
           banknote_record banknote_compute disk_with_raw). reflexivity.
Defined.

(** X5. The methods depend on the loop variable of the script. With the
    global [dataset] unbound, as when the module's class is used from
    elsewhere, [process] ends with [NameError] before any effect, and
    [check_hash] on a file of another digest ends with [NameError] instead
    of [exit(1)], its diagnostic never printed. *)
Theorem methods_need_the_loop_variable (env : Env) (d : Dataset) (fs : FS) :
  dataset env = None ->
  process env d fs = (Raise (NameError "dataset"), fs, []) /\
  (forall c, file_at fs (raw_file_path d) = Some c ->
     sha256_hexdigest c <> hash d ->
     result_of (check_hash env d fs) = Raise (NameError "dataset") /\
     printed (trace_of (check_hash env d fs)) = []) /\
  (forall c, file_at fs (raw_file_path d) = Some c ->
     sha256_hexdigest c = hash d ->
     result_of (check_hash env d fs) = Ok tt).
Proof.
  intros Hg. split; [by rewrite process_run, verify_downloaded_unbound|]. split.
  - intros c Hc Hh. by rewrite (check_hash_mismatch_unbound env d fs c Hc Hh Hg).
  - intros c Hc Hh. by rewrite (check_hash_match env d fs c Hc Hh).
Qed.

Lemma methods_need_the_loop_variable_witness :
  let env := {| net := serving good_response; dataset := None |} in
  let d := banknote_record in
  dataset env = None /\
  process env d disk_with_raw = (Raise (NameError "dataset"), disk_with_raw, []) /\
  (forall c, file_at disk_with_raw (raw_file_path d) = Some c ->
     sha256_hexdigest c <> hash d ->
     result_of (check_hash env d disk_with_raw) = Raise (NameError "dataset") /\
     printed (trace_of (check_hash env d disk_with_raw)) = []) /\
  (forall c, file_at disk_with_raw (raw_file_path d) = Some c ->
     sha256_hexdigest c = hash d ->
     result_of (check_hash env d disk_with_raw) = Ok tt).
Proof.
  cbn zeta. split; [reflexivity|].
  apply (methods_need_the_loop_variable
           {| net := serving good_response; dataset := None |} banknote_record disk_with_raw).
  reflexivity.
Defined.

(** X6. The main loop runs the records in order and stops at the first
    one that raises: the run over [ds1 ++ ds2] is the run over [ds1], and,
    only if that ends normally, the run over [ds2] on the file system it
    left; after a failure in [ds1] no record of [ds2] has any effect. *)
Theorem main_loop_in_order_until_failure
    (network : string -> http) (ds1 ds2 : list Dataset) (fs : FS) :
  for_each_dataset network (ds1 ++ ds2) fs =
  match for_each_dataset network ds1 fs with
  | (Ok _, fs1, t1) =>
      let '(r, fs2, t2) := for_each_dataset network ds2 fs1 in (r, fs2, t1 ++ t2)
  | (Raise e, fs1, t1) => (Raise e, fs1, t1)
  end.
Proof.
  revert fs. induction ds1 as [|d ds1 IH]; intros fs.
  - cbn. by destruct (for_each_dataset network ds2 fs) as [[r fs2] t2].
  - change ((d :: ds1) ++ ds2) with (d :: (ds1 ++ ds2)). rewrite !for_each_dataset_cons.
    destruct (process _ d fs) as [[[[]|e] fs1] t1]; [|done].
    rewrite IH. destruct (for_each_dataset network ds1 fs1) as [[[[]|e] fs2] t2]; [|done].
    destruct (for_each_dataset network ds2 fs2) as [[r fs3] t3].
    by rewrite app_comm_cons, app_assoc.
Qed.

Lemma process_ok_files (env : Env) (d : Dataset) (compute : bytes -> option (string * bytes))
    (fs fs1 : FS) (t1 : list event) :
  dataset env = Some d ->
  processing_function d = file_routine compute ->
  process env d fs = (Ok tt, fs1, t1) ->
  present fs1 (raw_file_path d) = true /\ present fs1 (clean_file_path d) = true.
Proof.
  intros Hg Hpf E. rewrite process_run, Hpf in E.
  destruct (verify_downloaded env d fs) as [[[[]|e] fs0] t0] eqn:Ev; [|done].
  assert (Hraw : present fs0 (raw_file_path d) = true).
  { destruct (present fs (raw_file_path d)) eqn:Hp.
    - rewrite (verify_downloaded_present env d d fs Hg Hp) in Ev. by simplify_eq.
    - rewrite (verify_downloaded_missing env d d fs Hg Hp) in Ev.
      destruct (download_file env d fs) as [[[[]|e] fs'] t'] eqn:Ed; [|done].
      destruct (download_file_ok env d fs fs' t' Ed) as (c & _ & Hc & _).
      simplify_eq. by eapply file_at_present. }
  destruct (file_routine_cases compute (raw_file_path d) (clean_file_path d) fs0)
    as [e Hf|c Hf Hc|c line out e Hf Hc Ho|c line out Hf Hc Hdir Hpar]; try done.
  simplify_eq. split; [by apply present_insert|].
  unfold present. rewrite stat_insert_eq; [done|]. by eapply is_dir_false_nonroot.
Qed.

Lemma for_each_dataset_keeps (network : string -> http) (ds : list Dataset) (fs : FS) :
  Forall (fun d => exists compute, processing_function d = file_routine compute) ds ->
  nothing_removed fs (fs_of (for_each_dataset network ds fs)).
Proof.
  intros Hds. revert fs. induction Hds as [|d ds (compute & Hpf) _ IH]; intros fs q Hq; [done|].
  rewrite for_each_dataset_cons.
  destruct (process_frame {| net := network; dataset := Some d |} d compute fs Hpf)
    as (Hk & _).
  destruct (process _ d fs) as [[[[]|e] fs1] t1]; cbn in Hk; [|by apply Hk].
  specialize (IH fs1 q (Hk q Hq)).
  by destruct (for_each_dataset network ds fs1) as [[r fs2] t2].
Qed.

(** X7. When the main loop ends normally, every record it went through
    has its raw file and its clean file on disk, and was announced. *)
Theorem finished_run_leaves_every_file
    (network : string -> http) (ds : list Dataset) (fs fs' : FS) (t : list event) :
  Forall (fun d => exists compute, processing_function d = file_routine compute) ds ->
  for_each_dataset network ds fs = (Ok tt, fs', t) ->
  Forall (fun d => present fs' (raw_file_path d) = true /\
                   present fs' (clean_file_path d) = true /\
                   In (gathering_message d) (printed t)) ds.
Proof.
  intros Hds. revert fs fs' t.
  induction Hds as [|d ds (compute & Hpf) Hds IH]; intros fs fs' t E; [constructor|].
  rewrite for_each_dataset_cons in E.
  destruct (process _ d fs) as [[[[]|e] fs1] t1] eqn:Ep; [|done].
  destruct (process_ok_files {| net := network; dataset := Some d |} d compute fs fs1 t1
              eq_refl Hpf Ep) as (Hraw & Hclean).
  pose proof (for_each_dataset_keeps network ds fs1 Hds) as Hk.
  specialize (IH fs1). destruct (for_each_dataset network ds fs1) as [[r fs2] t2].
  simplify_eq. specialize (IH _ _ eq_refl). cbn in Hk. constructor.
  - split; [by apply Hk|]. split; [by apply Hk|]. by left.
  - eapply Forall_impl; [exact IH|]. intros d' (H1 & H2 & H3). split; [done|].
    split; [done|]. right. unfold printed in *. rewrite omap_app_events.
    apply in_or_app. by right.
Qed.

Lemma finished_run_leaves_every_file_witness :
  let x := for_each_dataset (serving good_response) [pinned_record] ∅ in
  Forall (fun d => exists compute, processing_function d = file_routine compute)
    [pinned_record] /\
  x = (Ok tt, fs_of x, trace_of x) /\
  Forall (fun d => present (fs_of x) (raw_file_path d) = true /\
                   present (fs_of x) (clean_file_path d) = true /\
                   In (gathering_message d) (printed (trace_of x))) [pinned_record].
Proof.
  cbn zeta.
  assert (Hds : Forall (fun d => exists compute,
                          processing_function d = file_routine compute) [pinned_record])
    by (constructor; [by exists banknote_compute|constructor]).
  assert (E : for_each_dataset (serving good_response) [pinned_record] ∅ =
              (Ok tt, fs_of (for_each_dataset (serving good_response) [pinned_record] ∅),
               trace_of (for_each_dataset (serving good_response) [pinned_record] ∅)))
    by (apply run_succeeded; vm_compute; reflexivity).
  split; [exact Hds|]. split; [exact E|].
  exact (finished_run_leaves_every_file _ _ _ _ _ Hds E).
Defined.

(** X8. The catalogue: each of the eight records keeps its raw file at
    [<base>/<name>/raw/<file>] and its clean file at
    [<base>/<name>/<name>.csv], its routine has the read, compute, print,
    write shape; the names are distinct, and so are the sixteen paths, so
    that no record writes a file of another. *)
Theorem catalogue_paths_disjoint (io : Codec) (cwd : Path) :
  Forall (fun d => laid_out (base_dir cwd) d /\
                   exists compute, processing_function d = file_routine compute)
    (datasets io cwd) /\
  NoDup (name <$> datasets io cwd) /\
  NoDup ((raw_file_path <$> datasets io cwd) ++ (clean_file_path <$> datasets io cwd)).
Proof.
  split; [|split].
  - unfold datasets, laid_out. repeat constructor; cbn; eauto.
  - by_computation.
  - set (suffixes := [ ["abalone"; "raw"; "abalone.data"];
        ["absenteeism"; "raw"; "Absenteeism_at_work_AAA.zip"];
        ["bank"; "raw"; "bank-additional.zip"];
        ["banknote"; "raw"; "data_banknote_authentication.txt"];
        ["diabetes"; "raw"; "diabetes_data_upload.csv"];
        ["epileptic"; "raw"; "data-epileptic.csv"];
        ["happiness"; "raw"; "SomervilleHappinessSurvey2015.csv"];
        ["seismic"; "raw"; "seismic-bumps.arff"];
        ["abalone"; "abalone.csv"]; ["absenteeism"; "absenteeism.csv"];
        ["bank"; "bank.csv"]; ["banknote"; "banknote.csv"];
        ["diabetes"; "diabetes.csv"]; ["epileptic"; "epileptic.csv"];
        ["happiness"; "happiness.csv"]; ["seismic"; "seismic.csv"] ]%string).
    change ((raw_file_path <$> datasets io cwd) ++ (clean_file_path <$> datasets io cwd))
      with ((fun s => base_dir cwd ++ s) <$> suffixes).
    apply NoDup_fmap_2; [intros a b; apply app_inv_head|].
    subst suffixes. by_computation.
Qed.

(** [mkdir] with [parents=True] leaves what was there as it was. *)
Lemma mkdir_from_preserves (todo pre : Path) (fs : FS) (p : Path) (n : node) :
  stat fs p = Some n -> stat (fs_of (mkdir_from pre todo fs)) p = Some n.
Proof.
  revert pre fs. induction todo as [|c rest IH]; intros pre fs Hp; [done|].
  cbn [mkdir_from]. rewrite bind_run. unfold mkdir1.
  destruct (stat fs (pre ++ [c])) as [[cc|]|] eqn:Hs.
  - done.
  - specialize (IH (pre ++ [c]) fs Hp).
    by destruct (mkdir_from (pre ++ [c]) rest fs) as [[r fs'] t].
  - assert (Hne : pre ++ [c] <> p) by (intros <-; congruence).
    specialize (IH (pre ++ [c]) (<[pre ++ [c] := Dir]> fs)).
    rewrite stat_insert_ne in IH by done. specialize (IH Hp).
    by destruct (mkdir_from (pre ++ [c]) rest (<[pre ++ [c] := Dir]> fs)) as [[r fs'] t].
Qed.

(** When it succeeds, every component on the way is a directory. *)
Lemma mkdir_from_dirs (todo pre : Path) (fs fs' : FS) (t : list event) (k : nat) :
  mkdir_from pre todo fs = (Ok tt, fs', t) ->
  0 < k <= length todo ->
  stat fs' (pre ++ take k todo) = Some Dir.
Proof.
  revert pre fs fs' t k. induction todo as [|c rest IH]; intros pre fs fs' t k E Hk.
  { cbn in Hk. lia. }
  cbn [mkdir_from] in E. rewrite bind_run in E. unfold mkdir1 at 1 in E.
  assert (Hq : pre ++ [c] <> []) by (by destruct pre).
  destruct k as [|k]; [lia|]. cbn [take].
  replace (pre ++ c :: take k rest) with ((pre ++ [c]) ++ take k rest)
    by (by rewrite <- app_assoc).
  destruct (stat fs (pre ++ [c])) as [[cc|]|] eqn:Hs; [done| |].
  - destruct (mkdir_from (pre ++ [c]) rest fs) as [[r fs1] t1] eqn:E1. simplify_eq.
    destruct k as [|k].
    + rewrite take_0, app_nil_r.
      pose proof (mkdir_from_preserves rest (pre ++ [c]) fs _ _ Hs) as H. by rewrite E1 in H.
    + apply (IH _ _ _ _ _ E1). cbn in Hk. lia.
  - destruct (mkdir_from (pre ++ [c]) rest (<[pre ++ [c] := Dir]> fs)) as [[r fs1] t1] eqn:E1.
    simplify_eq. destruct k as [|k].
    + rewrite take_0, app_nil_r.
      pose proof (mkdir_from_preserves rest (pre ++ [c]) (<[pre ++ [c] := Dir]> fs)
                    (pre ++ [c]) Dir (stat_insert_eq _ _ _ Hq)) as H.
      by rewrite E1 in H.
    + apply (IH _ _ _ _ _ E1). cbn in Hk. lia.
Qed.

(** X9. The layout does the work of a second [mkdir]: the directory of
    the clean file lies on the way to the raw file, so after any download
    that returns, for a record laid out as in the catalogue, the directory
    of the clean file exists, the clean path is not the raw path and the
    clean file is as it was. *)
Theorem fresh_download_prepares_clean_directory
    (env : Env) (d : Dataset) (base : Path) (fs fs' : FS) (t : list event) :
  laid_out base d ->
  download_file env d fs = (Ok tt, fs', t) ->
  stat fs' (parent (clean_file_path d)) = Some Dir /\
  clean_file_path d <> raw_file_path d /\
  file_at fs' (clean_file_path d) = file_at fs (clean_file_path d).
Proof.
  intros (file & Hraw & Hclean) E.
  assert (Hne : clean_file_path d <> raw_file_path d).
  { rewrite Hraw, Hclean. intros H%(f_equal length). rewrite !length_app in H. cbn in H. lia. }
  assert (Hpc : parent (clean_file_path d) = base ++ [name d]).
  { rewrite Hclean. unfold parent. by rewrite removelast_app. }
  assert (Hpr : parent (raw_file_path d) = base ++ [name d; "raw"%string]).
  { rewrite Hraw. unfold parent. by rewrite removelast_app. }
  destruct (download_file_frame env d fs) as (Hframe & _). rewrite E in Hframe. cbn in Hframe.
  split; [|split; [done|by apply Hframe]].
  pose proof (download_file_cases env d fs) as Hc. rewrite E in Hc.
  inversion Hc as [| | | | | |fs0 t0 r s n res tc Hmk Hn Hcl Hi Hnr Hb Hch]; subst.
  rewrite stat_insert_ne.
  2: { rewrite Hpc, Hraw. intros H%(f_equal length). rewrite !length_app in H. cbn in H. lia. }
  unfold mkdir_parents in Hmk. rewrite Hpr in Hmk.
  pose proof (mkdir_from_dirs _ [] fs fs0 t0 (length base + 1) Hmk) as Hd.
  rewrite Hpc. cbn [app] in Hd.
  replace (take (length base + 1) (base ++ [name d; "raw"%string])) with (base ++ [name d])
    in Hd.
  - apply Hd. rewrite length_app. cbn. lia.
  - rewrite take_app_add'; done.
Qed.

Lemma fresh_download_prepares_clean_directory_witness :
  let env := in_main_loop good_response pinned_record in
  let x := download_file env pinned_record ∅ in
  laid_out (base_dir cwd) pinned_record /\
  x = (Ok tt, fs_of x, trace_of x) /\
  stat (fs_of x) (parent (clean_file_path pinned_record)) = Some Dir /\
  clean_file_path pinned_record <> raw_file_path pinned_record /\
  file_at (fs_of x) (clean_file_path pinned_record) =
    file_at ∅ (clean_file_path pinned_record).
Proof.
  cbn zeta.
  assert (L : laid_out (base_dir cwd) pinned_record)
    by (exists "data_banknote_authentication.txt"%string; split; reflexivity).
  assert (E : download_file (in_main_loop good_response pinned_record) pinned_record ∅ =
              (Ok tt, fs_of (download_file (in_main_loop good_response pinned_record)
                               pinned_record ∅),
               trace_of (download_file (in_main_loop good_response pinned_record)
                           pinned_record ∅)))
    by (apply run_succeeded; vm_compute; reflexivity).
  split; [exact L|]. split; [exact E|].
  exact (fresh_download_prepares_clean_directory _ _ _ _ _ _ L E).
Defined.

(** * Further properties of the routines *)

Lemma flag_binary (b : bool) : flag b = Some 0%Q \/ flag b = Some 1%Q.
Proof. destruct b; cbn; auto. Qed.

Lemma eq_number_binary (s : series) (v : Q) : binary_series (eq_number s v).
Proof.
  destruct s as [xs|k xs]; cbn; eexists; (split; [done|]);
    apply Forall_fmap, Forall_true; intros x; apply flag_binary.
Qed.

Lemma eq_string_binary (s : series) (v : string) : binary_series (eq_string s v).
Proof.
  destruct s as [xs|[] xs]; cbn; eexists; (split; [done|]);
    apply Forall_fmap, Forall_true; intros x; apply flag_binary.
Qed.

Lemma gt_zero_binary (s s' : series) : gt_zero s = Some s' -> binary_series s'.
Proof.
  destruct s as [xs|k xs]; cbn; intros [= <-]. eexists. split; [done|].
  apply Forall_fmap, Forall_true. intros x. apply flag_binary.
Qed.

(** [df[l] = s] then [df[l]] gives [s] back. *)
Lemma setitem_getitem (df out : frame) (l : label) (s : series) :
  setitem df l s = Some out -> getitem out l = Some s.
Proof.
  unfold setitem. destruct (negb _ && negb _); [done|].
  unfold has_column, columns. destruct (bool_decide _) eqn:H; intros [= <-].
  - apply bool_decide_eq_true in H. induction df as [|[l' s'] df IH].
    + by apply not_elem_of_nil in H.
    + cbn. destruct (decide (l' = l)) as [->|Hne]; cbn.
      * by rewrite decide_True.
      * rewrite decide_False by done. apply IH. cbn in H.
        apply elem_of_cons in H as [?|?]; [congruence|done].
  - apply bool_decide_eq_false in H. induction df as [|[l' s'] df IH]; cbn.
    + by rewrite decide_True.
    + rewrite decide_False.
      * apply IH. intros Hin. apply H. cbn. by right.
      * intros ->. apply H. cbn. by left.
Qed.

Lemma setitem_columns (df out : frame) (l : label) (s : series) :
  setitem df l s = Some out ->
  ((l ∈ columns df) /\ columns out = columns df) \/
  ((l ∉ columns df) /\ out = df ++ [(l, s)]).
Proof.
  unfold setitem. destruct (negb _ && negb _); [done|].
  unfold has_column. destruct (bool_decide _) eqn:H; intros [= <-].
  - apply bool_decide_eq_true in H. left. split; [done|].
    unfold columns. rewrite map_map. apply map_ext. intros [l' s']. cbn.
    by destruct (decide (l' = l)).
  - apply bool_decide_eq_false in H. by right.
Qed.

Lemma setitem_members (df out : frame) (l : label) (s : series) (c : label * series) :
  setitem df l s = Some out -> c ∈ out -> c = (l, s) \/ c ∈ df.
Proof.
  unfold setitem. destruct (negb _ && negb _); [done|].
  destruct (has_column l df); intros [= <-] Hc.
  - apply list_elem_of_fmap in Hc as (c' & -> & Hc').
    destruct (decide (c'.1 = l)); auto.
  - apply elem_of_app in Hc as [Hc|Hc]; [by right|].
    apply list_elem_of_singleton in Hc. by left.
Qed.

(** What the shared tail of a routine gives, from the frame it scales. *)
Lemma assembled_shape (n : nat) (X : frame) (names : list label) (y : series) (out : frame) :
  rows_are n X -> assembled X names y out ->
  n <> 0 /\ X <> [] /\ length names = length X /\
  getitem out (LStr "y") = Some y /\
  (((LStr "y" ∈ names) /\ columns out = names) \/
   ((LStr "y" ∉ names) /\ columns out = names ++ [LStr "y"])) /\
  (forall c, c ∈ out ->
     c = (LStr "y", y) \/ exists col, c.2 = NumCol (scale_column col) /\ length col = n).
Proof.
  intros HX (a & F & Ha & HF & Hset).
  destruct (fit_transform_spec n X a HX Ha) as (Hne & Hn & Hlen & _).
  unfold fit_transform in Ha. destruct (to_array X) as [a0|] eqn:E; [|done].
  destruct (to_array_spec n X a0 HX E) as (_ & _ & _ & Hcols0).
  cbn in Ha. simplify_eq.
  unfold DataFrame in HF. destruct (Nat.eqb _ _) eqn:El; [|done]. apply Nat.eqb_eq in El.
  simplify_eq.
  assert (Hcols : columns (zip names (NumCol <$> (scale_column <$> a0))) = names).
  { unfold columns. apply fst_zip. rewrite length_fmap. lia. }
  split; [done|]. split; [done|]. split; [lia|].
  split; [by eapply setitem_getitem|]. split.
  - destruct (setitem_columns _ _ _ _ Hset) as [[Hin Hc]|[Hin ->]]; rewrite Hcols in *.
    + by left.
    + right. split; [done|]. unfold columns in *. by rewrite map_app, Hcols.
  - intros c Hc. destruct (setitem_members _ _ _ _ c Hset Hc) as [->|Hc']; [by left|].
    right. destruct c as [l s]. apply elem_of_zip_r in Hc'.
    apply list_elem_of_fmap in Hc' as (col' & -> & Hcol').
    apply list_elem_of_fmap in Hcol' as (col & -> & Hcol).
    exists col. split; [done|]. rewrite Forall_forall in Hcols0. by apply Hcols0.
Qed.

(** The numpy array of [process_wbc] scales like the frame of its columns. *)
Lemma fit_transform_of_array (A a : array) :
  array_fit_transform A = Some a ->
  fit_transform ((fun col => (LInt 0, NumCol col)) <$> A) = Some a.
Proof.
  unfold array_fit_transform, fit_transform, to_array.
  destruct A as [|c A]; [done|]. cbn [length hd Nat.eqb orb].
  destruct (Nat.eqb (length c) 0) eqn:E; [done|]. intros [= <-].
  cbn [fmap list_fmap ncols nrows length Nat.eqb orb series_length].
  rewrite E.
  rewrite <- (fmap_cons (fun col : list (option Q) => (LInt 0, NumCol col))).
  by rewrite mapM_fmap_Some.
Qed.

(** Every routine, cut before its shared tail: the frame [X] it scales
    has one row per record read, and so has the label [y]; the names
    follow the routine's rule, and a label made by a comparison is binary. *)
Lemma routine_parts (r : routine) (x : raw_table) (out : frame) :
  clean_table r x = Some out ->
  exists X names y,
    rows_are (records_read r x) X /\ series_length y = records_read r x /\
    assembled X names y out /\ column_names_rule r X names /\
    (compares_for_label r = true -> binary_series y).
Proof.
  destruct r, x as [g|rel]; cbn [clean_table]; try done; intros H.
  - unfold abalone_table in H.
    step_bind H df0 Hread. step_bind H df Hset. step_bind H X Hdrop.
    step_bind H a Ha. step_bind H F HF. step_bind H y Hy.
    pose proof (read_csv_header_none_rows _ g df0 Hread) as Hwf0.
    destruct (set_columns_rows _ _ _ _ Hwf0 Hset) as (Hwf & Hcols).
    destruct (drop_columns_rows _ _ _ _ Hwf Hdrop) as (HwfX & HcolsX).
    exists (get_dummies X), (columns (get_dummies X)), y.
    split; [by apply get_dummies_rows|]. split; [exact (getitem_rows _ _ _ _ Hwf Hy)|].
    split; [by exists a, F|]. done.
  - unfold absenteeism_table in H.
    step_bind H df Hread. step_bind H hours Hh. step_bind H y Hy. step_bind H X Hdrop.
    step_bind H a Ha. step_bind H F HF.
    pose proof (read_csv_rows g df Hread) as Hwf.
    destruct (drop_columns_rows _ _ _ _ Hwf Hdrop) as (HwfX & HcolsX).
    exists (get_dummies X), ((fun c => LStr (tidy_name (label_str c))) <$>
                              columns (get_dummies X)), y.
    split; [by apply get_dummies_rows|].
    split; [rewrite (gt_zero_length _ _ Hy); exact (getitem_rows _ _ _ _ Hwf Hh)|].
    split; [by exists a, F|]. split; [done|]. intros _. by eapply gt_zero_binary.
  - unfold bank_table in H.
    step_bind H df Hread. step_bind H lab Hlab. step_bind H X Hdrop.
    step_bind H a Ha. step_bind H F HF.
    pose proof (read_csv_rows g df Hread) as Hwf.
    destruct (drop_columns_rows _ _ _ _ Hwf Hdrop) as (HwfX & HcolsX).
    exists (get_dummies X), (columns (get_dummies X)), (eq_string lab "yes").
    split; [by apply get_dummies_rows|].
    split; [rewrite eq_string_length; exact (getitem_rows _ _ _ _ Hwf Hlab)|].
    split; [by exists a, F|]. split; [done|]. intros _. apply eq_string_binary.
  - unfold banknote_table in H.
    step_bind H df0 Hread. step_bind H df Hset. step_bind H lab Hlab. step_bind H X Hdrop.
    step_bind H a Ha. step_bind H F HF.
    pose proof (read_csv_rows g df0 Hread) as Hwf0.
    destruct (set_columns_rows _ _ _ _ Hwf0 Hset) as (Hwf & Hcols).
    destruct (drop_columns_rows _ _ _ _ Hwf Hdrop) as (HwfX & HcolsX).
    exists (get_dummies X), (columns (get_dummies X)), (eq_number lab 1).
    split; [by apply get_dummies_rows|].
    split; [rewrite eq_number_length; exact (getitem_rows _ _ _ _ Hwf Hlab)|].
    split; [by exists a, F|]. split; [done|]. intros _. apply eq_number_binary.
  - unfold defaultcc_table in H.
    step_bind H df Hread. step_bind H lab Hlab. step_bind H X Hdrop.
    step_bind H a Ha. step_bind H F HF.
    pose proof (read_excel_rows g df Hread) as Hwf.
    destruct (drop_columns_rows _ _ _ _ Hwf Hdrop) as (HwfX & HcolsX).
    exists (get_dummies X), (columns (get_dummies X)), (eq_number lab 1).
    split; [by apply get_dummies_rows|].
    split; [rewrite eq_number_length; exact (getitem_rows _ _ _ _ Hwf Hlab)|].
    split; [by exists a, F|]. split; [done|]. intros _. apply eq_number_binary.
  - unfold diabetes_table in H.
    step_bind H df Hread. step_bind H lab Hlab. step_bind H X Hdrop.
    step_bind H a Ha. step_bind H F HF.
    pose proof (read_csv_rows g df Hread) as Hwf.
    destruct (drop_columns_rows _ _ _ _ Hwf Hdrop) as (HwfX & HcolsX).
    exists (get_dummies X), (columns (get_dummies X)), (eq_string lab "Positive").
    split; [by apply get_dummies_rows|].
    split; [rewrite eq_string_length; exact (getitem_rows _ _ _ _ Hwf Hlab)|].
    split; [by exists a, F|]. split; [done|]. intros _. apply eq_string_binary.
  - unfold epileptic_table in H.
    step_bind H df Hread. step_bind H X0 Hdrop0. step_bind H X Hdrop.
    step_bind H a Ha. step_bind H F HF. step_bind H y Hy.
    pose proof (read_csv_rows g df Hread) as Hwf.
    destruct (drop_columns_rows _ _ _ _ Hwf Hdrop0) as (HwfX0 & _).
    destruct (drop_columns_rows _ _ _ _ HwfX0 Hdrop) as (HwfX & HcolsX).
    exists X, (columns X), y.
    split; [done|]. split; [exact (getitem_rows _ _ _ _ Hwf Hy)|].
    split; [by exists a, F|]. done.
  - unfold happiness_table in H.
    step_bind H df Hread. step_bind H lab Hlab. step_bind H X Hdrop.
    step_bind H a Ha. step_bind H F HF.
    pose proof (read_csv_rows g df Hread) as Hwf.
    destruct (drop_columns_rows _ _ _ _ Hwf Hdrop) as (HwfX & HcolsX).
    exists (get_dummies X), (LStr <$> happiness_names), (eq_number lab 1).
    split; [by apply get_dummies_rows|].
    split; [rewrite eq_number_length; exact (getitem_rows _ _ _ _ Hwf Hlab)|].
    split; [by exists a, F|]. split; [done|]. intros _. apply eq_number_binary.
  - unfold seismic_table in H.
    step_bind H df0 Hread. step_bind H df1 H1. step_bind H df2 H2. step_bind H df3 H3.
    step_bind H df4 H4. step_bind H df H5. step_bind H lab Hlab. step_bind H X Hdrop.
    step_bind H a Ha. step_bind H F HF.
    pose proof (loadarff_rows rel df0 Hread) as Hwf0.
    destruct (str_decode_rows _ _ _ _ Hwf0 H1) as (Hwf1 & Hc1).
    destruct (str_decode_rows _ _ _ _ Hwf1 H2) as (Hwf2 & Hc2).
    destruct (str_decode_rows _ _ _ _ Hwf2 H3) as (Hwf3 & Hc3).
    destruct (str_decode_rows _ _ _ _ Hwf3 H4) as (Hwf4 & Hc4).
    destruct (str_decode_rows _ _ _ _ Hwf4 H5) as (Hwf & Hc).
    destruct (drop_columns_rows _ _ _ _ Hwf Hdrop) as (HwfX & HcolsX).
    exists (get_dummies X), (columns (get_dummies X)), (eq_string lab "1").
    split; [by apply get_dummies_rows|].
    split; [rewrite eq_string_length; exact (getitem_rows _ _ _ _ Hwf Hlab)|].
    split; [by exists a, F|]. split; [done|]. intros _. apply eq_string_binary.
  - unfold wbc_table in H.
    step_bind H tmp Hread. step_bind H X0 Hsel. step_bind H A Harr. step_bind H y0 Hy0.
    step_bind H y1 Hy1. step_bind H y Hy. step_bind H A' Hfit. step_bind H F HF.
    pose proof (read_csv_header_none_rows _ g tmp Hread) as Hwf.
    destruct (getitems_rows _ _ _ _ Hwf Hsel) as (HwfX0 & _).
    destruct (numeric_array_spec _ _ _ HwfX0 Harr) as (HlenA & HcolsA).
    exists ((fun col => (LInt 0, NumCol col)) <$> nan_to_zero A), (LStr <$> wbc_names), y.
    split.
    { unfold rows_are, nan_to_zero. apply Forall_fmap, Forall_fmap.
      eapply Forall_impl; [exact HcolsA|]. cbn. intros col Hc. by rewrite length_fmap. }
    split.
    { rewrite (label_encode_length _ _ Hy). unfold squeeze in Hy1.
      destruct (Nat.eqb _ _); [done|]. simplify_eq. exact (getitem_rows _ _ _ _ Hwf Hy0). }
    split; [|done]. exists A', F. split; [by apply fit_transform_of_array|]. done.
Qed.

Lemma dedup_names_length (names : list string) (counts : list (string * nat)) :
  length (dedup_names counts names) = length names.
Proof.
  revert counts. induction names as [|col rest IH]; intros counts; [done|].
  cbn [dedup_names]. destruct (dedup_name _ counts col) as [col' counts']. cbn.
  by rewrite IH.
Qed.

Lemma header_labels_length (names : list string) :
  length (header_labels names) = length names.
Proof. unfold header_labels. by rewrite length_fmap, dedup_names_length, length_imap. Qed.

Lemma tidy_char_made (c : ascii) :
  tidy_char (if bool_decide (c = " "%char) || bool_decide (c = "/"%char)
             then "_"%char else lower_char c) = true.
Proof. destruct c as [[] [] [] [] [] [] [] []]; vm_compute; reflexivity. Qed.

Lemma tidy_name_tidy (s : string) : tidy (tidy_name s) = true.
Proof.
  unfold tidy. induction s as [|c s IH]; [done|].
  cbn [tidy_name list_ascii_of_string forallb]. by rewrite tidy_char_made, IH.
Qed.

(** X10. A raw file without a data record makes every routine raise, and
    [process_wbc] also raises on a file with a single record: the scaler
    refuses an empty table, and the label of one row loses its dimension
    in [squeeze]. *)
Theorem no_table_without_data_rows (r : routine) (x : raw_table) :
  records_read r x = 0 \/ (r = Wbc /\ records_read r x = 1) ->
  clean_table r x = None.
Proof.
  intros Hn. destruct (clean_table r x) as [out|] eqn:E; [exfalso|done].
  destruct (routine_parts r x out E) as (X & names & y & HX & Hy & Hasm & _).
  destruct (assembled_shape _ X names y out HX Hasm) as (Hne & _).
  destruct Hn as [Hn|[-> Hn]]; [done|].
  destruct x as [g|rel]; [|done]. cbn in E, Hn. unfold wbc_table in E.
  step_bind E tmp Hread. step_bind E X0 Hsel. step_bind E A Harr. step_bind E y0 Hy0.
  step_bind E y1 Hy1.
  pose proof (read_csv_header_none_rows _ g tmp Hread) as Hwf.
  pose proof (getitem_rows _ _ _ _ Hwf Hy0) as Hlen.
  unfold squeeze in Hy1. rewrite Hlen, Hn in Hy1. done.
Qed.

Lemma no_table_without_data_rows_witness :
  let x := Records [["variance"; "skewness"; "curtosis"; "entropy"; "class"]%string] in
  (records_read Banknote x = 0 \/ (Banknote = Wbc /\ records_read Banknote x = 1)) /\
  clean_table Banknote x = None.
Proof.
  cbn zeta. split; [left; reflexivity|].
  apply (no_table_without_data_rows Banknote
           (Records [["variance"; "skewness"; "curtosis"; "entropy"; "class"]%string])).
  left. reflexivity.
Defined.

(** X11. [process_happiness] and [process_wbc] name the columns
    themselves: whatever the raw file calls its columns, the clean table
    has exactly the six (nine) feature names of the routine followed by
    [y], so a raw file with another number of feature columns is refused. *)
Theorem fixed_names_give_fixed_columns (r : routine) (x : raw_table) (out : frame) :
  clean_table r x = Some out ->
  (r = Happiness -> columns out = LStr <$> (happiness_names ++ ["y"%string])) /\
  (r = Wbc -> columns out = LStr <$> (wbc_names ++ ["y"%string])).
Proof.
  intros E. destruct (routine_parts r x out E) as (X & names & y & HX & Hy & Hasm & Hrule & _).
  destruct (assembled_shape _ X names y out HX Hasm) as (_ & _ & _ & _ & Hcols & _).
  split; intros ->; cbn in Hrule; subst names;
    (destruct Hcols as [[Hin _]|[_ ->]]; [not_listed Hin|done]).
Qed.

Lemma fixed_names_give_fixed_columns_witness :
  let out := default [] (clean_table Happiness (Records happiness_head)) in
  clean_table Happiness (Records happiness_head) = Some out /\
  (Happiness = Happiness -> columns out = LStr <$> (happiness_names ++ ["y"%string])) /\
  (Happiness = Wbc -> columns out = LStr <$> (wbc_names ++ ["y"%string])).
Proof.
  cbn zeta. split; [vm_compute; reflexivity|].
  apply (fixed_names_give_fixed_columns Happiness (Records happiness_head)).
  vm_compute; reflexivity.
Defined.

Lemma abalone_width (g : grid) (out : frame) :
  abalone_table g = Some out -> length (hd [] g) = 9.
Proof.
  intros E. unfold abalone_table in E. step_bind E df0 Hread. step_bind E df Hset.
  unfold read_csv_header_none, read_table in Hread. destruct g as [|r0 g']; [done|].
  apply frame_of_records_rows in Hread as (_ & Hcols).
  unfold set_columns in Hset. destruct (Nat.eqb _ _) eqn:El; [|done].
  apply Nat.eqb_eq in El. apply (f_equal length) in Hcols.
  unfold columns in Hcols. rewrite length_map, length_fmap, length_seq in Hcols.
  cbn in El |- *. lia.
Qed.

Lemma banknote_width (g : grid) (out : frame) :
  banknote_table g = Some out -> length (hd [] g) = 5.
Proof.
  intros E. unfold banknote_table in E. step_bind E df0 Hread. step_bind E df Hset.
  pose proof (read_csv_columns g df0 Hread) as Hcols.
  unfold set_columns in Hset. destruct (Nat.eqb _ _) eqn:El; [|done].
  apply Nat.eqb_eq in El. apply (f_equal length) in Hcols.
  unfold columns in Hcols. rewrite length_map, header_labels_length in Hcols.
  cbn in El. lia.
Qed.

(** X12. Assigning a fixed list of names is a check on the width of the
    raw file: [process_abalone] succeeds only when the first record has
    nine fields, [process_banknote] only when it has five, and
    [process_wbc], which selects the columns 1 to 10 by position, only
    when it has eleven or more. *)
Theorem fixed_names_need_fixed_width (r : routine) (g : grid) (out : frame) :
  clean_table r (Records g) = Some out ->
  (r = Abalone -> length (hd [] g) = 9) /\
  (r = Banknote -> length (hd [] g) = 5) /\
  (r = Wbc -> 11 <= length (hd [] g)).
Proof.
  intros E. split; [|split]; intros ->; cbn [clean_table] in E.
  - by eapply abalone_width.
  - by eapply banknote_width.
  - unfold wbc_table in E. step_bind E tmp Hread. step_bind E X0 Hsel.
    step_bind E A Harr. step_bind E y0 Hy0.
    unfold read_csv_header_none_na, read_table in Hread. destruct g as [|r0 g']; [done|].
    apply frame_of_records_rows in Hread as (_ & Hcols).
    apply getitem_elem in Hy0.
    assert (Hin : LInt 10 ∈ columns tmp).
    { unfold columns. apply list_elem_of_fmap. by exists (LInt 10, y0). }
    rewrite Hcols in Hin. apply list_elem_of_fmap in Hin as (j & [= <-] & Hj).
    apply elem_of_seq in Hj. cbn. lia.
Qed.

Lemma fixed_names_need_fixed_width_witness :
  let out := default [] (clean_table Banknote (Records banknote_head)) in
  clean_table Banknote (Records banknote_head) = Some out /\
  (Banknote = Abalone -> length (hd [] banknote_head) = 9) /\
  (Banknote = Banknote -> length (hd [] banknote_head) = 5) /\
  (Banknote = Wbc -> 11 <= length (hd [] banknote_head)).
Proof.
  cbn zeta. split; [vm_compute; reflexivity|].
  apply (fixed_names_need_fixed_width Banknote banknote_head
           (default [] (clean_table Banknote (Records banknote_head)))).
  vm_compute; reflexivity.
Defined.

(** X13. In the seven routines that derive the label by a comparison
    (absenteeism, bank, banknote, defaultcc, diabetes, happiness, seismic)
    the column [y] of the clean table holds one value per record read, each
    0 or 1 and none missing, also where the compared raw value is missing. *)
Theorem comparison_labels_are_binary (r : routine) (x : raw_table) (out : frame) :
  clean_table r x = Some out ->
  compares_for_label r = true ->
  exists ys,
    getitem out (LStr "y") = Some (NumCol ys) /\
    length ys = records_read r x /\
    Forall (fun v => v = Some 0%Q \/ v = Some 1%Q) ys.
Proof.
  intros E Hr.
  destruct (routine_parts r x out E) as (X & names & y & HX & Hy & Hasm & _ & Hbin).
  destruct (assembled_shape _ X names y out HX Hasm) as (_ & _ & _ & Hget & _).
  destruct (Hbin Hr) as (ys & -> & Hys). by exists ys.
Qed.

Lemma comparison_labels_are_binary_witness :
  let out := default [] (clean_table Diabetes (Records diabetes_with_y)) in
  clean_table Diabetes (Records diabetes_with_y) = Some out /\
  compares_for_label Diabetes = true /\
  exists ys,
    getitem out (LStr "y") = Some (NumCol ys) /\
    length ys = records_read Diabetes (Records diabetes_with_y) /\
    Forall (fun v => v = Some 0%Q \/ v = Some 1%Q) ys.
Proof.
  cbn zeta. split; [vm_compute; reflexivity|]. split; [reflexivity|].
  apply (comparison_labels_are_binary Diabetes (Records diabetes_with_y));
    [vm_compute; reflexivity|reflexivity].
Defined.

(** X14. [process_absenteeism] tidies the names it writes: no column
    name of its clean table holds a blank, a slash or an upper-case ASCII
    letter. *)
Theorem absenteeism_names_are_tidy (g : grid) (out : frame) :
  clean_table Absenteeism (Records g) = Some out ->
  Forall (fun l => tidy (label_str l) = true) (columns out).
Proof.
  intros E.
  destruct (routine_parts _ _ out E) as (X & names & y & HX & Hy & Hasm & Hrule & _).
  destruct (assembled_shape _ X names y out HX Hasm) as (_ & _ & _ & _ & Hcols & _).
  cbn in Hrule. subst names.
  assert (Hnames : Forall (fun l => tidy (label_str l) = true)
                     ((fun c => LStr (tidy_name (label_str c))) <$> columns X)).
  { apply Forall_fmap, Forall_true. intros c. apply tidy_name_tidy. }
  destruct Hcols as [[_ ->]|[_ ->]]; [done|].
  apply Forall_app. split; [done|]. by constructor.
Qed.

Lemma absenteeism_names_are_tidy_witness :
  let out := default [] (clean_table Absenteeism (Records absenteeism_head)) in
  clean_table Absenteeism (Records absenteeism_head) = Some out /\
  columns out = LStr <$> ["reason_for_absence"; "work_load_average_day_"; "y"]%string /\
  Forall (fun l => tidy (label_str l) = true) (columns out).
Proof.
  cbn zeta. split; [vm_compute; reflexivity|]. split; [vm_compute; reflexivity|].
  apply (absenteeism_names_are_tidy absenteeism_head). vm_compute; reflexivity.
Defined.

Lemma frame_of_records_eq na labels records (df : frame) :
  frame_of_records na labels records = Some df ->
  df = imap (fun j l => (l, infer_series (mask_na na <$> column_fields j records))) labels.
Proof. unfold frame_of_records. destruct (rectangular _ _); [|done]. by intros [= <-]. Qed.

(** The label of [process_abalone] in terms of the column reader. *)
Lemma abalone_label_as_read (g : grid) (out : frame) :
  clean_table Abalone (Records g) = Some out ->
  getitem out (LStr "y") = Some (infer_series (mask_na [] <$> column_fields 8 g)).
Proof.
  cbn [clean_table]. intros E. pose proof (abalone_width g out E) as Hw.
  unfold abalone_table in E.
  step_bind E df0 Hread. step_bind E df Hset. step_bind E X Hdrop.
  step_bind E a Ha. step_bind E F HF. step_bind E y Hy.
  rewrite (setitem_getitem _ _ _ _ E). f_equal.
  unfold read_csv_header_none, read_table in Hread. destruct g as [|r0 g']; [done|].
  apply frame_of_records_eq in Hread. cbn [hd] in Hw. rewrite Hw in Hread.
  subst df0. cbn in Hset. simplify_eq. cbn in Hy.
  repeat (rewrite decide_False in Hy by done). rewrite decide_True in Hy by done.
  by simplify_eq.
Qed.

(** The label of [process_banknote] in terms of the column reader. *)
Lemma banknote_label_as_read (g : grid) (out : frame) :
  clean_table Banknote (Records g) = Some out ->
  getitem out (LStr "y") =
    Some (eq_number (infer_series (mask_na [] <$> column_fields 4 (tl g))) 1).
Proof.
  cbn [clean_table]. intros E. pose proof (banknote_width g out E) as Hw.
  unfold banknote_table in E.
  step_bind E df0 Hread. step_bind E df Hset. step_bind E lab Hlab. step_bind E X Hdrop.
  step_bind E a Ha. step_bind E F HF.
  rewrite (setitem_getitem _ _ _ _ E). do 2 f_equal.
  unfold read_csv, read_table in Hread. destruct g as [|names records]; [done|].
  apply frame_of_records_eq in Hread. cbn [hd] in Hw.
  rewrite <- header_labels_length in Hw.
  destruct (header_labels names) as [|l0 [|l1 [|l2 [|l3 [|l4 [|l5 ls]]]]]]; try done.
  subst df0. cbn in Hset. simplify_eq. cbn in Hlab.
  repeat (rewrite decide_False in Hlab by done). rewrite decide_True in Hlab by done.
  by simplify_eq.
Qed.

Lemma all_digits_scan (s : string) (acc v : Z) (n : nat) :
  all_digits acc s = Some v -> scan_digits s acc n = (v, n + String.length s, EmptyString).
Proof.
  revert acc n. induction s as [|c s IH]; intros acc n H; cbn in *.
  - simplify_eq. by rewrite Nat.add_0_r.
  - destruct (digit_of c) as [d|]; [|done]. rewrite (IH _ (S n) H). f_equal. f_equal. lia.
Qed.

Lemma to_numeric_digit_first (c : ascii) (s : string) :
  is_Some (digit_of c) -> to_numeric (String c s) = unsigned_numeric (String c s).
Proof.
  destruct c as [[] [] [] [] [] [] [] []]; try reflexivity; intros [d Hd]; discriminate Hd.
Qed.

(** A field of digits is never taken for a missing value and is read as
    the integer it spells. *)
Lemma plain_count_read (s : string) (v : Z) :
  plain_count s = Some v ->
  mask_na [] s = Some s /\ to_numeric s = Some (inject_Z v).
Proof.
  intros H. split.
  - unfold mask_na. rewrite bool_decide_eq_false_2; [done|]. intros Hin.
    rewrite app_nil_r in Hin. unfold default_na in Hin.
    repeat (apply elem_of_cons in Hin as [->|Hin]; [discriminate H|]).
    by apply not_elem_of_nil in Hin.
  - unfold plain_count in H. destruct (_ && _) eqn:E; [|done].
    destruct s as [|c s]; [done|].
    assert (Hc : is_Some (digit_of c)).
    { cbn in H. destruct (digit_of c); [by eexists|done]. }
    rewrite (to_numeric_digit_first c s Hc). unfold unsigned_numeric.
    by rewrite (all_digits_scan _ _ _ 0 H).
Qed.

Lemma infer_series_plain (fields : list string) (vs : list Z) :
  mapM plain_count fields = Some vs ->
  infer_series (mask_na [] <$> fields) = NumCol ((fun v => Some (inject_Z v)) <$> vs).
Proof.
  intros H. unfold infer_series.
  assert (Hm : mapM (fun f : option string =>
                       match f with
                       | None => Some None
                       | Some s => Some <$> to_numeric s
                       end) (mask_na [] <$> fields) =
               Some ((fun v => Some (inject_Z v)) <$> vs)).
  { apply mapM_Some. apply mapM_Some in H. apply Forall2_fmap.
    eapply Forall2_impl; [exact H|]. intros f v Ef. cbn.
    destruct (plain_count_read f v Ef) as (-> & ->). done. }
  by rewrite Hm.
Qed.

Lemma eq_one_integer (v : Z) : Qeq_bool (inject_Z v) 1 = Z.eqb v 1.
Proof.
  destruct (Z.eqb_spec v 1) as [->|Hne]; [done|].
  apply not_true_is_false. intros H%Qeq_bool_iff. unfold Qeq in H. cbn in H. lia.
Qed.

(** X15. [process_abalone] passes the label through: when the ninth
    field of every record of the file is a string of decimal digits, the
    column [y] of the clean table holds the integers they spell, one per
    record and the first record included, not scaled. *)
Theorem abalone_label_is_ninth_field (g : grid) (out : frame) (vs : list Z) :
  clean_table Abalone (Records g) = Some out ->
  mapM plain_count (column_fields 8 g) = Some vs ->
  getitem out (LStr "y") = Some (NumCol ((fun v => Some (inject_Z v)) <$> vs)).
Proof.
  intros E Hv. rewrite (abalone_label_as_read g out E). f_equal.
  by apply infer_series_plain.
Qed.

Lemma abalone_label_is_ninth_field_witness :
  let out := default [] (clean_table Abalone (Records abalone_gap)) in
  clean_table Abalone (Records abalone_gap) = Some out /\
  mapM plain_count (column_fields 8 abalone_gap) = Some [15; 9; 7]%Z /\
  getitem out (LStr "y") =
    Some (NumCol ((fun v => Some (inject_Z v)) <$> [15; 9; 7]%Z)).
Proof.
  cbn zeta. split; [vm_compute; reflexivity|]. split; [vm_compute; reflexivity|].
  apply (abalone_label_is_ninth_field abalone_gap); vm_compute; reflexivity.
Defined.

(** X16. [process_banknote] derives the label from the records after the
    first, which it takes for the header: when the fifth field of each of
    those records is a string of decimal digits, the column [y] of the
    clean table holds, for each of them in order, 1 if the digits spell
    the integer 1 and 0 otherwise; the fifth field of the first record
    plays no part. *)
Theorem banknote_label_skips_first_record (g : grid) (out : frame) (vs : list Z) :
  clean_table Banknote (Records g) = Some out ->
  mapM plain_count (column_fields 4 (tl g)) = Some vs ->
  getitem out (LStr "y") = Some (NumCol ((fun v => flag (Z.eqb v 1)) <$> vs)).
Proof.
  intros E Hv. rewrite (banknote_label_as_read g out E), (infer_series_plain _ _ Hv).
  cbn. do 2 f_equal. rewrite <- list_fmap_compose. apply list_fmap_ext.
  intros i v _. cbn. by rewrite eq_one_integer.
Qed.

Lemma banknote_label_skips_first_record_witness :
  let out := default [] (clean_table Banknote (Records banknote_genuine_first)) in
  clean_table Banknote (Records banknote_genuine_first) = Some out /\
  column_fields 4 banknote_genuine_first = ["1"; "0"; "0"]%string /\
  mapM plain_count (column_fields 4 (tl banknote_genuine_first)) = Some [0; 0]%Z /\
  getitem out (LStr "y") = Some (NumCol ((fun v => flag (Z.eqb v 1)) <$> [0; 0]%Z)).
Proof.
  cbn zeta. split; [vm_compute; reflexivity|]. split; [reflexivity|].
  split; [vm_compute; reflexivity|].
  apply (banknote_label_skips_first_record banknote_genuine_first); vm_compute; reflexivity.
Defined.

(** Each [process_*] function is the shared shape around its reader and
    its table computation. *)
Lemma routine_of_shape (io : Codec) (r : routine) (i o : Path) (fs : FS) :
  routine_of io r i o fs =
  file_routine (fun raw => x ← raw_reader io r raw; written_table io <$> clean_table r x)
    i o fs.
Proof.
  destruct r; cbn [routine_of]; unfold process_abalone, process_absenteeism, process_bank,
    process_banknote, process_defaultcc, process_diabetes, process_epileptic,
    process_happiness, process_seismic, process_wbc, file_routine;
    rewrite !bind_run; destruct (read_file i fs) as [[[raw|e] fs1] t1]; try done;
    cbn [raw_reader].
  all: try (destruct (zip_member io _ raw) as [member|]; [|done]; cbn [mbind option_bind]).
  all: try (by destruct (csv_records io _ _ _) as [g|]).
  - by destruct (excel_records io raw) as [g|].
  - by destruct (arff_relation io raw) as [a|].
Qed.

(** X17. A [process_*] function that returns has read [input_file] once,
    parsed it with its own reader, printed one line with the row and
    column counts of the clean table, and written that table, rendered
    with [;] as separator, to [output_file]; the table has one row per
    record read, and the file system is otherwise as before (the
    temporary directory of the two archive readers is the codec's). *)
Theorem routine_writes_its_table
    (io : Codec) (r : routine) (i o : Path) (fs fs' : FS) (t : list event) :
  routine_of io r i o fs = (Ok tt, fs', t) ->
  exists raw x out,
    file_at fs i = Some raw /\ raw_reader io r raw = Some x /\
    clean_table r x = Some out /\ nrows out = records_read r x /\
    fs' = <[o := File (to_csv io ";" out)]> fs /\
    t = [ERead i; EPrint (processed_line out); EWrite o].
Proof.
  rewrite routine_of_shape. intros E.
  destruct (file_routine_cases
              (fun raw => x ← raw_reader io r raw; written_table io <$> clean_table r x)
              i o fs) as [e Hf|c Hf Hc|c line out e Hf Hc Ho|c line out Hf Hc Hdir Hpar];
    try done.
  simplify_eq. apply bind_Some in Hc as (x & Hx & Hc).
  apply fmap_Some in Hc as (X & HX & [= -> ->]).
  exists c, x, X. split_and!; try done. by apply rows_kept.
Qed.

Lemma routine_writes_its_table_witness :
  let i := raw_file_path banknote_record in
  let o := clean_file_path banknote_record in
  let x := routine_of plain_codec Banknote i o disk_with_raw in
  x = (Ok tt, fs_of x, trace_of x) /\
  exists raw tbl out,
    file_at disk_with_raw i = Some raw /\ raw_reader plain_codec Banknote raw = Some tbl /\
    clean_table Banknote tbl = Some out /\ nrows out = records_read Banknote tbl /\
    fs_of x = <[o := File (to_csv plain_codec ";" out)]> disk_with_raw /\
    trace_of x = [ERead i; EPrint (processed_line out); EWrite o].
Proof.
  cbn zeta.
  assert (E : routine_of plain_codec Banknote (raw_file_path banknote_record)
                (clean_file_path banknote_record) disk_with_raw =
              (Ok tt,
               fs_of (routine_of plain_codec Banknote (raw_file_path banknote_record)
                        (clean_file_path banknote_record) disk_with_raw),
               trace_of (routine_of plain_codec Banknote (raw_file_path banknote_record)
                           (clean_file_path banknote_record) disk_with_raw)))
    by (apply run_succeeded; vm_compute; reflexivity).
  split; [exact E|].
  exact (routine_writes_its_table plain_codec Banknote _ _ _ _ _ E).
Defined.
